(** * csvexport.py of hantek1008C: a shallow embedding and its properties

    The script drives an 8-channel Hantek 1008 data logger: it resolves the
    channel configuration, builds a correction table from a calibration file,
    measures the achieved sampling rate, streams samples into a CSV sink and
    runs an interactive calibration routine.  Floating-point values are
    IEEE-754 binary64 (Python's [float]), modelled by Rocq's primitive floats.
    Python exceptions are values of [exn]; a computation that may raise
    returns a [result]. *)

From Stdlib Require Import ZArith List Floats.
From stdpp Require Import base option list sorting gmap strings.

(* ===================================================================== *)
(** * Part I: the model                                                    *)
(* ===================================================================== *)

(** ** Python exceptions and results *)

(** The six [fail_message]s of the [arg_assert] calls of the command line,
    and the message of [channel_type]. *)
Inductive parser_message :=
| MsgVscaleArity
| MsgChannelsNotASet
| MsgCalibrationfileWithVolt
| MsgZoscompensationWithVolt
| MsgZosNeedsUnusedChannel
| MsgZosChannelIsSelected (zos : option Z)
| MsgNoChannel (value : Z).

Inductive exn :=
| AssertionError
| ZeroDivisionError
| IndexError
| KeyError
| ValueError
| AttributeError
| UnboundLocalError
| RuntimeError
| KeyboardInterrupt
| EOFError
| FileNotFoundError
| SystemExit (code : Z)
| ParserError (msg : parser_message).

Inductive result (A : Type) :=
| Ok (a : A)
| Raise (e : exn).
Arguments Ok {A} a.
Arguments Raise {A} e.

#[global] Instance result_ret : MRet result := @Ok.
#[global] Instance result_bind : MBind result :=
  λ A B f m, match m with Ok a => f a | Raise e => Raise e end.

#[global] Instance result_fmap : FMap result :=
  λ A B f m, match m with Ok a => Ok (f a) | Raise e => Raise e end.

Definition is_Ok {A} (r : result A) : bool :=
  match r with Ok _ => true | Raise _ => false end.

(** Code that also changes a state [S] (a log, a file, a device): the
    state at the point of the exception is kept. *)
Definition M (S A : Type) : Type := S → result A * S.

#[global] Instance M_ret {S} : MRet (M S) := λ A a s, (Ok a, s).
#[global] Instance M_bind {S} : MBind (M S) :=
  λ A B f m s, match m s with
               | (Ok a, s') => f a s'
               | (Raise e, s') => (Raise e, s')
               end.

Definition lift {S A} (r : result A) : M S A := λ s, (r, s).
Definition raise {S A} (e : exn) : M S A := lift (Raise e).
Definition modify {S} (f : S → S) : M S unit := λ s, (Ok (), f s).

(** A [for] loop over a list, threading a local value. *)
Fixpoint foldM {S B A} (body : B → A → M S B) (b : B) (l : list A) : M S B :=
  match l with
  | [] => mret b
  | x :: l' => b' ← body b x; foldM body b' l'
  end.

(** [assert b] *)
Definition py_assert (b : bool) : result unit :=
  if b then Ok () else Raise AssertionError.

(** [range(lo, hi)] *)
Definition py_range (lo hi : Z) : list Z :=
  (λ i, lo + Z.of_nat i)%Z <$> seq 0 (Z.to_nat (hi - lo)).

(** [l[i]] for a Python list: negative indexes count from the end. *)
Definition py_getitem {A} (l : list A) (i : Z) : result A :=
  let n := Z.of_nat (length l) in
  let j := if (0 <=? i)%Z then i else (n + i)%Z in
  if (0 <=? j)%Z then
    match l !! Z.to_nat j with
    | Some x => Ok x
    | None => Raise IndexError
    end
  else Raise IndexError.

(** [l.index(x)]: the first position of [x], or ValueError. *)
Fixpoint py_index (x : Z) (l : list Z) : result nat :=
  match l with
  | [] => Raise ValueError
  | y :: l' => if bool_decide (y = x) then Ok 0%nat else S <$> py_index x l'
  end.

(** [len(set(l))] *)
Definition len_set (l : list Z) : nat := size (list_to_set l : gset Z).

(** ** Channel configuration: [main], lines 29-54 *)

(** The value passed as [vertical_scale_factor]: [None], a list, or a bare
    float such as the parameter's default [1.0]. *)
Inductive vsf_arg :=
| VsfNone
| VsfFloat (f : float)
| VsfList (l : list float).

Record ChannelConfig := {
  selected_channels : list Z;
  zero_offset_shift_compensation_channel : option Z;
  vertical_scale_factor : list float
}.

Definition in_1_8 (c : Z) : bool := (1 <=? c)%Z && (c <=? 8)%Z.

(** Lines 29-30. *)
Definition default_channels (selected : option (list Z)) : list Z :=
  match selected with
  | None => py_range 1 9
  | Some l => if bool_decide (length l = 0%nat) then py_range 1 9 else l
  end.

(** Lines 29-34. *)
Definition main_selected_channels (selected : option (list Z)) : result (list Z) :=
  let selected := default_channels selected in
  py_assert (bool_decide (len_set selected = length selected));;
  py_assert (forallb in_1_8 selected);;
  Ok ((λ i, i - 1)%Z <$> selected).

(** Lines 36-38. *)
Definition main_zos_channel (zos : option Z) : result (option Z) :=
  py_assert (match zos with None => true | Some c => in_1_8 c end);;
  Ok ((λ c, c - 1)%Z <$> zos).

(** Lines 40-54. *)
Definition main_vertical_scale_factor (vsf : vsf_arg) (selected : list Z)
  : result (list float) :=
  match vsf with
  | VsfFloat _ => Raise AssertionError
  | VsfNone => Ok (replicate 8 1.0%float)
  | VsfList l =>
      if bool_decide (length l = 1%nat) then
        mapM (λ i, if bool_decide (i ∉ selected) then Ok 1.0%float
                   else py_getitem l 0)
             (py_range 0 8)
      else
        py_assert (bool_decide (length l = length selected));;
        mapM (λ i, if bool_decide (i ∉ selected) then Ok 1.0%float
                   else k ← py_index i selected; py_getitem l (Z.of_nat k))
             (py_range 0 8)
  end.

(** Lines 29-54 of [main]. *)
Definition main_channel_config (selected : option (list Z)) (vsf : vsf_arg)
    (zos : option Z) : result ChannelConfig :=
  sel ← main_selected_channels selected;
  z ← main_zos_channel zos;
  v ← main_vertical_scale_factor vsf sel;
  Ok {| selected_channels := sel;
        zero_offset_shift_compensation_channel := z;
        vertical_scale_factor := v |}.

(** ** The command line: [channel_type] and the [arg_assert] calls, lines 285-358 *)

(** [channel_type], applied by argparse to each [--channels] and
    [--zoscompensation] value after [int(value)]; argparse turns the
    ArgumentTypeError into a parser error. *)
Definition channel_type (ivalue : Z) : result Z :=
  if in_1_8 ivalue then Ok ivalue else Raise (ParserError (MsgNoChannel ivalue)).

Definition arg_assert (ok : bool) (fail_message : parser_message) : result unit :=
  if ok then Ok () else Raise (ParserError fail_message).

(** [s.contains(sub)] on a [str]: Python's [str] has no attribute
    [contains], so evaluating the call raises AttributeError. *)
Definition str_contains (s sub : string) : result bool := Raise AttributeError.

(** Lines 346-358.  Python evaluates the arguments of each [arg_assert]
    call before the call; [or] is short-circuit. *)
Definition check_args (vscale : list float) (channels : list Z)
    (calibration_file_path : option string) (raw_or_volt : string)
    (zos_compensation : option Z) : result unit :=
  arg_assert (bool_decide (length vscale = 1%nat)
              || bool_decide (length vscale = length channels)) MsgVscaleArity;;
  arg_assert (bool_decide (len_set channels = length channels)) MsgChannelsNotASet;;
  ok ← match calibration_file_path with
       | None => Ok true
       | Some _ => negb <$> str_contains raw_or_volt "volt"
       end;
  arg_assert ok MsgCalibrationfileWithVolt;;
  ok ← match zos_compensation with
       | None => Ok true
       | Some _ => negb <$> str_contains raw_or_volt "volt"
       end;
  arg_assert ok MsgZoscompensationWithVolt;;
  arg_assert (match zos_compensation with
              | None => true
              | Some _ => bool_decide (length channels < 8)%nat
              end) MsgZosNeedsUnusedChannel;;
  arg_assert (match zos_compensation with
              | None => true
              | Some z => bool_decide (z ∉ channels)
              end) (MsgZosChannelIsSelected zos_compensation).

(** The script run from the command line, up to the end of the channel
    configuration: the values of [--channels] and [--zoscompensation] go
    through [channel_type], then the [arg_assert]s, then [main].  These are
    the checks written in this file; [argparse] makes further ones before
    them (the [choices] of [--vscale], [--raw] and [--samplingrate], which
    come from the driver module), so the script accepts no more than
    [cli_channel_config] does, and a failure of [channel_type] is reported
    in the order of the arguments on the command line. *)
Definition cli_channel_config (channels : list Z) (vscale : list float)
    (calibration_file_path : option string) (raw_or_volt : string)
    (zos_compensation : option Z) : result ChannelConfig :=
  channels ← mapM channel_type channels;
  zos ← match zos_compensation with
        | None => Ok None
        | Some z => Some <$> channel_type z
        end;
  check_args vscale channels calibration_file_path raw_or_volt zos;;
  main_channel_config (Some channels) (VsfList vscale) zos.

(** ** Dictionaries keyed by floats *)

(** A Python [dict] whose keys are floats, in insertion order.  Keys are
    matched with Python's [==] on floats, IEEE equality: [0.0 == -0.0], and a
    NaN equals nothing.  (Python also matches a key against the very same
    object; a NaN key, the only float that differs from itself, is outside
    what this model covers.) *)
Definition fdict (V : Type) : Type := list (float * V).

(** [d.get(k)] *)
Fixpoint fd_get {V} (d : fdict V) (k : float) : option V :=
  match d with
  | [] => None
  | (k', v) :: d' => if (k' =? k)%float then Some v else fd_get d' k
  end.

(** [k in d] *)
Definition fd_contains {V} (d : fdict V) (k : float) : bool :=
  match fd_get d k with Some _ => true | None => false end.

(** [d[k]] *)
Definition fd_getitem {V} (d : fdict V) (k : float) : result V :=
  match fd_get d k with Some v => Ok v | None => Raise KeyError end.

(** [d[k] = v]: an existing key keeps its place and its key object. *)
Fixpoint fd_set {V} (d : fdict V) (k : float) (v : V) : fdict V :=
  match d with
  | [] => [(k, v)]
  | (k', v') :: d' =>
      if (k' =? k)%float then (k', v) :: d' else (k', v') :: fd_set d' k v
  end.

(** [l[i] = x] for a Python list. *)
Definition py_setitem {A} (l : list A) (i : Z) (x : A) : result (list A) :=
  let n := Z.of_nat (length l) in
  let j := if (0 <=? i)%Z then i else (n + i)%Z in
  if (0 <=? j)%Z && (j <? n)%Z then Ok (<[Z.to_nat j := x]> l)
  else Raise IndexError.

(** [a / b] on floats. *)
Definition py_truediv (a b : float) : result float :=
  if (b =? 0)%float then Raise ZeroDivisionError else Ok (a / b)%float.

(** ** The correction table: [main], lines 56-94 *)

(** One entry of the calibration file, as [calibration_routine] writes it:
    four floats. *)
Record Test := {
  test_voltage : float;
  measured_value : float;
  vscale : float;
  zero_offset : float
}.

(** [correction_data[channel_id][vscale][units] = correction_factor] *)
Definition CorrectionDataType : Type := list (fdict (fdict float)).

Inductive log_msg :=
| ErrorNoFile (path : string)
| ErrorIsDirectory (path : string)
| InfoUsingCalibrationData (path : string)
| InfoChannel (channel : Z)
| InfoTest (test : Test) (correction_factor : float)
| WarningNoCalibrationData (channels : list Z)
| InfoExportStdout
| InfoExportLzma (path : string)
| InfoExportFile (path : string)
| InfoCanceledByUser
| InfoExportFinished.

(** Line 56. *)
Definition empty_correction_data : CorrectionDataType := replicate 8 [].

(** Line 81. *)
Definition units_of (test : Test) : float :=
  (measured_value test - zero_offset test)%float.

(** Line 82. *)
Definition correction_factor_of (test : Test) : result float :=
  py_truediv (test_voltage test) (units_of test * 0.01 * vscale test)%float.

(** [log.info], [log.warning], [log.error] *)
Definition log_write (msg : log_msg) : M (list log_msg) unit :=
  modify (λ log, log ++ [msg]).

(** The body of the loop over the tests of a channel, lines 79-89. *)
Definition add_test (channel_id : Z) (correction_data : CorrectionDataType)
    (test : Test) : M (list log_msg) CorrectionDataType :=
  let vscale := vscale test in
  let units := units_of test in
  correction_factor ← lift (correction_factor_of test);
  log_write (InfoTest test correction_factor);;
  d ← lift (py_getitem correction_data channel_id);
  correction_data ←
    (if negb (fd_contains d vscale)
     then lift (py_setitem correction_data channel_id (fd_set d vscale []))
     else mret correction_data);
  d ← lift (py_getitem correction_data channel_id);
  inner ← lift (fd_getitem d vscale);
  lift (py_setitem correction_data channel_id
          (fd_set d vscale (fd_set inner units correction_factor))).

(** What is at the calibration path. *)
Inductive calibration_file :=
| NoSuchFile
| IsDirectory
| JsonObject (calibration_data : list (string * list Test)).

Definition item_le (a b : string * list Test) : Prop := String.leb a.1 b.1 = true.

#[global] Instance item_le_dec : RelDecision item_le.
Proof. intros a b. unfold item_le. apply _. Defined.

(** Line 92. *)
Definition channels_without_cd (correction_data : CorrectionDataType) : list Z :=
  omap (λ ix, if bool_decide (length ix.2 = 0%nat) then Some (Z.of_nat ix.1 + 1)%Z else None)
       (imap pair correction_data).

Section correction_table.

(** Python's [int] on a string (a key of the JSON object). *)
Variable py_int : string → result Z.

(** The body of the loop over the channels, lines 74-89. *)
Definition add_channel (correction_data : CorrectionDataType)
    (item : string * list Test) : M (list log_msg) CorrectionDataType :=
  let '(channel_id, channel_cdata) := item in
  channel_id ← lift (py_int channel_id);
  if bool_decide (length channel_cdata = 0%nat) then mret correction_data
  else
    log_write (InfoChannel (channel_id + 1));;
    foldM (add_test channel_id) correction_data channel_cdata.

(** Lines 56-94: the table handed to the driver, or the exception that ends
    the program.  [if calibration_file_path:] is false for [None] and for
    the empty string.  The keys of a JSON object are strings, pairwise
    distinct; [sorted] orders the items by key. *)
Definition main_correction_data (calibration_file_path : option string)
    (file : calibration_file) : M (list log_msg) CorrectionDataType :=
  let correction_data := empty_correction_data in
  match calibration_file_path with
  | None => mret correction_data
  | Some path =>
      if String.eqb path "" then mret correction_data else
      match file with
      | NoSuchFile => log_write (ErrorNoFile path);; raise (SystemExit 1)
      | IsDirectory => log_write (ErrorIsDirectory path);; raise (SystemExit 1)
      | JsonObject calibration_data =>
          log_write (InfoUsingCalibrationData path);;
          correction_data ← foldM add_channel correction_data
                                  (merge_sort item_le calibration_data);
          let channels_without_cd := channels_without_cd correction_data in
          (if bool_decide (0 < length channels_without_cd)%nat
           then log_write (WarningNoCalibrationData channels_without_cd)
           else mret ());;
          mret correction_data
      end
  end.

End correction_table.

(** ** Sample batches *)

(** One item yielded by the driver's sample generator: [data] holds one
    sequence of values per channel; [time] is the clock reading taken while
    the item is handled ([time.perf_counter()] or [datetime.now()]).  A
    generator is given by the finite list of the items it yields before the
    run ends, and by how it ends. *)
Record Batch (V : Type) := {
  time : float;
  data : list (list V)
}.
Arguments time {V} b.
Arguments data {V} b.

Inductive stream_end :=
| Exhausted
| Raised (e : exn).

(** [float(n)] for a Python int: the nearest binary64, ties to even. *)
Definition float_of_int (n : Z) : float :=
  SF2Prim (binary_normalize prec emax n 0 false).

(** ** [measure_sampling_rate], lines 195-207 *)

(** The loop of lines 198-204 from the given values of [counter] and
    [start_time] ([None]: not yet assigned); [now] is the latest clock
    reading, the [time] of the batch handled last.  Returns the three at
    the exit of the loop. *)
Fixpoint measure_loop {V} (required_samples : Z) (counter : Z)
    (start_time : option float) (now : float) (batches : list (Batch V))
  : result (Z * option float * float) :=
  match batches with
  | [] => Ok (counter, start_time, now)
  | b :: batches' =>
      let now := time b in
      let '(start_time, counter) :=
        if (counter =? -1)%Z then (Some now, 0%Z) else (start_time, counter) in
      data0 ← py_getitem (data b) 0;
      let counter := (counter + Z.of_nat (length data0))%Z in
      if (counter >=? required_samples)%Z then Ok (counter, start_time, now)
      else measure_loop required_samples counter start_time now batches'
  end.

(** [main] passes two ints, the sampling rate and 10.  The reading of the
    clock after the loop (line 206) is taken to be the one made with the
    last batch handled; [measure_sampling_rate_until] below has it as a
    reading of its own. *)
Definition measure_sampling_rate {V} (batches : list (Batch V)) (now : float)
    (used_sampling_rate measurment_duration : Z) : result float :=
  let required_samples := (measurment_duration * used_sampling_rate)%Z in
  '(counter, start_time, now) ← measure_loop required_samples (-1) None now batches;
  start_time ← match start_time with
               | Some t => Ok t
               | None => Raise UnboundLocalError
               end;
  let duration := (now - start_time)%float in
  py_truediv (float_of_int counter) duration.

(** [len(data[0])] of a batch, and the rows of a list of batches. *)
Definition batch_rows {V} (b : Batch V) : Z :=
  match data b with
  | data0 :: _ => Z.of_nat (length data0)
  | [] => 0
  end.

Definition total_rows {V} (batches : list (Batch V)) : Z :=
  foldr (λ b n, batch_rows b + n)%Z 0%Z batches.

(** Python's [zip] applied to the unpacked list of columns: the rows of the
    columns, as many as the shortest column has. *)
Fixpoint zip_rows {V} (n : nat) (columns : list (list V)) : list (list V) :=
  match n with
  | O => []
  | S n' =>
      match mapM head columns with
      | Some row => row :: zip_rows n' (tail <$> columns)
      | None => []
      end
  end.

Definition py_zip_star {V} (columns : list (list V)) : list (list V) :=
  match columns with
  | [] => []
  | c :: _ => zip_rows (length c) columns
  end.

(** ** The CSV export: [main], lines 136-192 *)

(** [s.endswith(suffix)] *)
Definition py_endswith (s suffix : string) : bool :=
  let n := String.length s in
  let m := String.length suffix in
  bool_decide (m ≤ n)%nat && String.eqb (String.substring (n - m) m s) suffix.

(** A column title of line 152: [ch_3] or [ch_3_raw]. *)
Inductive title :=
| Ch (n : Z)
| ChRaw (n : Z).

Definition channel_title (i : Z) : title :=
  if (i <? 8)%Z then Ch (i + 1) else ChRaw (i + 1 - 8).

(** A line of output, by the statement that writes it.  The timestamp of
    the header (line 158) and the one after each batch (lines 173, 184) are
    the same text, [# UNIX-Time: <seconds>]. *)
Inductive Line (V : Type) :=
| ChannelTitles (titles : list title)
| SamplingRate (rate : Z)
| MeasuredSamplingRate (rate : float)
| UnixTime (t : float)
| IsoTime (t : float)
| VscaleLine (factors : list float)
| CalibrationDataHeading
| ZeroOffsetLine (vscale : float) (zero_offset : list float)
| Row (values : list V)
| PrintedLengths (n2 n3 : nat).
Arguments ChannelTitles {V} titles.
Arguments SamplingRate {V} rate.
Arguments MeasuredSamplingRate {V} rate.
Arguments UnixTime {V} t.
Arguments IsoTime {V} t.
Arguments VscaleLine {V} factors.
Arguments CalibrationDataHeading {V}.
Arguments ZeroOffsetLine {V} vscale zero_offset.
Arguments Row {V} values.
Arguments PrintedLengths {V} n2 n3.

Inductive Sink :=
| Stdout
| PlainFile (path : string)
| LzmaFile (path : string).

Inductive sink_state :=
| NotOpened
| Opened (s : Sink)
| Closed (s : Sink).

(** What the export acts on: the log, standard output, the files (the text
    of a compressed file is its decompressed text), the variable [csv_file]
    and the number of calls of [device.close()]. *)
Record World (V : Type) := {
  w_log : list log_msg;
  w_stdout : list (Line V);
  w_files : gmap string (list (Line V));
  w_csv_file : sink_state;
  w_device_close_calls : nat
}.
Arguments w_log {V} w.
Arguments w_stdout {V} w.
Arguments w_files {V} w.
Arguments w_csv_file {V} w.
Arguments w_device_close_calls {V} w.

(** One iteration of normal mode: the two buffers and the clock reading. *)
Record DoubleBatch (V : Type) := {
  time2 : float;
  channel_data2 : list (list V);
  channel_data3 : list (list V)
}.
Arguments time2 {V} d.
Arguments channel_data2 {V} d.
Arguments channel_data3 {V} d.

(** What the driver answers during one export: [get_calibration_data()],
    the generator of [request_samples_roll_mode] and the successive results
    of [request_samples_normal_mode], which is called until it raises. *)
Record Device (V : Type) := {
  get_calibration_data : list (float * list float);
  roll_samples : list (Batch V);
  roll_end : stream_end;
  normal_samples : list (DoubleBatch V);
  normal_end : exn
}.
Arguments get_calibration_data {V} d.
Arguments roll_samples {V} d.
Arguments roll_end {V} d.
Arguments normal_samples {V} d.
Arguments normal_end {V} d.

Definition vscale_le (a b : float * list float) : Prop := (a.1 <=? b.1)%float = true.

#[global] Instance vscale_le_dec : RelDecision vscale_le.
Proof. intros a b. unfold vscale_le. apply _. Defined.

(** Line 137: with ["volt+raw"] the raw companions, eight places further,
    are added after the selected channels. *)
Definition export_channels (raw_or_volt : string) (selected_channels : list Z) : list Z :=
  if String.eqb raw_or_volt "volt+raw"
  then selected_channels ++ ((λ sc, sc + 8)%Z <$> selected_channels)
  else selected_channels.

Section export.

Context {V : Type}.

(** Python's [round(x, ndigits)]. *)
Variable py_round : float → Z → float.

Definition world_log (msg : log_msg) : M (World V) unit :=
  modify (λ w, {| w_log := w_log w ++ [msg]; w_stdout := w_stdout w;
                  w_files := w_files w; w_csv_file := w_csv_file w;
                  w_device_close_calls := w_device_close_calls w |}).

Definition set_csv_file (s : sink_state) : M (World V) unit :=
  modify (λ w, {| w_log := w_log w; w_stdout := w_stdout w;
                  w_files := w_files w; w_csv_file := s;
                  w_device_close_calls := w_device_close_calls w |}).

(** [print] *)
Definition stdout_write (ls : list (Line V)) : M (World V) unit :=
  modify (λ w, {| w_log := w_log w; w_stdout := w_stdout w ++ ls;
                  w_files := w_files w; w_csv_file := w_csv_file w;
                  w_device_close_calls := w_device_close_calls w |}).

(** Opening in mode ['at'] creates a missing file and keeps an existing one. *)
Definition file_append (path : string) (ls : list (Line V)) : M (World V) unit :=
  modify (λ w, {| w_log := w_log w; w_stdout := w_stdout w;
                  w_files := <[path := default [] (w_files w !! path) ++ ls]> (w_files w);
                  w_csv_file := w_csv_file w;
                  w_device_close_calls := w_device_close_calls w |}).

(** Lines 141-149, when [open] succeeds; [open_csv_file_stmts] below has
    the failing [open] as well. *)
Definition open_csv_file (csv_file_path : string) : M (World V) unit :=
  if String.eqb csv_file_path "-" then
    world_log InfoExportStdout;;
    set_csv_file (Opened Stdout)
  else if py_endswith csv_file_path ".xz" then
    world_log (InfoExportLzma csv_file_path);;
    file_append csv_file_path [];;
    set_csv_file (Opened (LzmaFile csv_file_path))
  else
    world_log (InfoExportFile csv_file_path);;
    file_append csv_file_path [];;
    set_csv_file (Opened (PlainFile csv_file_path)).

(** [csv_file.write] and [csv_writer.writerows]: text appended to the sink. *)
Definition csv_file_write (ls : list (Line V)) : M (World V) unit :=
  λ w, match w_csv_file w with
       | Opened Stdout => stdout_write ls w
       | Opened (PlainFile path) | Opened (LzmaFile path) => file_append path ls w
       | Closed _ => (Raise ValueError, w)
       | NotOpened => (Raise UnboundLocalError, w)
       end.

(** Line 189. *)
Definition csv_file_close : M (World V) unit :=
  λ w, match w_csv_file w with
       | Opened s | Closed s => set_csv_file (Closed s) w
       | NotOpened => (Raise UnboundLocalError, w)
       end.

(** Line 192. *)
Definition device_close : M (World V) unit :=
  modify (λ w, {| w_log := w_log w; w_stdout := w_stdout w;
                  w_files := w_files w; w_csv_file := w_csv_file w;
                  w_device_close_calls := S (w_device_close_calls w) |}).

(** The header, lines 152-163. *)
Definition header_lines (selected_channels : list Z) (sampling_rate : Z)
    (measured_sampling_rate : option float) (now : float)
    (vertical_scale_factor : list float)
    (calibration_data : list (float * list float)) : list (Line V) :=
  [ChannelTitles (channel_title <$> selected_channels); SamplingRate sampling_rate]
  ++ match measured_sampling_rate with
     | Some r => if (r =? 0)%float then [] else [MeasuredSamplingRate r]
     | None => []
     end
  ++ [UnixTime now; IsoTime now; VscaleLine vertical_scale_factor;
      CalibrationDataHeading]
  ++ ((λ item, ZeroOffsetLine item.1 ((λ v, py_round v 1) <$> item.2))
        <$> merge_sort vscale_le calibration_data).

(** What one batch of roll mode adds to the sink, lines 167-173. *)
Definition roll_batch_lines (channel_data : list (list V)) (t : float) : list (Line V) :=
  (Row <$> py_zip_star channel_data) ++ [UnixTime t].

(** The loop of lines 166-173. *)
Fixpoint roll_loop (selected_channels : list Z) (batches : list (Batch V))
    (ending : stream_end) : M (World V) unit :=
  match batches with
  | [] => match ending with
          | Exhausted => mret ()
          | Raised e => raise e
          end
  | b :: batches' =>
      channel_data ← lift (mapM (py_getitem (data b)) selected_channels);
      csv_file_write (Row <$> py_zip_star channel_data);;
      csv_file_write [UnixTime (time b)];;
      roll_loop selected_channels batches' ending
  end.

(** The loop of lines 175-184. *)
Fixpoint normal_loop (batches : list (DoubleBatch V)) (ending : exn)
  : M (World V) unit :=
  match batches with
  | [] => raise ending
  | b :: batches' =>
      c2 ← lift (py_getitem (channel_data2 b) 0);
      c3 ← lift (py_getitem (channel_data3 b) 0);
      stdout_write [PrintedLengths (length c2) (length c3)];;
      csv_file_write (Row <$> py_zip_star (channel_data2 b));;
      csv_file_write (Row <$> py_zip_star (channel_data3 b));;
      csv_file_write [UnixTime (time2 b)];;
      normal_loop batches' ending
  end.

(** [try: body except KeyboardInterrupt: handler] *)
Definition try_except_KeyboardInterrupt {S} (body handler : M S unit) : M S unit :=
  λ s, match body s with
       | (Raise KeyboardInterrupt, s') => handler s'
       | r => r
       end.

(** Lines 136-192 of [main], when [open] succeeds and nothing but the
    sample generator raises, an interrupt being an exception of the
    generator; [now] is the clock reading of line 157.  The export in
    which any statement can fail is [main_export_stmts] below, and the two
    agree when no statement fails. *)
Definition main_export (csv_file_path : string) (selected_channels : list Z)
    (vertical_scale_factor : list float) (roll_mode : bool)
    (raw_or_volt : string) (sampling_rate : Z)
    (measured_sampling_rate : option float) (now : float)
    (device : Device V) : M (World V) unit :=
  let selected_channels := export_channels raw_or_volt selected_channels in
  try_except_KeyboardInterrupt
    (open_csv_file csv_file_path;;
     csv_file_write (header_lines selected_channels sampling_rate
                       measured_sampling_rate now vertical_scale_factor
                       (get_calibration_data device));;
     if roll_mode
     then roll_loop selected_channels (roll_samples device) (roll_end device)
     else normal_loop (normal_samples device) (normal_end device))
    (world_log InfoCanceledByUser);;
  csv_file_close;;
  world_log InfoExportFinished;;
  device_close.

End export.

(** The state of a fresh process over the files left by earlier runs. *)
Definition fresh_world {V} (files : gmap string (list (Line V))) : World V :=
  {| w_log := []; w_stdout := []; w_files := files; w_csv_file := NotOpened;
     w_device_close_calls := 0 |}.

(** ** Reading the outcome of an export *)

(** The sink that [csv_file_path] names, lines 141-149. *)
Definition sink_of_path (csv_file_path : string) : Sink :=
  if String.eqb csv_file_path "-" then Stdout
  else if py_endswith csv_file_path ".xz" then LzmaFile csv_file_path
  else PlainFile csv_file_path.

(** The message logged when the sink is opened. *)
Definition open_message (csv_file_path : string) : log_msg :=
  if String.eqb csv_file_path "-" then InfoExportStdout
  else if py_endswith csv_file_path ".xz" then InfoExportLzma csv_file_path
  else InfoExportFile csv_file_path.

(** The text held by a sink. *)
Definition sink_content {V} (s : Sink) (w : World V) : list (Line V) :=
  match s with
  | Stdout => w_stdout w
  | PlainFile path | LzmaFile path => default [] (w_files w !! path)
  end.

(** The text in the sink named by [csv_file_path]. *)
Definition sink_text {V} (csv_file_path : string) (w : World V) : list (Line V) :=
  sink_content (sink_of_path csv_file_path) w.

Definition is_channel_titles {V} (l : Line V) : bool :=
  match l with ChannelTitles _ => true | _ => false end.

Definition is_row {V} (l : Line V) : bool :=
  match l with Row _ => true | _ => false end.


(** The data rows of a text, in order. *)
Definition text_rows {V} (text : list (Line V)) : list (list V) :=
  omap (λ l, match l with Row values => Some values | _ => None end) text.

(** What [print] adds to the text of sink [s]. *)
Definition printed {V} (s : Sink) (ls : list (Line V)) : list (Line V) :=
  match s with Stdout => ls | _ => [] end.

(** How world [w'] differs from [w], seen from sink [s]: the text and the
    log have grown, the device has not been closed in between. *)
Definition evolves {V} (s : Sink) (w w' : World V) (text : list (Line V))
    (logs : list log_msg) : Prop :=
  sink_content s w' = sink_content s w ++ text
  ∧ w_log w' = w_log w ++ logs
  ∧ w_device_close_calls w' = w_device_close_calls w.

(** A text without a line of channel titles. *)
Definition no_titles {V} (text : list (Line V)) : Prop :=
  Forall (λ l, is_channel_titles l = false) text.

(** The exit paths of the export. *)
Inductive exit_path :=
| Completed
| Interrupted
| Fatal (e : exn).

Definition exit_path_of (r : result unit) : exit_path :=
  match r with
  | Ok _ => Completed
  | Raise KeyboardInterrupt => Interrupted
  | Raise e => Fatal e
  end.

(** How the loop over the batches ends, and the rows it has written by
    then: an IndexError of line 167 ends it before the generator does. *)
Fixpoint roll_result {V} (selected_channels : list Z) (batches : list (Batch V))
    (ending : stream_end) : result unit :=
  match batches with
  | [] => match ending with Exhausted => Ok () | Raised e => Raise e end
  | b :: batches' =>
      match mapM (py_getitem (data b)) selected_channels with
      | Ok _ => roll_result selected_channels batches' ending
      | Raise e => Raise e
      end
  end.

Fixpoint roll_rows {V} (selected_channels : list Z) (batches : list (Batch V))
  : list (list V) :=
  match batches with
  | [] => []
  | b :: batches' =>
      match mapM (py_getitem (data b)) selected_channels with
      | Ok channel_data => py_zip_star channel_data ++ roll_rows selected_channels batches'
      | Raise _ => []
      end
  end.

Definition lengths_printable {V} (b : DoubleBatch V) : result unit :=
  py_getitem (channel_data2 b) 0;; py_getitem (channel_data3 b) 0;; Ok ().

Fixpoint normal_result {V} (batches : list (DoubleBatch V)) (ending : exn) : result unit :=
  match batches with
  | [] => Raise ending
  | b :: batches' =>
      match lengths_printable b with
      | Ok _ => normal_result batches' ending
      | Raise e => Raise e
      end
  end.

Fixpoint normal_rows {V} (batches : list (DoubleBatch V)) : list (list V) :=
  match batches with
  | [] => []
  | b :: batches' =>
      match lengths_printable b with
      | Ok _ => py_zip_star (channel_data2 b) ++ py_zip_star (channel_data3 b)
                ++ normal_rows batches'
      | Raise _ => []
      end
  end.

(** The exit path of the export loop: [Ok ()] when the generator ends,
    [Raise KeyboardInterrupt] on an operator interrupt, another exception on
    a fatal error. *)
Definition export_outcome {V} (roll_mode : bool) (selected_channels : list Z)
    (device : Device V) : result unit :=
  if roll_mode
  then roll_result selected_channels (roll_samples device) (roll_end device)
  else normal_result (normal_samples device) (normal_end device).

(** The rows of the batches handled before the loop ends. *)
Definition export_rows {V} (roll_mode : bool) (selected_channels : list Z)
    (device : Device V) : list (list V) :=
  if roll_mode then roll_rows selected_channels (roll_samples device)
  else normal_rows (normal_samples device).

(** ** [calibration_routine], lines 210-272 *)

(** The driver as the routine uses it: [next_row] is one step of the
    generator of [request_samples_roll_mode_single_row(mode="raw")].  The
    generator always delivers its row: a run in which it raises, or in
    which the operator interrupts a measurement, is not among the runs of
    [calibration_routine] below. *)
Class Hantek1008 (D R : Type) := {
  pause : D → D;
  cancel_pause : D → D;
  next_row : D → list R * D;
  get_vscales : D → list float;
  get_zero_offset : D → Z → float
}.

(** A call of [input]: the prompt shown and the line the operator typed. *)
Inductive console_event :=
| AskVoltages (in_str : string)
| AskCell (channel_id : Z) (test_voltage : float) (cmd : string).

(** The state of an interactive session: the device, the lines the operator
    will still type, the calls of [input] so far, the local variable
    [calibration_data], and the files written so far, each with the mapping
    whose JSON text it holds. *)
Record Session (D : Type) := {
  s_device : D;
  s_stdin : list string;
  s_transcript : list console_event;
  s_calibration_data : gmap Z (list Test);
  s_written : list (string * gmap Z (list Test))
}.
Arguments s_device {D} s.
Arguments s_stdin {D} s.
Arguments s_transcript {D} s.
Arguments s_calibration_data {D} s.
Arguments s_written {D} s.

(** How a loop body ends: it goes on, or the function returns. *)
Inductive flow :=
| Next
| Return.

Section calibration.

Context {D R : Type} `{!Hantek1008 D R}.

(** Python's [round(x, ndigits)]. *)
Variable py_round : float → Z → float.

(** [sum(cd) / len(cd)] *)
Variable average : list R → float.

(** [[float(v) for v in in_str.split(',')]]; [None] stands for ValueError. *)
Variable parse_voltages : string → option (list float).

Definition with_device (f : D → D) : M (Session D) unit :=
  modify (λ s, {| s_device := f (s_device s); s_stdin := s_stdin s;
                  s_transcript := s_transcript s;
                  s_calibration_data := s_calibration_data s;
                  s_written := s_written s |}).

Definition set_calibration_data (f : gmap Z (list Test) → gmap Z (list Test))
  : M (Session D) unit :=
  modify (λ s, {| s_device := s_device s; s_stdin := s_stdin s;
                  s_transcript := s_transcript s;
                  s_calibration_data := f (s_calibration_data s);
                  s_written := s_written s |}).

(** [input(prompt)]: the next line of standard input, EOFError at its end. *)
Definition input (prompt : string → console_event) : M (Session D) string :=
  λ s, match s_stdin s with
       | [] => (Raise EOFError, s)
       | line :: rest =>
           (Ok line, {| s_device := s_device s; s_stdin := rest;
                        s_transcript := s_transcript s ++ [prompt line];
                        s_calibration_data := s_calibration_data s;
                        s_written := s_written s |})
       end.

(** The loop of lines 222-229.  Every iteration reads a line, so the number
    [fuel] of lines left on standard input bounds the loop; at its end
    [input] raises EOFError. *)
Fixpoint read_test_voltages (fuel : nat) : M (Session D) (list float) :=
  match fuel with
  | O => raise EOFError
  | S fuel' =>
      in_str ← input AskVoltages;
      match parse_voltages in_str with
      | Some test_voltages => mret test_voltages
      | None => read_test_voltages fuel'
      end
  end.

(** Lines 251-255: [zip] stops after 512 rows of the generator. *)
Fixpoint take_rows (n : nat) (d : D) : list (list R) * D :=
  match n with
  | O => ([], d)
  | S n' =>
      let '(row, d) := next_row d in
      let '(rows, d) := take_rows n' d in
      (row :: rows, d)
  end.

Definition required_calibration_samples_nun : nat := 512.

(** Lines 250-255. *)
Definition collect_rows (n : nat) : M (Session D) (list (list R)) :=
  λ s, let '(rows, d) := take_rows n (s_device s) in
       (Ok rows, {| s_device := d; s_stdin := s_stdin s;
                    s_transcript := s_transcript s;
                    s_calibration_data := s_calibration_data s;
                    s_written := s_written s |}).

Definition gets {S A} (f : S → A) : M S A := λ s, (Ok (f s), s).

(** [calibration_data[channel_id]] *)
Definition records_of (channel_id : Z) : M (Session D) (list Test) :=
  λ s, (match s_calibration_data s !! channel_id with
        | Some l => Ok l
        | None => Raise KeyError
        end, s).

(** Lines 247-268. *)
Definition measure (channel_id : Z) (test_voltage : float) : M (Session D) unit :=
  with_device cancel_pause;;
  data ← collect_rows required_calibration_samples_nun;
  with_device pause;;
  let channel_data := py_zip_star data in
  cd ← lift (py_getitem channel_data channel_id);
  let avg := average cd in
  records ← records_of channel_id;
  vscales ← gets (λ s, get_vscales (s_device s));
  vscale ← lift (py_getitem vscales channel_id);
  zero_offset ← gets (λ s, get_zero_offset (s_device s) channel_id);
  set_calibration_data
    (<[channel_id := records ++ [{| test_voltage := test_voltage;
                                    measured_value := py_round avg 2;
                                    vscale := vscale;
                                    zero_offset := py_round zero_offset 2 |}]]>).

(** The loop of lines 237-268 over the remaining voltages of a channel. *)
Fixpoint voltage_loop (channel_id : Z) (test_voltages : list float)
  : M (Session D) flow :=
  match test_voltages with
  | [] => mret Next
  | test_voltage :: test_voltages' =>
      cmd ← input (AskCell channel_id test_voltage);
      if String.eqb cmd "q" then mret Return
      else if String.eqb cmd "ss" then mret Next
      else if String.eqb cmd "s" then voltage_loop channel_id test_voltages'
      else measure channel_id test_voltage;;
           voltage_loop channel_id test_voltages'
  end.

(** The loop of lines 233-268 over the remaining channels. *)
Fixpoint channel_loop (test_voltages : list float) (channels : list Z)
  : M (Session D) flow :=
  match channels with
  | [] => mret Next
  | channel_id :: channels' =>
      set_calibration_data (<[channel_id := []]>);;
      f ← voltage_loop channel_id test_voltages;
      match f with
      | Return => mret Return
      | Next => channel_loop test_voltages channels'
      end
  end.

(** Lines 271-272. *)
Definition write_calibration_file (calibrate_file_path : string) : M (Session D) unit :=
  modify (λ s, {| s_device := s_device s; s_stdin := s_stdin s;
                  s_transcript := s_transcript s;
                  s_calibration_data := s_calibration_data s;
                  s_written := s_written s
                               ++ [(calibrate_file_path, s_calibration_data s)] |}).

Definition calibration_routine (calibrate_file_path : string) : M (Session D) unit :=
  set_calibration_data (λ _, ∅);;
  with_device pause;;
  fuel ← gets (λ s, length (s_stdin s));
  test_voltages ← read_test_voltages fuel;
  f ← channel_loop test_voltages (py_range 0 8);
  match f with
  | Return => mret ()
  | Next => write_calibration_file calibrate_file_path
  end.

End calibration.

(** ** Reading the correction table *)

(** [correction_data[channel_id][vscale][units]], [None] when a key is
    missing. *)
Definition table_get (correction_data : CorrectionDataType) (channel_id : Z)
    (vscale units : float) : option float :=
  match py_getitem correction_data channel_id with
  | Ok d => inner ← fd_get d vscale; fd_get inner units
  | Raise _ => None
  end.

(** The number of entries of a dictionary whose key equals [k]. *)
Fixpoint fd_count {V} (d : fdict V) (k : float) : nat :=
  match d with
  | [] => 0
  | (k', _) :: d' => (if (k' =? k)%float then 1 else 0) + fd_count d' k
  end.

(** The number of factors the table holds under a key. *)
Definition table_count (correction_data : CorrectionDataType) (channel_id : Z)
    (vscale units : float) : nat :=
  match py_getitem correction_data channel_id with
  | Ok d => match fd_get d vscale with
            | Some inner => fd_count inner units
            | None => 0
            end
  | Raise _ => 0
  end.

(** The dictionary of a channel after lines 86-87 for test [t]. *)
Definition with_vscale (d : fdict (fdict float)) (t : Test) : fdict (fdict float) :=
  if fd_contains d (vscale t) then d else fd_set d (vscale t) [].

(** A dictionary never holds two entries with equal keys. *)
Definition fd_wf {V} (d : fdict V) : Prop := ∀ k, fd_count d k ≤ 1.

Definition table_wf (correction_data : CorrectionDataType) : Prop :=
  Forall (λ d, fd_wf d ∧ Forall (λ kv, fd_wf kv.2) d) correction_data.

(** The lines that line 84 logs for a list of tests. *)
Definition test_log (tests : list Test) : list log_msg :=
  omap (λ t, match correction_factor_of t with
             | Ok f => Some (InfoTest t f)
             | Raise _ => None
             end) tests.

(** Two tests with equal keys [(vscale, units)]. *)
Definition same_key (t1 t2 : Test) : Prop :=
  (vscale t1 =? vscale t2)%float = true ∧ (units_of t1 =? units_of t2)%float = true.

(** [int(s)] for a string of ASCII decimal digits, the form of the keys that
    [calibration_routine] writes.  (Python's [int] accepts further forms,
    such as a sign or surrounding blanks, which yield ValueError here; the
    properties below hold for any function in the place of [int].) *)
Fixpoint digits_value (acc : Z) (s : string) : result Z :=
  match s with
  | EmptyString => Ok acc
  | String a s' =>
      let n := Z.of_N (Ascii.N_of_ascii a) in
      if (48 <=? n)%Z && (n <=? 57)%Z then digits_value (10 * acc + (n - 48)) s'
      else Raise ValueError
  end.

Definition int_of_digits (s : string) : result Z :=
  match s with
  | EmptyString => Raise ValueError
  | _ => digits_value 0 s
  end.

(** ** Reading the transcript of a calibration session *)

(** No cell was answered with [q]. *)
Definition no_quit (asked : list console_event) : Prop :=
  ∀ c v, AskCell c v "q" ∉ asked.

(** Channel [c] was left by [ss], or every test voltage was put to the
    operator for it. *)
Definition channel_decided (test_voltages : list float) (asked : list console_event)
    (c : Z) : Prop :=
  (∃ v, AskCell c v "ss" ∈ asked)
  ∨ ∀ v, v ∈ test_voltages → ∃ cmd, AskCell c v cmd ∈ asked.

(** Every answer given for channel [c] was [s] or [ss]. *)
Definition channel_skipped (asked : list console_event) (c : Z) : Prop :=
  ∀ v cmd, AskCell c v cmd ∈ asked → cmd = "s" ∨ cmd = "ss".

(** ** Devices and sessions used in the examples *)

(** A driver that yields one batch of three channels and two rows, and is
    then interrupted by the operator. *)
Definition interrupted_device : Device Z :=
  {| get_calibration_data := [];
     roll_samples := [{| time := 12.5; data := [[1; 2]; [3; 4]; [5; 6]]%Z |}];
     roll_end := Raised KeyboardInterrupt;
     normal_samples := [];
     normal_end := KeyboardInterrupt |}.


(** An export of channels 3 and 1 to [out.csv], started at clock reading
    [now]; no zero-offset line is written, so [round] is never called. *)
Definition example_export (now : float) (device : Device Z) : M (World Z) unit :=
  main_export (λ x _, x) "out.csv" [2; 0]%Z
    [1.0; 1.0; 1.0; 1.0; 1.0; 1.0; 1.0; 1.0]%float true "volt" 440 None now device.

(** A driver delivering 2200 rows on each of 8 channels every 5 seconds,
    that is 440 rows per second, the first batch after a warm-up of 5
    seconds. *)
Definition steady_batches : list (Batch Z) :=
  [{| time := 5.0; data := replicate 8 (replicate 2200 0%Z) |};
   {| time := 10.0; data := replicate 8 (replicate 2200 0%Z) |};
   {| time := 15.0; data := replicate 8 (replicate 2200 0%Z) |}].

(** A driver whose rows hold the number of the row on each of 8 channels. *)
#[global] Instance counting_device : Hantek1008 nat Z :=
  {| pause d := d;
     cancel_pause d := d;
     next_row d := (replicate 8 (Z.of_nat d), S d);
     get_vscales d := replicate 8 1.0%float;
     get_zero_offset d c := 0.5%float |}.

(** The mean of a list of ints, for the examples. *)
Definition mean_of_ints (cd : list Z) : float :=
  (float_of_int (foldr Z.add 0%Z cd) / float_of_int (Z.of_nat (length cd)))%float.

(** The operator's list of voltages, for the examples: the line [1,2]. *)
Definition parse_example_voltages (in_str : string) : option (list float) :=
  if String.eqb in_str "1,2" then Some [1.0; 2.0]%float else None.

(** A session in which the operator types the given lines. *)
Definition example_session (lines : list string) : Session nat :=
  {| s_device := 0; s_stdin := lines; s_transcript := [];
     s_calibration_data := ∅; s_written := [] |}.

Definition example_routine (lines : list string) : result unit * Session nat :=
  calibration_routine (λ x _, x) mean_of_ints parse_example_voltages "cal.json"
    (example_session lines).

(** The operator gives the voltages 1 and 2, skips the first and measures
    the second on channel 1, and skips channels 2 to 8. *)
Definition completing_lines : list string :=
  ["1,2"; "s"; ""; "ss"; "ss"; "ss"; "ss"; "ss"; "ss"; "ss"].

(** The operator measures one voltage on channel 1 and then quits. *)
Definition quitting_lines : list string := ["1,2"; ""; "q"].


(** ** Reading the outcome of a load *)

(** The place in a list of [n] items that the Python index [k] names:
    [k] itself, or [n + k] for a negative [k]. *)
Definition names_place (n : nat) (k : Z) (i : nat) : Prop :=
  k = Z.of_nat i ∨ k = (Z.of_nat i - Z.of_nat n)%Z.

(** The file has a record for place [i] of a table of [n] channels: a key
    that names the place, with a list of tests that is not empty. *)
Definition has_record (py_int : string → result Z) (n : nat)
    (items : list (string * list Test)) (i : nat) : Prop :=
  ∃ key tests k, (key, tests) ∈ items ∧ py_int key = Ok k ∧ tests ≠ []
                 ∧ names_place n k i.

(** The lines logged by the loops of lines 73-84. *)
Definition is_load_line (m : log_msg) : Prop :=
  match m with InfoChannel _ | InfoTest _ _ => True | _ => False end.

(** A calibration file with one record for channel 1 and one for channel
    8, the table it loads and the log of the load. *)
Definition example_test : Test :=
  {| test_voltage := 5.0; measured_value := 510.0; vscale := 1.0; zero_offset := 10.0 |}.

Definition example_items : list (string * list Test) :=
  [("7"%string, [example_test]); ("0"%string, [example_test])].

Definition example_table : CorrectionDataType :=
  [[(1.0, [(500.0, 1.0)])]; []; []; []; []; []; []; [(1.0, [(500.0, 1.0)])]]%float.

Definition example_load_log : list log_msg :=
  [InfoUsingCalibrationData "cal.json";
   InfoChannel 1; InfoTest example_test 1.0;
   InfoChannel 8; InfoTest example_test 1.0;
   WarningNoCalibrationData [2; 3; 4; 5; 6; 7]%Z].

(** ** Reading the text of an export *)

(** The files an export to sink [s] has no business with: all of them for
    standard output, all but the sink otherwise. *)
Definition other_files {V} (s : Sink) (w : World V) : gmap string (list (Line V)) :=
  match s with
  | Stdout => w_files w
  | PlainFile path | LzmaFile path => delete path (w_files w)
  end.

(** From [w] to [w'] the text of sink [s] has grown by [text], and no other
    file has changed. *)
Definition grows {V} (s : Sink) (w w' : World V) (text : list (Line V)) : Prop :=
  sink_content s w' = sink_content s w ++ text
  ∧ other_files s w' = other_files s w.

(** The text of the batches handled before the loop of roll mode ends:
    the rows of each batch, then its timestamp. *)
Fixpoint roll_text {V} (selected_channels : list Z) (batches : list (Batch V))
  : list (Line V) :=
  match batches with
  | [] => []
  | b :: batches' =>
      match mapM (py_getitem (data b)) selected_channels with
      | Ok channel_data =>
          roll_batch_lines channel_data (time b) ++ roll_text selected_channels batches'
      | Raise _ => []
      end
  end.

(** The same for normal mode, as sink [s] receives it: the two lengths
    that line 178 prints go to standard output. *)
Fixpoint normal_text {V} (s : Sink) (batches : list (DoubleBatch V)) : list (Line V) :=
  match batches with
  | [] => []
  | b :: batches' =>
      match py_getitem (channel_data2 b) 0, py_getitem (channel_data3 b) 0 with
      | Ok c2, Ok c3 =>
          printed s [PrintedLengths (length c2) (length c3)]
          ++ (Row <$> py_zip_star (channel_data2 b))
          ++ (Row <$> py_zip_star (channel_data3 b))
          ++ [UnixTime (time2 b)]
          ++ normal_text s batches'
      | _, _ => []
      end
  end.

Definition export_text {V} (roll_mode : bool) (s : Sink) (selected_channels : list Z)
    (device : Device V) : list (Line V) :=
  if roll_mode then roll_text selected_channels (roll_samples device)
  else normal_text s (normal_samples device).

(** The test voltages of the cells of channel [channel_id] that the
    operator had measured: the answers other than [q], [ss] and [s], in the
    order of the prompts. *)
Definition measured_voltages (channel_id : Z) (asked : list console_event) : list float :=
  omap (λ ev, match ev with
              | AskCell c v cmd =>
                  if (c =? channel_id)%Z
                     && negb (String.eqb cmd "q" || String.eqb cmd "ss" || String.eqb cmd "s")
                  then Some v else None
              | AskVoltages _ => None
              end) asked.

(** A session at the first cell of channel 1, for the examples. *)
Definition measuring_session : Session nat :=
  {| s_device := 0; s_stdin := []; s_transcript := [];
     s_calibration_data := <[0%Z := []]> ∅; s_written := [] |}.

(** ** Connecting to the device: [main], lines 101-119 *)

(** The lines logged while connecting; a RuntimeError is logged by line
    107 or 114. *)
Inductive connect_msg :=
| InfoConnecting
| ErrorRuntimeError
| InfoConnectionEstablished
| InfoInitialising
| InfoInitialisationCompleted.

(** The log and the number of calls of [device.close()]. *)
Record Startup := {
  st_log : list connect_msg;
  st_device_close_calls : nat
}.

Definition startup_log (msg : connect_msg) : M Startup unit :=
  modify (λ st, {| st_log := st_log st ++ [msg];
                   st_device_close_calls := st_device_close_calls st |}).

Definition startup_device_close : M Startup unit :=
  modify (λ st, {| st_log := st_log st;
                   st_device_close_calls := S (st_device_close_calls st) |}).

(** [try: body except RuntimeError as e: handler] *)
Definition try_except_RuntimeError {S} (body handler : M S unit) : M S unit :=
  λ s, match body s with
       | (Raise RuntimeError, s') => handler s'
       | r => r
       end.

(** Lines 101-119; [connect] and [init] are what [device.connect()] and
    [device.init()] do when they are called. *)
Definition main_connect (connect init : result unit) : M Startup unit :=
  try_except_KeyboardInterrupt
    (startup_log InfoConnecting;;
     try_except_RuntimeError (lift connect)
       (startup_log ErrorRuntimeError;; raise (SystemExit 1));;
     startup_log InfoConnectionEstablished;;
     startup_log InfoInitialising;;
     try_except_RuntimeError (lift init)
       (startup_log ErrorRuntimeError;; raise (SystemExit 1));;
     startup_log InfoInitialisationCompleted)
    (startup_device_close;; raise (SystemExit 0)).

(** The first exception of the two calls; [init] is called only after
    [connect] has returned. *)
Definition first_failure (connect init : result unit) : option exn :=
  match connect, init with
  | Raise e, _ => Some e
  | Ok _, Raise e => Some e
  | Ok _, Ok _ => None
  end.

(** ** Reading the transcript of a completed calibration *)

(** The answers that settle a channel for the voltages [test_voltages]:
    one answer per voltage, in the order of the voltages, none of them [q],
    until the voltages are through or [ss] is answered. *)
Definition answers_decide (test_voltages : list float) (cmds : list string) : Prop :=
  ∃ before,
    Forall (λ cmd, cmd ≠ "q"%string ∧ cmd ≠ "ss"%string) before
    ∧ ((cmds = before ∧ length before = length test_voltages)
       ∨ (cmds = before ++ ["ss"%string]
          ∧ (length before < length test_voltages)%nat)).

(** The cells of one channel, as the transcript shows them when the channel
    is settled: the prompts for the voltages, in order, with their answers. *)
Definition channel_cells (test_voltages : list float) (channel_id : Z)
    (cells : list console_event) : Prop :=
  ∃ cmds, answers_decide test_voltages cmds
          ∧ cells = zip_with (AskCell channel_id) test_voltages cmds.

(** ** The export, statement by statement: [main], lines 139-192 *)

(** [main_export] above is the export in which [open] succeeds and nothing
    but the sample generator raises.  Here every statement that acts on the
    outside world can fail.  The statements of a run are numbered in the
    order in which they are executed, and [faults k = Some e] says that
    statement [k] raises [e] instead of taking effect: an OSError of [open]
    or of a write, or the KeyboardInterrupt that reaches the program while
    the statement runs or since the previous one ended (the code between
    two such statements has no effect on the outside world).  A statement
    is a call of [log.info], of [open], of [csv_file.write], of [print], of
    [close], one row written by [csv_writer.writerows], or one step of the
    sample generator. *)
Record Process (V : Type) := {
  p_world : World V;
  p_clock : nat
}.
Arguments p_world {V} p.
Arguments p_clock {V} p.

Section export_statements.

Context {V : Type}.
Variable py_round : float → Z → float.
Variable faults : nat → option exn.

Definition stmt {A} (m : M (World V) A) : M (Process V) A :=
  λ p, match faults (p_clock p) with
       | Some e => (Raise e, {| p_world := p_world p; p_clock := S (p_clock p) |})
       | None => ((m (p_world p)).1,
                  {| p_world := (m (p_world p)).2; p_clock := S (p_clock p) |})
       end.

(** [open(csv_file_path, 'at', newline='')] and [lzma.open]: the file is
    created when it is missing; then [csv_file] is bound. *)
Definition open_append (csv_file_path : string) (s : Sink) : M (World V) unit :=
  file_append csv_file_path [];; set_csv_file (Opened s).

(** Lines 141-149. *)
Definition open_csv_file_stmts (csv_file_path : string) : M (Process V) unit :=
  if String.eqb csv_file_path "-" then
    stmt (world_log InfoExportStdout);;
    stmt (set_csv_file (Opened Stdout))
  else if py_endswith csv_file_path ".xz" then
    stmt (world_log (InfoExportLzma csv_file_path));;
    stmt (open_append csv_file_path (LzmaFile csv_file_path))
  else
    stmt (world_log (InfoExportFile csv_file_path));;
    stmt (open_append csv_file_path (PlainFile csv_file_path)).

(** Lines written one after the other: the calls of [csv_file.write] of
    lines 153-163, the rows of one [csv_writer.writerows]. *)
Fixpoint write_lines (ls : list (Line V)) : M (Process V) unit :=
  match ls with
  | [] => mret ()
  | l :: ls' => stmt (csv_file_write [l]);; write_lines ls'
  end.

(** The loop of lines 166-173.  The first statement of an iteration is the
    step of the generator that yields the batch. *)
Fixpoint roll_loop_stmts (selected_channels : list Z) (batches : list (Batch V))
    (ending : stream_end) : M (Process V) unit :=
  match batches with
  | [] => stmt (match ending with
                | Exhausted => mret ()
                | Raised e => raise e
                end)
  | b :: batches' =>
      stmt (mret ());;
      channel_data ← lift (mapM (py_getitem (data b)) selected_channels);
      write_lines (Row <$> py_zip_star channel_data);;
      stmt (csv_file_write [UnixTime (time b)]);;
      roll_loop_stmts selected_channels batches' ending
  end.

(** The loop of lines 175-184. *)
Fixpoint normal_loop_stmts (batches : list (DoubleBatch V)) (ending : exn)
  : M (Process V) unit :=
  match batches with
  | [] => stmt (raise ending)
  | b :: batches' =>
      stmt (mret ());;
      c2 ← lift (py_getitem (channel_data2 b) 0);
      c3 ← lift (py_getitem (channel_data3 b) 0);
      stmt (stdout_write [PrintedLengths (length c2) (length c3)]);;
      write_lines (Row <$> py_zip_star (channel_data2 b));;
      write_lines (Row <$> py_zip_star (channel_data3 b));;
      stmt (csv_file_write [UnixTime (time2 b)]);;
      normal_loop_stmts batches' ending
  end.

(** The body of the [try], lines 140-184. *)
Definition export_body_stmts (csv_file_path : string) (selected_channels : list Z)
    (vertical_scale_factor : list float) (roll_mode : bool)
    (raw_or_volt : string) (sampling_rate : Z)
    (measured_sampling_rate : option float) (now : float)
    (device : Device V) : M (Process V) unit :=
  let selected_channels := export_channels raw_or_volt selected_channels in
  open_csv_file_stmts csv_file_path;;
  write_lines (header_lines py_round selected_channels sampling_rate
                 measured_sampling_rate now vertical_scale_factor
                 (get_calibration_data device));;
  if roll_mode
  then roll_loop_stmts selected_channels (roll_samples device) (roll_end device)
  else normal_loop_stmts (normal_samples device) (normal_end device).

(** Lines 189-192. *)
Definition export_shutdown_stmts : M (Process V) unit :=
  stmt csv_file_close;;
  stmt (world_log InfoExportFinished);;
  stmt device_close.

(** Lines 136-192 of [main]. *)
Definition main_export_stmts (csv_file_path : string) (selected_channels : list Z)
    (vertical_scale_factor : list float) (roll_mode : bool)
    (raw_or_volt : string) (sampling_rate : Z)
    (measured_sampling_rate : option float) (now : float)
    (device : Device V) : M (Process V) unit :=
  try_except_KeyboardInterrupt
    (export_body_stmts csv_file_path selected_channels vertical_scale_factor roll_mode
       raw_or_volt sampling_rate measured_sampling_rate now device)
    (stmt (world_log InfoCanceledByUser));;
  export_shutdown_stmts.

End export_statements.

(** No statement fails. *)
Definition no_faults : nat → option exn := λ _, None.

(** Statement [k] raises [e], no other statement fails. *)
Definition fault_at (k : nat) (e : exn) : nat → option exn :=
  λ n, if (n =? k)%nat then Some e else None.

(** No statement numbered [from] or later fails. *)
Definition no_fault_from (faults : nat → option exn) (from : nat) : Prop :=
  ∀ k, (from ≤ k)%nat → faults k = None.

(** No statement numbered [from] up to, not including, [to] fails. *)
Definition no_fault_between (faults : nat → option exn) (from to : nat) : Prop :=
  ∀ k, (from ≤ k < to)%nat → faults k = None.

(** From [w] to [w'] the text [t] was appended to sink [s]; the log, the
    variable [csv_file] and the device are as they were. *)
Definition wrote {V} (s : Sink) (w w' : World V) (t : list (Line V)) : Prop :=
  sink_content s w' = sink_content s w ++ t
  ∧ w_log w' = w_log w
  ∧ w_csv_file w' = w_csv_file w
  ∧ w_device_close_calls w' = w_device_close_calls w.

(** Started with [csv_file] bound to sink [s], the statements [m] append a
    prefix of [full] to the sink, and all of it when they return or when
    none of them fails. *)
Definition writes {V} (faults : nat → option exn) (s : Sink) (full : list (Line V))
    (m : M (Process V) unit) : Prop :=
  ∀ p r p', w_csv_file (p_world p) = Opened s → m p = (r, p') →
    (p_clock p ≤ p_clock p')%nat
    ∧ ∃ t, wrote s (p_world p) (p_world p') t
           ∧ t `prefix_of` full
           ∧ (r = Ok () → t = full)
           ∧ (no_fault_between faults (p_clock p) (p_clock p') → t = full).

(** The same for statements that raise only when one of them fails. *)
Definition writes_all {V} (faults : nat → option exn) (s : Sink) (full : list (Line V))
    (m : M (Process V) unit) : Prop :=
  writes faults s full m
  ∧ ∀ p r p', w_csv_file (p_world p) = Opened s → m p = (r, p') →
      no_fault_between faults (p_clock p) (p_clock p') → r = Ok ().

(** An export to a path in a missing directory: [open] raises. *)
Definition example_export_stmts (faults : nat → option exn) (device : Device Z)
  : M (Process Z) unit :=
  main_export_stmts (λ x _, x) faults "out.csv" [2; 0]%Z
    [1.0; 1.0; 1.0; 1.0; 1.0; 1.0; 1.0; 1.0]%float true "volt" 440 None 10.0 device.

Definition fresh_process : Process Z := {| p_world := fresh_world ∅; p_clock := 0 |}.

(** [csv_file] is bound to sink [s], and a file sink exists. *)
Definition sink_ready {V} (s : Sink) (w : World V) : Prop :=
  w_csv_file w = Opened s
  ∧ match s with
    | Stdout => True
    | PlainFile path | LzmaFile path => is_Some (w_files w !! path)
    end.

(** Started in a world where [pre] holds, the statements [m] end as [n]
    does, in the same world, in which [post] holds when they return. *)
Definition same_run {V A} (pre post : World V → Prop) (m : M (Process V) A)
    (n : M (World V) A) : Prop :=
  ∀ p, pre (p_world p) →
    (m p).1 = (n (p_world p)).1
    ∧ p_world (m p).2 = (n (p_world p)).2
    ∧ (is_Ok (n (p_world p)).1 = true → post (n (p_world p)).2).

(** ** [measure_sampling_rate] with its two readings of the clock *)

(** The function reads the clock twice: with the first batch (line 200,
    the [time] of that batch) and after the loop (line 206, [end_time]).
    [measure_sampling_rate] above takes the second reading to be the one
    made with the last batch handled; here it is a reading of its own, so
    that a run of one batch has a start and an end. *)
Definition measure_sampling_rate_until {V} (batches : list (Batch V)) (end_time : float)
    (used_sampling_rate measurment_duration : Z) : result float :=
  let required_samples := (measurment_duration * used_sampling_rate)%Z in
  '(counter, start_time, _) ←
    measure_loop required_samples (-1) None end_time batches;
  start_time ← match start_time with
               | Some t => Ok t
               | None => Raise UnboundLocalError
               end;
  let duration := (end_time - start_time)%float in
  py_truediv (float_of_int counter) duration.
(* ===================================================================== *)
(** * Part II: properties                                                  *)
(* ===================================================================== *)

(** ** Results and loops *)

Lemma bind_Ok {A B} (m : result A) (f : A → result B) (b : B) :
  m ≫= f = Ok b ↔ ∃ a, m = Ok a ∧ f a = Ok b.
Proof.
  destruct m as [a|e]; simpl.
  - split; [eauto | intros (a' & [= <-] & ?); done].
  - split; [done | intros (a' & [=] & _)].
Qed.

Lemma fmap_Ok {A B} (m : result A) (f : A → B) (b : B) :
  f <$> m = Ok b ↔ ∃ a, m = Ok a ∧ b = f a.
Proof.
  destruct m as [a|e]; simpl.
  - split; [intros [= <-]; eauto | intros (a' & [= <-] & ->); done].
  - split; [done | intros (a' & [=] & _)].
Qed.

Lemma py_assert_Ok (b : bool) (u : unit) : py_assert b = Ok u ↔ b = true.
Proof. destruct b, u; simpl; split; congruence. Qed.

Lemma mapM_Ok {A B} (f : A → result B) (l : list A) (k : list B) :
  mapM f l = Ok k ↔ Forall2 (λ x y, f x = Ok y) l k.
Proof.
  revert k. induction l as [|x l IH]; intros k; simpl.
  - split; [intros [= <-]; constructor | by inversion 1].
  - rewrite bind_Ok. split.
    + intros (y & Hy & Hk). apply bind_Ok in Hk as (k' & Hk' & [= <-]).
      constructor; [done | by apply IH].
    + inversion 1 as [|? y ? k' Hy Hk']; subst. exists y. split; [done|].
      apply bind_Ok. exists k'. split; [by apply IH | done].
Qed.

Lemma py_range_lookup (lo hi : Z) (n : nat) :
  (Z.of_nat n < hi - lo)%Z → py_range lo hi !! n = Some (lo + Z.of_nat n)%Z.
Proof.
  intros Hn. unfold py_range. rewrite list_lookup_fmap, lookup_seq_lt by lia. done.
Qed.

Lemma py_getitem_nat {A} (l : list A) (n : nat) (x : A) :
  l !! n = Some x → py_getitem l (Z.of_nat n) = Ok x.
Proof.
  intros H. unfold py_getitem. cbv zeta.
  assert ((0 <=? Z.of_nat n)%Z = true) as H0 by (apply Z.leb_le; lia).
  rewrite H0. by rewrite H0, Nat2Z.id, H.
Qed.

Lemma py_getitem_nat_Ok {A} (l : list A) (n : nat) (x : A) :
  py_getitem l (Z.of_nat n) = Ok x ↔ l !! n = Some x.
Proof.
  split; [|apply py_getitem_nat].
  unfold py_getitem. cbv zeta.
  assert ((0 <=? Z.of_nat n)%Z = true) as H0 by (apply Z.leb_le; lia).
  rewrite H0. rewrite H0, Nat2Z.id. destruct (l !! n); intros [=]; congruence.
Qed.

(** ** Channel configuration *)

Lemma len_set_nil : len_set [] = 0.
Proof. reflexivity. Qed.

Lemma len_set_cons (x : Z) (l : list Z) :
  len_set (x :: l) = if bool_decide (x ∈ l) then len_set l else S (len_set l).
Proof.
  unfold len_set.
  change (list_to_set (x :: l) : gset Z) with ({[x]} ∪ list_to_set l : gset Z).
  case_bool_decide as Hin.
  - assert ({[x]} ∪ list_to_set l = (list_to_set l : gset Z)) as ->; [|done].
    apply set_eq. intros y. rewrite elem_of_union, elem_of_singleton, elem_of_list_to_set.
    split; [intros [->|]; done | tauto].
  - rewrite size_union by set_solver. by rewrite size_singleton.
Qed.

Lemma len_set_le (l : list Z) : len_set l ≤ length l.
Proof.
  induction l as [|x l IH]; [done|].
  rewrite len_set_cons. simpl. case_bool_decide; lia.
Qed.

Lemma len_set_NoDup (l : list Z) : len_set l = length l ↔ NoDup l.
Proof.
  induction l as [|x l IH]; [split; [constructor | done]|].
  rewrite len_set_cons, NoDup_cons. simpl.
  pose proof (len_set_le l). case_bool_decide; [split; [lia | tauto]|].
  rewrite <- IH. split; [intros [=]; done | intros [_ ->]; done].
Qed.

Lemma py_index_NoDup (l : list Z) (j : nat) (c : Z) :
  NoDup l → l !! j = Some c → py_index c l = Ok j.
Proof.
  intros Hnd. revert j. induction Hnd as [|x l Hx Hnd IH]; intros j Hj; [done|].
  destruct j as [|j]; simpl in *.
  - injection Hj as ->. by rewrite bool_decide_eq_true_2.
  - rewrite bool_decide_eq_false_2.
    + by rewrite (IH j Hj).
    + intros ->. apply Hx. by eapply list_elem_of_lookup_2.
Qed.

Lemma main_selected_channels_Ok (selected : option (list Z)) (sel : list Z) :
  main_selected_channels selected = Ok sel ↔
  NoDup (default_channels selected) ∧
  Forall (λ c, 1 ≤ c ≤ 8)%Z (default_channels selected) ∧
  sel = (λ i, i - 1)%Z <$> default_channels selected.
Proof.
  unfold main_selected_channels. cbv zeta.
  rewrite bind_Ok. setoid_rewrite bind_Ok. setoid_rewrite py_assert_Ok.
  rewrite <- len_set_NoDup.
  assert (forallb in_1_8 (default_channels selected) = true
          ↔ Forall (λ c, 1 ≤ c ≤ 8)%Z (default_channels selected)) as Hall.
  { rewrite forallb_forall, Forall_forall. unfold in_1_8.
    split; intros H c Hc.
    - apply list_elem_of_In, H in Hc. apply andb_true_iff in Hc as [? ?]. lia.
    - apply list_elem_of_In, H in Hc. apply andb_true_iff. split; apply Z.leb_le; lia. }
  rewrite <- Hall. split.
  - intros (u1 & H1 & u2 & H2 & [= <-]). apply bool_decide_eq_true in H1. done.
  - intros (H1 & H2 & ->). exists (). split; [by apply bool_decide_eq_true|].
    exists (). done.
Qed.

Lemma scale_vector_of_list (fs : list float) (sel : list Z) (v : list float) :
  NoDup sel →
  main_vertical_scale_factor (VsfList fs) sel = Ok v →
  length v = 8 ∧
  (length fs = 1 ∨ length fs = length sel) ∧
  (∀ i, (0 ≤ i < 8)%Z → i ∉ sel → v !! Z.to_nat i = Some 1.0%float) ∧
  (∀ j c, sel !! j = Some c → (0 ≤ c < 8)%Z →
     v !! Z.to_nat c = if bool_decide (length fs = 1) then fs !! 0 else fs !! j).
Proof.
  intros Hnd. unfold main_vertical_scale_factor.
  case_bool_decide as Hlen.
  - intros Hv%mapM_Ok. split; [by rewrite <- (Forall2_length _ _ _ Hv)|].
    split; [by left|]. split.
    + intros i Hi Hni.
      destruct (Forall2_lookup_l _ _ _ (Z.to_nat i) i Hv) as (y & Hy & Hf).
      { rewrite py_range_lookup by lia. f_equal. lia. }
      rewrite bool_decide_eq_true_2 in Hf by done. congruence.
    + intros j c Hj Hc.
      destruct (Forall2_lookup_l _ _ _ (Z.to_nat c) c Hv) as (y & Hy & Hf).
      { rewrite py_range_lookup by lia. f_equal. lia. }
      rewrite bool_decide_eq_false_2 in Hf.
      * change 0%Z with (Z.of_nat 0) in Hf. apply py_getitem_nat_Ok in Hf. congruence.
      * intros Hn. apply Hn. by eapply list_elem_of_lookup_2.
  - intros (u & Hu & Hv%mapM_Ok)%bind_Ok.
    apply py_assert_Ok, bool_decide_eq_true in Hu.
    split; [by rewrite <- (Forall2_length _ _ _ Hv)|].
    split; [by right|]. split.
    + intros i Hi Hni.
      destruct (Forall2_lookup_l _ _ _ (Z.to_nat i) i Hv) as (y & Hy & Hf).
      { rewrite py_range_lookup by lia. f_equal. lia. }
      rewrite bool_decide_eq_true_2 in Hf by done. congruence.
    + intros j c Hj Hc.
      destruct (Forall2_lookup_l _ _ _ (Z.to_nat c) c Hv) as (y & Hy & Hf).
      { rewrite py_range_lookup by lia. f_equal. lia. }
      rewrite bool_decide_eq_false_2 in Hf.
      * rewrite (py_index_NoDup _ _ _ Hnd Hj) in Hf. simpl in Hf.
        apply py_getitem_nat_Ok in Hf. congruence.
      * intros Hn. apply Hn. by eapply list_elem_of_lookup_2.
Qed.

(** C3.  When [main] accepts a channel selection and a list of scale
    factors, the resulting scale vector has length 8 and every physical
    channel that is not selected has factor 1.0; with exactly one factor
    every selected channel gets it; otherwise there are as many factors as
    selected channels, and factor [j] goes to the [j]-th selected channel in
    the order in which the channels were given. *)
Theorem scale_vector_resolved (selected : option (list Z)) (fs : list float)
    (zos : option Z) (cfg : ChannelConfig) :
  main_channel_config selected (VsfList fs) zos = Ok cfg →
  length (vertical_scale_factor cfg) = 8 ∧
  (∀ i, (0 ≤ i < 8)%Z → i ∉ selected_channels cfg →
     vertical_scale_factor cfg !! Z.to_nat i = Some 1.0%float) ∧
  (∀ f, fs = [f] → ∀ c, c ∈ default_channels selected →
     vertical_scale_factor cfg !! Z.to_nat (c - 1) = Some f) ∧
  (length fs ≠ 1 →
     length fs = length (default_channels selected) ∧
     ∀ j c, default_channels selected !! j = Some c →
       vertical_scale_factor cfg !! Z.to_nat (c - 1) = fs !! j).
Proof.
  unfold main_channel_config.
  intros (sel & Hsel & Hrest)%bind_Ok.
  apply bind_Ok in Hrest as (z & Hz & Hrest).
  apply bind_Ok in Hrest as (v & Hv & [= <-]). simpl.
  apply main_selected_channels_Ok in Hsel as (Hnd & Hrange & ->).
  assert (NoDup ((λ i, i - 1)%Z <$> default_channels selected)) as Hnd'.
  { apply NoDup_fmap_2; [intros a b; lia | done]. }
  destruct (scale_vector_of_list _ _ _ Hnd' Hv) as (Hlen & Harity & Hun & Hsel).
  split; [done|]. split; [done|].
  assert (∀ j c, default_channels selected !! j = Some c →
            ((λ i, i - 1)%Z <$> default_channels selected) !! j = Some (c - 1)%Z
            ∧ (0 ≤ c - 1 < 8)%Z) as Hcell.
  { intros j c Hj. rewrite list_lookup_fmap, Hj. split; [done|].
    rewrite Forall_forall in Hrange.
    pose proof (Hrange c (list_elem_of_lookup_2 _ _ _ Hj)). lia. }
  split.
  - intros f -> c (j & Hj)%list_elem_of_lookup_1.
    destruct (Hcell j c Hj) as [Hj' Hc]. by rewrite (Hsel j _ Hj' Hc).
  - intros Hne. split.
    + destruct Harity as [?|Hfs]; [done | by rewrite Hfs, length_fmap].
    + intros j c Hj. destruct (Hcell j c Hj) as [Hj' Hc].
      rewrite (Hsel j _ Hj' Hc). by rewrite bool_decide_eq_false_2.
Qed.

Lemma scale_vector_resolved_witness :
  main_channel_config (Some [3; 1]%Z) (VsfList [2.0; 5.0]%float) None
  = Ok {| selected_channels := [2; 0]%Z;
          zero_offset_shift_compensation_channel := None;
          vertical_scale_factor := [5.0; 1.0; 2.0; 1.0; 1.0; 1.0; 1.0; 1.0]%float |}
  ∧ [5.0; 1.0; 2.0; 1.0; 1.0; 1.0; 1.0; 1.0]%float !! Z.to_nat (3 - 1) = [2.0; 5.0]%float !! 0
  ∧ [5.0; 1.0; 2.0; 1.0; 1.0; 1.0; 1.0; 1.0]%float !! Z.to_nat (1 - 1) = [2.0; 5.0]%float !! 1.
Proof.
  split; [reflexivity|].
  pose proof (scale_vector_resolved (Some [3; 1]%Z) [2.0; 5.0]%float None _ eq_refl)
    as (_ & _ & _ & Hpos).
  destruct Hpos as [_ Hpos]; [simpl; lia|].
  split; [exact (Hpos 0 3%Z eq_refl) | exact (Hpos 1 1%Z eq_refl)].
Defined.

(** Duplicate channels are refused by the assertion of line 32. *)
Lemma main_rejects_duplicates (selected : option (list Z)) (vsf : vsf_arg) (zos : option Z) :
  ¬ NoDup (default_channels selected) →
  main_channel_config selected vsf zos = Raise AssertionError.
Proof.
  intros Hnd. unfold main_channel_config, main_selected_channels. cbv zeta.
  rewrite bool_decide_eq_false_2; [done|]. by rewrite len_set_NoDup.
Qed.

(** A channel outside 1..8 is refused by the assertion of line 33. *)
Lemma main_rejects_out_of_range (selected : option (list Z)) (vsf : vsf_arg)
    (zos : option Z) (c : Z) :
  NoDup (default_channels selected) →
  c ∈ default_channels selected → ¬ (1 ≤ c ≤ 8)%Z →
  main_channel_config selected vsf zos = Raise AssertionError.
Proof.
  intros Hnd Hc Hrange. unfold main_channel_config, main_selected_channels. cbv zeta.
  rewrite bool_decide_eq_true_2 by (by rewrite len_set_NoDup). simpl.
  destruct (forallb in_1_8 (default_channels selected)) eqn:Hall; [|done].
  rewrite forallb_forall in Hall. apply list_elem_of_In, Hall in Hc.
  unfold in_1_8 in Hc. apply andb_true_iff in Hc as [? ?]. lia.
Qed.

(** On the command line, duplicate channels are refused by the second
    [arg_assert], which comes before the two that call [contains]. *)
Lemma check_args_rejects_duplicates (vscale : list float) (channels : list Z)
    (path : option string) (raw_or_volt : string) (zos : option Z) :
  ¬ NoDup channels →
  (length vscale = 1 ∨ length vscale = length channels) →
  check_args vscale channels path raw_or_volt zos = Raise (ParserError MsgChannelsNotASet).
Proof.
  intros Hnd Harity. unfold check_args.
  assert (bool_decide (length vscale = 1) || bool_decide (length vscale = length channels)
          = true) as ->.
  { apply orb_true_iff. destruct Harity; [left | right]; by apply bool_decide_eq_true. }
  simpl. rewrite (bool_decide_eq_false_2 (len_set channels = length channels));
    [reflexivity|]. by rewrite len_set_NoDup.
Qed.

(** With a compensation channel given, the fourth [arg_assert] is never
    called: evaluating its argument raises AttributeError, so the two checks
    of the compensation channel after it are never reached. *)
Lemma check_args_zos_AttributeError (vscale : list float) (channels : list Z)
    (raw_or_volt : string) (z : Z) :
  NoDup channels →
  (length vscale = 1 ∨ length vscale = length channels) →
  check_args vscale channels None raw_or_volt (Some z) = Raise AttributeError.
Proof.
  intros Hnd Harity. unfold check_args.
  assert (bool_decide (length vscale = 1) || bool_decide (length vscale = length channels)
          = true) as ->.
  { apply orb_true_iff. destruct Harity; [left | right]; by apply bool_decide_eq_true. }
  simpl. rewrite (bool_decide_eq_true_2 (len_set channels = length channels));
    [reflexivity|]. by rewrite len_set_NoDup.
Qed.

(** [main] itself has no check that relates the compensation channel to the
    selected channels. *)
Lemma main_zos_unrelated (selected : option (list Z)) (vsf : vsf_arg) (z z' : Z) :
  (1 ≤ z ≤ 8)%Z → (1 ≤ z' ≤ 8)%Z →
  is_Ok (main_channel_config selected vsf (Some z))
  = is_Ok (main_channel_config selected vsf (Some z')).
Proof.
  intros Hz Hz'. unfold main_channel_config, main_zos_channel, in_1_8.
  destruct (main_selected_channels selected) as [sel|e]; [simpl|done].
  assert ((1 <=? z)%Z && (z <=? 8)%Z = true) as ->
    by (apply andb_true_iff; split; apply Z.leb_le; lia).
  assert ((1 <=? z')%Z && (z' <=? 8)%Z = true) as ->
    by (apply andb_true_iff; split; apply Z.leb_le; lia).
  simpl. by destruct (main_vertical_scale_factor vsf sel).
Qed.

(** C8.  Channels 1 and 2 selected with channel 1 also given as the
    compensation channel: from the command line the run ends in an
    AttributeError instead of the parser error of line 356, exactly as it
    does for the valid compensation channel 8; called directly, [main]
    accepts the configuration.  The same holds when all eight channels are
    selected. *)
Theorem zos_conflict_not_rejected :
  cli_channel_config [1; 2]%Z [1.0%float] None "volt" (Some 1%Z) = Raise AttributeError
  ∧ cli_channel_config [1; 2]%Z [1.0%float] None "volt" (Some 8%Z) = Raise AttributeError
  ∧ main_channel_config (Some [1; 2]%Z) (VsfList [1.0%float]) (Some 1%Z)
    = Ok {| selected_channels := [0; 1]%Z;
            zero_offset_shift_compensation_channel := Some 0%Z;
            vertical_scale_factor := [1.0; 1.0; 1.0; 1.0; 1.0; 1.0; 1.0; 1.0]%float |}
  ∧ cli_channel_config [1; 2; 3; 4; 5; 6; 7; 8]%Z [1.0%float] None "volt" (Some 8%Z)
    = Raise AttributeError
  ∧ is_Ok (main_channel_config (Some [1; 2; 3; 4; 5; 6; 7; 8]%Z) (VsfList [1.0%float])
             (Some 8%Z)) = true.
Proof. repeat split; vm_compute; reflexivity. Qed.

(** ** Equality of floats *)

Lemma SFeqb_finite (s1 s2 : bool) (m1 m2 : positive) (e1 e2 : Z) :
  SFeqb (S754_finite s1 m1 e1) (S754_finite s2 m2 e2) = true
  ↔ s1 = s2 ∧ m1 = m2 ∧ e1 = e2.
Proof.
  unfold SFeqb, SFcompare. change (Pos.compare_cont Eq m1 m2) with (Pos.compare m1 m2).
  destruct s1, s2; destruct (Z.compare_spec e1 e2); destruct (Pos.compare_spec m1 m2);
    simpl; split; try discriminate; try (intros (? & ? & ?); lia); try (intros _; subst; done).
Qed.

(** The floats that equal one another under [==]: the two zeros, or one and
    the same number or infinity. *)
Definition sf_equal (x y : spec_float) : Prop :=
  match x, y with
  | S754_zero _, S754_zero _ => True
  | S754_infinity s1, S754_infinity s2 => s1 = s2
  | S754_finite s1 m1 e1, S754_finite s2 m2 e2 => s1 = s2 ∧ m1 = m2 ∧ e1 = e2
  | _, _ => False
  end.

Lemma SFeqb_sf_equal (x y : spec_float) : SFeqb x y = true ↔ sf_equal x y.
Proof.
  destruct x as [s1| s1| |s1 m1 e1], y as [s2|s2| |s2 m2 e2];
    try (apply SFeqb_finite); unfold SFeqb; simpl; try done;
    try (destruct s1; done); try (destruct s2; done).
  destruct s1, s2; done.
Qed.

Lemma feqb_sym (a b : float) : (a =? b)%float = true → (b =? a)%float = true.
Proof.
  rewrite !FloatAxioms.eqb_spec, !SFeqb_sf_equal.
  destruct (Prim2SF a), (Prim2SF b); simpl; intuition congruence.
Qed.

Lemma feqb_trans (a b c : float) :
  (a =? b)%float = true → (b =? c)%float = true → (a =? c)%float = true.
Proof.
  rewrite !FloatAxioms.eqb_spec, !SFeqb_sf_equal.
  destruct (Prim2SF a), (Prim2SF b), (Prim2SF c); simpl; intuition congruence.
Qed.

Lemma feqb_refl_l (a b : float) : (a =? b)%float = true → (a =? a)%float = true.
Proof. intros H. exact (feqb_trans _ _ _ H (feqb_sym _ _ H)). Qed.

Lemma feqb_refl_r (a b : float) : (a =? b)%float = true → (b =? b)%float = true.
Proof. intros H. exact (feqb_trans _ _ _ (feqb_sym _ _ H) H). Qed.

(** Equal keys select the same entries. *)
Lemma feqb_congr (a b k : float) :
  (a =? b)%float = true → (k =? a)%float = (k =? b)%float.
Proof.
  intros Hab. destruct (k =? b)%float eqn:Hkb.
  - exact (feqb_trans _ _ _ Hkb (feqb_sym _ _ Hab)).
  - destruct (k =? a)%float eqn:Hka; [|done].
    rewrite (feqb_trans _ _ _ Hka Hab) in Hkb. done.
Qed.

(** A zero times 0.01 times a finite factor is a zero: the denominator of
    line 82 when [units] is zero. *)
Lemma zero_units_zero_denominator (units vscale : float) :
  (units =? 0)%float = true → is_finite vscale = true →
  (units * 0.01 * vscale =? 0)%float = true.
Proof.
  unfold is_finite, is_nan, is_infinity.

  rewrite !FloatAxioms.eqb_spec, !FloatAxioms.mul_spec, FloatAxioms.abs_spec.
  change (Prim2SF 0) with (S754_zero false).
  change (Prim2SF infinity) with (S754_infinity false).
  assert (∃ s m e, Prim2SF 0.01 = S754_finite s m e) as (s & m & e & ->)
    by (vm_compute; eauto).
  destruct (Prim2SF units) as [su|su| |su mu eu],
           (Prim2SF vscale) as [sv|sv| |sv mv ev];
    unfold SFeqb; simpl; try discriminate; try done;
    try (destruct su; discriminate); try (destruct sv; discriminate).
Qed.

(** ** Stateful code *)

Lemma M_bind_Ok {S A B} (m : M S A) (f : A → M S B) (s s' : S) (b : B) :
  (m ≫= f) s = (Ok b, s') ↔ ∃ a s1, m s = (Ok a, s1) ∧ f a s1 = (Ok b, s').
Proof.
  unfold mbind, M_bind. destruct (m s) as [[a|e] s1].
  - split; [eauto | intros (a' & s1' & [= <- <-] & ?); done].
  - split; [done | intros (a' & s1' & [=] & _)].
Qed.

Lemma M_bind_Raise {S A B} (m : M S A) (f : A → M S B) (s s' : S) (e : exn) :
  m s = (Raise e, s') → (m ≫= f) s = (Raise e, s').
Proof. intros H. unfold mbind, M_bind. by rewrite H. Qed.

Lemma M_bind_step {S A B} (m : M S A) (f : A → M S B) (s s1 : S) (a : A) :
  m s = (Ok a, s1) → (m ≫= f) s = f a s1.
Proof. intros H. unfold mbind, M_bind. by rewrite H. Qed.

Lemma lift_Ok {S A} (r : result A) (s s' : S) (a : A) :
  lift r s = (Ok a, s') ↔ r = Ok a ∧ s' = s.
Proof. unfold lift. split; [intros [= -> ->]; done | intros [-> ->]; done]. Qed.

Lemma foldM_app {S B A} (body : B → A → M S B) (b : B) (l1 l2 : list A) (s : S) :
  foldM body b (l1 ++ l2) s
  = (foldM body b l1 ≫= λ b', foldM body b' l2) s.
Proof.
  revert b s. induction l1 as [|x l1 IH]; intros b s; simpl.
  - done.
  - unfold mbind, M_bind. destruct (body b x s) as [[b'|e] s1]; [|done].
    rewrite IH. done.
Qed.

(** A loop stops at the first iteration that raises. *)
Lemma foldM_raises {S B A} (body : B → A → M S B) (l : list A) (x : A) :
  x ∈ l →
  (∀ b s, ∃ e s', body b x s = (Raise e, s')) →
  ∀ b s, ∃ e s', foldM body b l s = (Raise e, s').
Proof.
  intros Hx Hbody. induction l as [|y l IH]; intros b s; [by inversion Hx|].
  simpl. unfold mbind, M_bind.
  destruct (body b y s) as [[b'|e] s1] eqn:Hy; [|eauto].
  apply elem_of_cons in Hx as [->|Hx]; [|by apply IH].
  destruct (Hbody b s) as (e & s' & He). congruence.
Qed.

(** ** Dictionaries keyed by floats *)

Lemma fd_get_set {V} (d : fdict V) (k k' : float) (v : V) :
  fd_get (fd_set d k v) k' = if (k =? k')%float then Some v else fd_get d k'.
Proof.
  induction d as [|[k1 v1] d IH]; simpl; [done|].
  destruct (k1 =? k)%float eqn:H1; simpl.
  - destruct (k1 =? k')%float eqn:H2.
    + by rewrite (feqb_trans _ _ _ (feqb_sym _ _ H1) H2).
    + destruct (k =? k')%float eqn:H3; [|done].
      by rewrite (feqb_trans _ _ _ H1 H3) in H2.
  - destruct (k1 =? k')%float eqn:H2; [|done].
    destruct (k =? k')%float eqn:H3; [|done].
    by rewrite (feqb_trans _ _ _ H2 (feqb_sym _ _ H3)) in H1.
Qed.

Lemma fd_get_congr {V} (d : fdict V) (a b : float) :
  (a =? b)%float = true → fd_get d a = fd_get d b.
Proof.
  intros Hab. induction d as [|[k1 v1] d IH]; simpl; [done|].
  by rewrite (feqb_congr _ _ k1 Hab), IH.
Qed.

Lemma fd_count_cons {V} (k1 : float) (v1 : V) (d : fdict V) (k : float) :
  fd_count ((k1, v1) :: d) k
  = if (k1 =? k)%float then S (fd_count d k) else fd_count d k.
Proof.
  simpl. by destruct (k1 =? k)%float.
Qed.

Lemma fd_count_congr {V} (d : fdict V) (a b : float) :
  (a =? b)%float = true → fd_count d a = fd_count d b.
Proof.
  intros Hab. induction d as [|[k1 v1] d IH]; [done|].
  by rewrite !fd_count_cons, (feqb_congr _ _ k1 Hab), IH.
Qed.

Lemma fd_get_None_count {V} (d : fdict V) (k : float) :
  fd_get d k = None ↔ fd_count d k = 0.
Proof.
  induction d as [|[k1 v1] d IH]; [done|].
  rewrite fd_count_cons. simpl. destruct (k1 =? k)%float; [done | apply IH].
Qed.

Lemma fd_count_set {V} (d : fdict V) (k k' : float) (v : V) :
  fd_count (fd_set d k v) k'
  = if fd_contains d k then fd_count d k'
    else if (k =? k')%float then S (fd_count d k') else fd_count d k'.
Proof.
  unfold fd_contains. induction d as [|[k1 v1] d IH].
  - simpl. by destruct (k =? k')%float.
  - cbn [fd_set fd_get].
    destruct (k1 =? k)%float eqn:H1; rewrite !fd_count_cons; [done|].
    rewrite IH. destruct (fd_get d k); [done|].
    destruct (k =? k')%float eqn:H3; [|done].
    destruct (k1 =? k')%float eqn:H2; [|done].
    by rewrite (feqb_trans _ _ _ H2 (feqb_sym _ _ H3)) in H1.
Qed.

Lemma fd_wf_nil {V} : fd_wf ([] : fdict V).
Proof. intros k. simpl. lia. Qed.

Lemma fd_wf_set {V} (d : fdict V) (k : float) (v : V) :
  fd_wf d → fd_wf (fd_set d k v).
Proof.
  intros Hwf k'. rewrite fd_count_set. unfold fd_contains.
  destruct (fd_get d k) eqn:Hget; [apply Hwf|].
  destruct (k =? k')%float eqn:H; [|apply Hwf].
  rewrite <- (fd_count_congr d _ _ H).
  apply fd_get_None_count in Hget. lia.
Qed.

Lemma fd_set_values {V} (P : V → Prop) (d : fdict V) (k : float) (v : V) :
  Forall (λ kv, P kv.2) d → P v → Forall (λ kv, P kv.2) (fd_set d k v).
Proof.
  intros Hd Hv. induction Hd as [|[k1 v1] d H1 Hd IH]; simpl.
  - by repeat constructor.
  - destruct (k1 =? k)%float; constructor; auto.
Qed.

Lemma fd_get_values {V} (P : V → Prop) (d : fdict V) (k : float) (v : V) :
  Forall (λ kv, P kv.2) d → fd_get d k = Some v → P v.
Proof.
  intros Hd. induction Hd as [|[k1 v1] d H1 Hd IH]; simpl; [done|].
  destruct (k1 =? k)%float; [intros [= <-]; done | done].
Qed.

(** ** Python lists *)

Lemma py_setitem_Ok {A} (l l' : list A) (i : Z) (x : A) :
  py_setitem l i x = Ok l' →
  py_getitem l' i = Ok x ∧ length l' = length l.
Proof.
  unfold py_setitem, py_getitem. cbv zeta.
  set (j := if (0 <=? i)%Z then i else (Z.of_nat (length l) + i)%Z).
  destruct ((0 <=? j)%Z && (j <? Z.of_nat (length l))%Z) eqn:Hj; [|done].
  intros [= <-]. apply andb_true_iff in Hj as [Hj1 Hj2].
  rewrite length_insert. fold j. rewrite Hj1. split; [|done].
  rewrite list_lookup_insert_eq; [done|]. apply Z.ltb_lt in Hj2. apply Z.leb_le in Hj1. lia.
Qed.

Lemma py_setitem_total {A} (l : list A) (i : Z) (a x : A) :
  py_getitem l i = Ok a → ∃ l', py_setitem l i x = Ok l'.
Proof.
  unfold py_setitem, py_getitem. cbv zeta.
  set (j := if (0 <=? i)%Z then i else (Z.of_nat (length l) + i)%Z).
  destruct (0 <=? j)%Z eqn:Hj1; [|done].
  destruct (l !! Z.to_nat j) eqn:Hl; [|done]. intros _.
  apply lookup_lt_Some in Hl. apply Z.leb_le in Hj1.
  assert ((j <? Z.of_nat (length l))%Z = true) as -> by (apply Z.ltb_lt; lia).
  simpl. eauto.
Qed.

Lemma py_getitem_Forall {A} (P : A → Prop) (l : list A) (i : Z) (a : A) :
  Forall P l → py_getitem l i = Ok a → P a.
Proof.
  intros Hl. unfold py_getitem. cbv zeta.
  set (j := if (0 <=? i)%Z then i else (Z.of_nat (length l) + i)%Z).
  destruct (0 <=? j)%Z; [|done].
  destruct (l !! Z.to_nat j) eqn:Hj; [|done]. intros [= <-].
  by eapply Forall_lookup_1.
Qed.

Lemma py_setitem_Forall {A} (P : A → Prop) (l l' : list A) (i : Z) (x : A) :
  Forall P l → P x → py_setitem l i x = Ok l' → Forall P l'.
Proof.
  intros Hl Hx. unfold py_setitem. cbv zeta.
  destruct (_ && _); [|done]. intros [= <-]. by apply Forall_insert.
Qed.

(** ** The correction table *)

Lemma add_test_Ok (c : Z) (cd cd' : CorrectionDataType) (t : Test)
    (log log' : list log_msg) :
  add_test c cd t log = (Ok cd', log') →
  ∃ f d inner,
    correction_factor_of t = Ok f ∧ log' = log ++ [InfoTest t f] ∧
    py_getitem cd c = Ok d ∧
    fd_get (with_vscale d t) (vscale t) = Some inner ∧
    py_getitem cd' c
    = Ok (fd_set (with_vscale d t) (vscale t) (fd_set inner (units_of t) f)) ∧
    (table_wf cd → table_wf cd').
Proof.
  unfold add_test. cbv zeta.
  intros (f & s1 & [Hf ->]%lift_Ok & H)%M_bind_Ok.
  apply M_bind_Ok in H as ([] & s2 & [= <-] & H).
  apply M_bind_Ok in H as (d & s3 & [Hd ->]%lift_Ok & H).
  apply M_bind_Ok in H as (cd1 & s4 & Hcd1 & H).
  apply M_bind_Ok in H as (d1 & s5 & [Hd1 ->]%lift_Ok & H).
  apply M_bind_Ok in H as (inner & s6 & [Hinner ->]%lift_Ok & H).
  apply lift_Ok in H as [Hcd' ->].
  assert (d1 = with_vscale d t ∧ s4 = log ++ [InfoTest t f]
          ∧ length cd1 = length cd ∧ (table_wf cd → table_wf cd1)) as (-> & -> & Hlen & Hwf1).
  { unfold with_vscale. unfold fdict in *.
    destruct (fd_contains d (vscale t)); simpl in Hcd1.
    - injection Hcd1 as <- <-. split; [congruence|done].
    - apply lift_Ok in Hcd1 as [Hset ->].
      destruct (py_setitem_Ok _ _ _ _ Hset) as [Hget Hl].
      split; [congruence|]. split; [done|]. split; [done|].
      intros Hwf. eapply py_setitem_Forall; [exact Hwf| |exact Hset].
      destruct (py_getitem_Forall _ _ _ _ Hwf Hd) as [Hw1 Hw2].
      split; [by apply fd_wf_set|]. apply (fd_set_values fd_wf); [done | apply fd_wf_nil]. }
  exists f, d, inner. unfold fd_getitem in Hinner.
  destruct (fd_get (with_vscale d t) (vscale t)) as [inner'|] eqn:Hg; [|done].
  injection Hinner as ->.
  destruct (py_setitem_Ok _ _ _ _ Hcd') as [Hget' _].
  repeat split; try done.
  intros Hwf. specialize (Hwf1 Hwf).
  eapply py_setitem_Forall; [exact Hwf1| |exact Hcd'].
  destruct (py_getitem_Forall _ _ _ _ Hwf1 Hd1) as [Hw1 Hw2].
  split; [by apply fd_wf_set|].
  apply (fd_set_values fd_wf); [done|]. apply fd_wf_set.
  by eapply (fd_get_values fd_wf).
Qed.

(** What [add_test] changes in the table of its channel: the factor under
    the key of the test, and nothing else. *)
Lemma add_test_table_get (c : Z) (cd cd' : CorrectionDataType) (t : Test)
    (log log' : list log_msg) (v u : float) :
  add_test c cd t log = (Ok cd', log') →
  table_get cd' c v u
  = if (vscale t =? v)%float && (units_of t =? u)%float
    then match correction_factor_of t with Ok f => Some f | Raise _ => None end
    else table_get cd c v u.
Proof.
  intros (f & d & inner & Hf & _ & Hd & Hinner & Hd' & _)%add_test_Ok.
  unfold table_get. rewrite Hd, Hd', Hf, fd_get_set.
  destruct (vscale t =? v)%float eqn:Hv; simpl.
  - rewrite fd_get_set. destruct (units_of t =? u)%float eqn:Hu; [done|].
    revert Hinner. unfold with_vscale, fd_contains.
    rewrite <- (fd_get_congr d _ _ Hv).
    destruct (fd_get d (vscale t)) as [i|] eqn:Hg.
    + rewrite Hg. by intros [= ->].
    + rewrite fd_get_set, (feqb_refl_l _ _ Hv). by intros [= <-].
  - unfold with_vscale. destruct (fd_contains d (vscale t)); [done|].
    by rewrite fd_get_set, Hv.
Qed.

Lemma add_test_progress (c : Z) (cd : CorrectionDataType) (t : Test)
    (log : list log_msg) (d : fdict (fdict float)) (f : float) :
  py_getitem cd c = Ok d →
  correction_factor_of t = Ok f →
  (vscale t =? vscale t)%float = true →
  ∃ cd', add_test c cd t log = (Ok cd', log ++ [InfoTest t f]).
Proof.
  intros Hd Hf Hv. unfold add_test. cbv zeta.
  unfold mbind, M_bind, lift, log_write, modify, mret, M_ret. rewrite Hf, Hd.
  unfold fdict, CorrectionDataType in *.
  destruct (fd_contains d (vscale t)) eqn:Hc; simpl.
  - rewrite Hd. unfold fd_getitem. unfold fd_contains in Hc.
    destruct (fd_get d (vscale t)) as [inner|]; [|done].
    pose proof (py_setitem_total cd c d
                  (fd_set d (vscale t) (fd_set inner (units_of t) f)) Hd) as [cd' Hcd'].
    unfold fdict in Hcd'. rewrite Hcd'. eauto.
  - pose proof (py_setitem_total cd c d (fd_set d (vscale t) []) Hd) as [cd1 Hcd1].
    unfold fdict in Hcd1. rewrite Hcd1.
    destruct (py_setitem_Ok _ _ _ _ Hcd1) as [Hget _]. rewrite Hget.
    unfold fd_getitem. rewrite fd_get_set, Hv.
    pose proof (py_setitem_total cd1 c _
                  (fd_set (fd_set d (vscale t) []) (vscale t) (fd_set [] (units_of t) f))
                  Hget) as [cd' Hcd'].
    unfold fdict in Hcd'. rewrite Hcd'. eauto.
Qed.

Lemma add_test_stores (c : Z) (cd : CorrectionDataType) (t : Test)
    (log : list log_msg) (d : fdict (fdict float)) (f : float) :
  py_getitem cd c = Ok d →
  correction_factor_of t = Ok f →
  (vscale t =? vscale t)%float = true →
  (units_of t =? units_of t)%float = true →
  ∃ cd', add_test c cd t log = (Ok cd', log ++ [InfoTest t f])
         ∧ table_get cd' c (vscale t) (units_of t) = Some f.
Proof.
  intros Hd Hf Hv Hu.
  destruct (add_test_progress c cd t log d f Hd Hf Hv) as [cd' Hadd].
  exists cd'. split; [done|].
  by rewrite (add_test_table_get _ _ _ _ _ _ _ _ Hadd), Hv, Hu, Hf.
Qed.

(** C1.  For a calibration record whose denominator is not zero and whose
    keys are numbers, the loader computes
    [units = measured_value - zero_offset] and
    [correction_factor = test_voltage / (units * 0.01 * vscale)], logs the
    record with its factor, and stores the factor so that the table returns
    it under [(channel, vscale, units)]. *)
Theorem correction_factor_stored (channel_id : Z) (correction_data : CorrectionDataType)
    (test : Test) (log : list log_msg) (d : fdict (fdict float)) :
  py_getitem correction_data channel_id = Ok d →
  (vscale test =? vscale test)%float = true →
  (units_of test =? units_of test)%float = true →
  (units_of test * 0.01 * vscale test =? 0)%float = false →
  let units := (measured_value test - zero_offset test)%float in
  let correction_factor := (test_voltage test / (units * 0.01 * vscale test))%float in
  ∃ correction_data',
    add_test channel_id correction_data test log
    = (Ok correction_data', log ++ [InfoTest test correction_factor])
    ∧ table_get correction_data' channel_id (vscale test) units = Some correction_factor.
Proof.
  intros Hd Hv Hu Hden units correction_factor.
  apply (add_test_stores channel_id correction_data test log d); try done.
  unfold correction_factor_of, py_truediv. by rewrite Hden.
Qed.

Lemma correction_factor_stored_witness :
  ∃ correction_data',
    add_test 0 empty_correction_data
      {| test_voltage := 5.0; measured_value := 510.0; vscale := 1.0; zero_offset := 10.0 |} []
    = (Ok correction_data',
       [InfoTest {| test_voltage := 5.0; measured_value := 510.0; vscale := 1.0;
                    zero_offset := 10.0 |} 1.0])
    ∧ table_get correction_data' 0 1.0 500.0 = Some 1.0%float.
Proof.
  exact (correction_factor_stored 0 empty_correction_data
           {| test_voltage := 5.0; measured_value := 510.0; vscale := 1.0;
              zero_offset := 10.0 |} [] [] eq_refl eq_refl eq_refl eq_refl).
Defined.

(** The record of the specification, in any channel of any table: the table
    returns exactly 1.0 under [(channel, 1.0, 500.0)]. *)
Lemma round_trip_example (channel_id : Z) (correction_data : CorrectionDataType)
    (log : list log_msg) (d : fdict (fdict float)) :
  py_getitem correction_data channel_id = Ok d →
  ∃ correction_data',
    (add_test channel_id correction_data
       {| test_voltage := 5.0; measured_value := 510.0; vscale := 1.0; zero_offset := 10.0 |}
       log).1 = Ok correction_data'
    ∧ table_get correction_data' channel_id 1.0 500.0 = Some 1.0%float.
Proof.
  intros Hd.
  destruct (add_test_stores channel_id correction_data
              {| test_voltage := 5.0; measured_value := 510.0; vscale := 1.0;
                 zero_offset := 10.0 |} log d 1.0%float Hd eq_refl eq_refl eq_refl)
    as (cd' & Hadd & Hget).
  exists cd'. by rewrite Hadd.
Qed.

(** The whole loader on a file that holds the record for channel 1. *)
Example round_trip_file :
  (main_correction_data int_of_digits (Some "cal.json")
     (JsonObject [("0", [{| test_voltage := 5.0; measured_value := 510.0;
                            vscale := 1.0; zero_offset := 10.0 |}])]) []).1
  = Ok [[(1.0, [(500.0, 1.0)])]; []; []; []; []; []; []; []]%float.
Proof. vm_compute. reflexivity. Qed.

Lemma table_get_congr (cd : CorrectionDataType) (c : Z) (v1 u1 v2 u2 : float) :
  (v1 =? v2)%float = true → (u1 =? u2)%float = true →
  table_get cd c v1 u1 = table_get cd c v2 u2.
Proof.
  intros Hv Hu. unfold table_get. destruct (py_getitem cd c) as [d|]; [|done].
  rewrite (fd_get_congr d _ _ Hv). destruct (fd_get d v2) as [inner|]; [|done].
  apply (fd_get_congr inner _ _ Hu).
Qed.

Lemma foldM_add_test_wf (c : Z) (tests : list Test) (cd cd' : CorrectionDataType)
    (log log' : list log_msg) :
  table_wf cd → foldM (add_test c) cd tests log = (Ok cd', log') → table_wf cd'.
Proof.
  revert cd log. induction tests as [|t tests IH]; intros cd log Hwf; simpl.
  - by intros [= <- _].
  - intros (cd1 & log1 & Hadd & Hrest)%M_bind_Ok.
    apply (IH cd1 log1); [|done].
    apply add_test_Ok in Hadd as (_ & _ & _ & _ & _ & _ & _ & _ & H). by apply H.
Qed.

(** The loop logs one line per test, and nothing else. *)
Lemma foldM_add_test_log (c : Z) (tests : list Test) (cd cd' : CorrectionDataType)
    (log log' : list log_msg) :
  foldM (add_test c) cd tests log = (Ok cd', log') → log' = log ++ test_log tests.
Proof.
  revert cd log. induction tests as [|t tests IH]; intros cd log; simpl.
  - intros [= _ <-]. by rewrite app_nil_r.
  - intros (cd1 & log1 & Hadd & Hrest)%M_bind_Ok.
    apply add_test_Ok in Hadd as (f & _ & _ & Hf & -> & _).
    rewrite (IH _ _ Hrest). unfold test_log. simpl. rewrite Hf.
    by rewrite <- app_assoc.
Qed.

(** Tests with other keys leave the factor under a key as it is. *)
Lemma foldM_add_test_other (c : Z) (tests : list Test) (cd cd' : CorrectionDataType)
    (log log' : list log_msg) (t2 : Test) :
  Forall (λ t, ¬ same_key t t2) tests →
  foldM (add_test c) cd tests log = (Ok cd', log') →
  table_get cd' c (vscale t2) (units_of t2) = table_get cd c (vscale t2) (units_of t2).
Proof.
  intros Hother. revert cd log.
  induction Hother as [|t tests Ht Hother IH]; intros cd log; simpl.
  - by intros [= <- _].
  - intros (cd1 & log1 & Hadd & Hrest)%M_bind_Ok.
    rewrite (IH _ _ Hrest), (add_test_table_get _ _ _ _ _ _ _ _ Hadd).
    destruct (vscale t =? vscale t2)%float eqn:Hv; [|done].
    destruct (units_of t =? units_of t2)%float eqn:Hu; [|done].
    destruct Ht. by split.
Qed.

Lemma table_get_count (cd : CorrectionDataType) (c : Z) (v u f : float) :
  table_wf cd → table_get cd c v u = Some f → table_count cd c v u = 1.
Proof.
  unfold table_get, table_count. intros Hwf.
  destruct (py_getitem cd c) as [d|] eqn:Hd; [|done].
  destruct (fd_get d v) as [inner|] eqn:Hinner; [simpl|done]. intros Hget.
  destruct (py_getitem_Forall _ _ _ _ Hwf Hd) as [_ Hvals].
  pose proof (fd_get_values fd_wf _ _ _ Hvals Hinner u) as Hle.
  destruct (fd_count inner u) as [|[|n]] eqn:Hc; [|done|lia].
  apply fd_get_None_count in Hc. congruence.
Qed.

(** C9.  In the list of tests of a channel, a record [t2] that comes after a
    record [t1] with the same [vscale] and the same [units] replaces its
    factor: whatever else comes before, once no later record has that key
    the table returns the factor of [t2] under the key of either, and holds
    exactly one factor under it; the log has the usual line of each test and
    nothing about the replacement. *)
Theorem later_record_overwrites (channel_id : Z)
    (correction_data correction_data' : CorrectionDataType) (log log' : list log_msg)
    (pre post : list Test) (t1 t2 : Test) :
  table_wf correction_data →
  foldM (add_test channel_id) correction_data (pre ++ t2 :: post) log
  = (Ok correction_data', log') →
  t1 ∈ pre →
  same_key t1 t2 →
  Forall (λ t, ¬ same_key t t2) post →
  ∃ f2,
    correction_factor_of t2 = Ok f2
    ∧ table_get correction_data' channel_id (vscale t1) (units_of t1) = Some f2
    ∧ table_get correction_data' channel_id (vscale t2) (units_of t2) = Some f2
    ∧ table_count correction_data' channel_id (vscale t2) (units_of t2) = 1
    ∧ log' = log ++ test_log (pre ++ t2 :: post).
Proof.
  intros Hwf Hfold _ [Hv Hu] Hpost.
  pose proof (foldM_add_test_wf _ _ _ _ _ _ Hwf Hfold) as Hwf'.
  pose proof (foldM_add_test_log _ _ _ _ _ _ Hfold) as Hlog.
  rewrite foldM_app in Hfold.
  apply M_bind_Ok in Hfold as (cd1 & log1 & Hpre & Hfold). simpl in Hfold.
  apply M_bind_Ok in Hfold as (cd2 & log2 & Hadd & Hrest).
  pose proof (foldM_add_test_other _ _ _ _ _ _ _ Hpost Hrest) as Hkeep.
  rewrite (add_test_table_get _ _ _ _ _ _ _ _ Hadd) in Hkeep.
  rewrite (feqb_refl_r _ _ Hv), (feqb_refl_r _ _ Hu) in Hkeep. simpl in Hkeep.
  apply add_test_Ok in Hadd as (f2 & _ & _ & Hf2 & _).
  rewrite Hf2 in Hkeep. exists f2. split; [done|].
  rewrite (table_get_congr _ _ _ _ _ _ Hv Hu). split; [done|]. split; [done|].
  split; [by apply (table_get_count _ _ _ _ f2) | done].
Qed.

Lemma table_wf_empty : table_wf empty_correction_data.
Proof.
  unfold table_wf, empty_correction_data. apply Forall_replicate.
  split; [apply fd_wf_nil | constructor].
Qed.

Lemma later_record_overwrites_witness :
  ∃ f2,
    correction_factor_of
      {| test_voltage := 2.5; measured_value := 510.0; vscale := 1.0; zero_offset := 10.0 |}
    = Ok f2
    ∧ table_get [[(1.0, [(500.0, 0.5)])]; []; []; []; []; []; []; []]%float 0 1.0 500.0
      = Some f2
    ∧ table_get [[(1.0, [(500.0, 0.5)])]; []; []; []; []; []; []; []]%float 0 1.0 500.0
      = Some f2
    ∧ table_count [[(1.0, [(500.0, 0.5)])]; []; []; []; []; []; []; []]%float 0 1.0 500.0
      = 1
    ∧ [InfoTest {| test_voltage := 5.0; measured_value := 510.0; vscale := 1.0;
                   zero_offset := 10.0 |} 1.0;
       InfoTest {| test_voltage := 2.5; measured_value := 510.0; vscale := 1.0;
                   zero_offset := 10.0 |} 0.5]
      = [] ++ test_log
                ([{| test_voltage := 5.0; measured_value := 510.0; vscale := 1.0;
                     zero_offset := 10.0 |}]
                 ++ {| test_voltage := 2.5; measured_value := 510.0; vscale := 1.0;
                       zero_offset := 10.0 |} :: []).
Proof.
  refine (later_record_overwrites 0 empty_correction_data
            [[(1.0, [(500.0, 0.5)])]; []; []; []; []; []; []; []]%float []
            [InfoTest {| test_voltage := 5.0; measured_value := 510.0; vscale := 1.0;
                         zero_offset := 10.0 |} 1.0;
             InfoTest {| test_voltage := 2.5; measured_value := 510.0; vscale := 1.0;
                         zero_offset := 10.0 |} 0.5]
            [{| test_voltage := 5.0; measured_value := 510.0; vscale := 1.0;
                zero_offset := 10.0 |}] []
            {| test_voltage := 5.0; measured_value := 510.0; vscale := 1.0;
               zero_offset := 10.0 |}
            {| test_voltage := 2.5; measured_value := 510.0; vscale := 1.0;
               zero_offset := 10.0 |}
            table_wf_empty eq_refl _ (conj eq_refl eq_refl) (Forall_nil_2 _)).
  apply list_elem_of_here.
Defined.

(** ** A record whose units are zero *)

Lemma add_test_zero_units (c : Z) (cd : CorrectionDataType) (t : Test)
    (log : list log_msg) :
  (units_of t =? 0)%float = true → is_finite (vscale t) = true →
  add_test c cd t log = (Raise ZeroDivisionError, log).
Proof.
  intros Hu Hv. unfold add_test. cbv zeta.
  apply M_bind_Raise. unfold lift, correction_factor_of, py_truediv.
  by rewrite (zero_units_zero_denominator _ _ Hu Hv).
Qed.

Section zero_units.

Variable py_int : string → result Z.

(** C2, as the code has it.  A record whose units are zero (and whose
    [vscale] is finite) makes the division of line 82 raise
    ZeroDivisionError before anything is logged or stored for it; nothing
    catches the exception, so loading a file that holds such a record ends
    in an exception and yields no table. *)
Theorem zero_units_raises (path : string)
    (calibration_data : list (string * list Test)) (key : string)
    (tests : list Test) (t : Test) (log : list log_msg) :
  path ≠ "" →
  (key, tests) ∈ calibration_data →
  t ∈ tests →
  (units_of t =? 0)%float = true →
  is_finite (vscale t) = true →
  (∀ c cd log0, add_test c cd t log0 = (Raise ZeroDivisionError, log0))
  ∧ ∃ e log',
      main_correction_data py_int (Some path) (JsonObject calibration_data) log
      = (Raise e, log').
Proof.
  intros Hpath Hitem Ht Hu Hv.
  split; [intros; by apply add_test_zero_units|].
  unfold main_correction_data.
  destruct (String.eqb_spec path "") as [|_]; [done|].
  edestruct (foldM_raises (add_channel py_int)
               (merge_sort item_le calibration_data) (key, tests)) as (e & log' & Hfold).
  - rewrite merge_sort_Permutation. exact Hitem.
  - intros cd log0. unfold add_channel. cbv beta iota.
    destruct (py_int key) as [c|e] eqn:Hkey.
    + rewrite (M_bind_step _ _ log0 log0 c) by done.
      rewrite bool_decide_eq_false_2 by (destruct tests; [by inversion Ht | done]).
      unfold mbind, M_bind, log_write, modify.
      apply (foldM_raises (add_test c) tests t Ht).
      intros cd0 log1. exists ZeroDivisionError, log1. by apply add_test_zero_units.
    + exists e, log0. by apply M_bind_Raise.
  - exists e, log'. unfold mbind at 1, M_bind at 1, log_write, modify.
    apply M_bind_Raise. exact Hfold.
Qed.

End zero_units.

Lemma zero_units_raises_witness :
  (∀ c cd log0,
     add_test c cd
       {| test_voltage := 5.0; measured_value := 10.0; vscale := 1.0; zero_offset := 10.0 |}
       log0 = (Raise ZeroDivisionError, log0))
  ∧ ∃ e log',
      main_correction_data int_of_digits (Some "cal.json")
        (JsonObject
           [("0", [{| test_voltage := 5.0; measured_value := 10.0; vscale := 1.0;
                      zero_offset := 10.0 |}])]) []
      = (Raise e, log').
Proof.
  refine (zero_units_raises int_of_digits "cal.json" _ "0" _
           {| test_voltage := 5.0; measured_value := 10.0; vscale := 1.0;
              zero_offset := 10.0 |} [] _
           (list_elem_of_here _ _) (list_elem_of_here _ _) eq_refl eq_refl).
  discriminate.
Defined.

(** C2, the claim refuted: one record with zero units, followed by a good
    one; the loader ends in ZeroDivisionError, the bad record is not logged,
    and no table is built from the record after it. *)
Lemma zero_units_aborts_table :
  main_correction_data int_of_digits (Some "cal.json")
    (JsonObject
       [("0", [{| test_voltage := 5.0; measured_value := 10.0; vscale := 1.0;
                  zero_offset := 10.0 |};
               {| test_voltage := 5.0; measured_value := 510.0; vscale := 1.0;
                  zero_offset := 10.0 |}])]) []
  = (Raise ZeroDivisionError, [InfoUsingCalibrationData "cal.json"; InfoChannel 1]).
Proof. vm_compute. reflexivity. Qed.

(** ** The CSV export *)

Section export_facts.

Context {V : Type}.
Variable py_round : float → Z → float.

Lemma evolves_refl (s : Sink) (w : World V) : evolves s w w [] [].
Proof. unfold evolves. by rewrite !app_nil_r. Qed.

Lemma evolves_trans (s : Sink) (w1 w2 w3 : World V) (t1 t2 : list (Line V))
    (l1 l2 : list log_msg) :
  evolves s w1 w2 t1 l1 → evolves s w2 w3 t2 l2 → evolves s w1 w3 (t1 ++ t2) (l1 ++ l2).
Proof.
  intros (H1 & H2 & H3) (H4 & H5 & H6). unfold evolves.
  rewrite H4, H1, H5, H2, H6, H3, !app_assoc. done.
Qed.

Lemma world_log_spec (s : Sink) (msg : log_msg) (w : World V) :
  ∃ w', world_log msg w = (Ok (), w') ∧ w_csv_file w' = w_csv_file w
        ∧ evolves s w w' [] [msg].
Proof.
  eexists. split; [reflexivity|]. split; [done|].
  unfold evolves. destruct s; simpl; by rewrite app_nil_r.
Qed.

Lemma stdout_write_spec (s : Sink) (ls : list (Line V)) (w : World V) :
  ∃ w', stdout_write ls w = (Ok (), w') ∧ w_csv_file w' = w_csv_file w
        ∧ evolves s w w' (printed s ls) [].
Proof.
  eexists. split; [reflexivity|]. split; [done|].
  unfold evolves. destruct s; simpl; by rewrite !app_nil_r.
Qed.

Lemma csv_file_write_spec (s : Sink) (ls : list (Line V)) (w : World V) :
  w_csv_file w = Opened s →
  ∃ w', csv_file_write ls w = (Ok (), w') ∧ w_csv_file w' = Opened s
        ∧ evolves s w w' ls [].
Proof.
  intros Hs. unfold csv_file_write. rewrite Hs.
  destruct s; (eexists; split; [reflexivity|]; split; [done|]);
    unfold evolves; simpl; rewrite ?app_nil_r, ?lookup_insert_eq; done.
Qed.

Lemma open_csv_file_spec (csv_file_path : string) (w : World V) :
  ∃ w', open_csv_file csv_file_path w = (Ok (), w')
        ∧ w_csv_file w' = Opened (sink_of_path csv_file_path)
        ∧ evolves (sink_of_path csv_file_path) w w' [] [open_message csv_file_path].
Proof.
  unfold open_csv_file, sink_of_path, open_message.
  destruct (String.eqb csv_file_path "-"); [|destruct (py_endswith csv_file_path ".xz")];
    (eexists; split; [reflexivity|]; split; [done|]);
    unfold evolves; simpl; rewrite ?app_nil_r, ?lookup_insert_eq; done.
Qed.

Lemma csv_file_close_spec (s : Sink) (w : World V) :
  w_csv_file w = Opened s →
  ∃ w', csv_file_close w = (Ok (), w') ∧ w_csv_file w' = Closed s
        ∧ evolves s w w' [] [].
Proof.
  intros Hs. unfold csv_file_close. rewrite Hs.
  eexists; split; [reflexivity|]; split; [done|].
  unfold evolves. destruct s; simpl; by rewrite !app_nil_r.
Qed.

Lemma device_close_spec (s : Sink) (w : World V) :
  ∃ w', device_close w = (Ok (), w') ∧ w_csv_file w' = w_csv_file w
        ∧ sink_content s w' = sink_content s w ∧ w_log w' = w_log w
        ∧ w_device_close_calls w' = S (w_device_close_calls w).
Proof. eexists. split; [reflexivity|]. by destruct s. Qed.

Lemma text_rows_app (t1 t2 : list (Line V)) :
  text_rows (t1 ++ t2) = text_rows t1 ++ text_rows t2.
Proof. apply omap_app. Qed.

Lemma text_rows_Row (rows : list (list V)) : text_rows (Row <$> rows) = rows.
Proof. induction rows as [|r rows IH]; [done|]. simpl. by f_equal. Qed.

Lemma text_rows_printed (s : Sink) (n2 n3 : nat) :
  text_rows (printed s [PrintedLengths n2 n3 : Line V]) = [].
Proof. by destruct s. Qed.

Lemma no_titles_Row (rows : list (list V)) : no_titles (Row <$> rows : list (Line V)).
Proof. apply Forall_fmap, Forall_true. done. Qed.

Lemma no_titles_printed (s : Sink) (n2 n3 : nat) :
  no_titles (printed s [PrintedLengths n2 n3 : Line V]).
Proof. destruct s; repeat constructor. Qed.



(** The loop of roll mode appends rows and timestamps, and ends as
    [roll_result] says. *)
Lemma roll_loop_spec (s : Sink) (selected_channels : list Z) (batches : list (Batch V))
    (ending : stream_end) (w : World V) :
  w_csv_file w = Opened s →
  ∃ w' text,
    roll_loop selected_channels batches ending w
    = (roll_result selected_channels batches ending, w')
    ∧ w_csv_file w' = Opened s
    ∧ evolves s w w' text []
    ∧ no_titles text
    ∧ text_rows text = roll_rows selected_channels batches.
Proof.
  revert w. induction batches as [|b batches IH]; intros w Hs; simpl.
  - exists w, []. split; [by destruct ending|].
    split; [done|]. split; [apply evolves_refl|]. split; [constructor | done].
  - destruct (mapM (py_getitem (data b)) selected_channels) as [channel_data|e] eqn:Hcols.
    + destruct (csv_file_write_spec s (Row <$> py_zip_star channel_data) w Hs)
        as (w1 & Hw1 & Hs1 & He1).
      destruct (csv_file_write_spec s [UnixTime (time b)] w1 Hs1)
        as (w2 & Hw2 & Hs2 & He2).
      destruct (IH w2 Hs2) as (w' & text & Hloop & Hs' & He' & Hnt & Hrows).
      exists w', ((Row <$> py_zip_star channel_data) ++ [UnixTime (time b)] ++ text).
      split.
      { rewrite (M_bind_step _ _ w w channel_data) by done.
        rewrite (M_bind_step _ _ w w1 ()) by done.
        by rewrite (M_bind_step _ _ w1 w2 ()). }
      split; [done|]. split.
      { pose proof (evolves_trans _ _ _ _ _ _ _ _ He1 (evolves_trans _ _ _ _ _ _ _ _ He2 He'))
          as H. exact H. }
      split.
      { apply Forall_app. split; [apply no_titles_Row|]. by constructor. }
      rewrite !text_rows_app, text_rows_Row, Hrows. done.
    + exists w, []. split; [by apply M_bind_Raise|].
      split; [done|]. split; [apply evolves_refl|]. split; [constructor | done].
Qed.

Lemma normal_loop_spec (s : Sink) (batches : list (DoubleBatch V)) (ending : exn)
    (w : World V) :
  w_csv_file w = Opened s →
  ∃ w' text,
    normal_loop batches ending w = (normal_result batches ending, w')
    ∧ w_csv_file w' = Opened s
    ∧ evolves s w w' text []
    ∧ no_titles text
    ∧ text_rows text = normal_rows batches.
Proof.
  revert w. induction batches as [|b batches IH]; intros w Hs; simpl.
  - exists w, []. split; [done|].
    split; [done|]. split; [apply evolves_refl|]. split; [constructor | done].
  - unfold lengths_printable.
    destruct (py_getitem (channel_data2 b) 0) as [c2|e] eqn:Hc2; simpl.
    2:{ exists w, []. split; [by apply M_bind_Raise|].
        split; [done|]. split; [apply evolves_refl|]. split; [constructor | done]. }
    destruct (py_getitem (channel_data3 b) 0) as [c3|e] eqn:Hc3; simpl.
    2:{ exists w, []. split.
        { rewrite (M_bind_step _ _ w w c2) by done.
          by apply M_bind_Raise. }
        split; [done|]. split; [apply evolves_refl|]. split; [constructor | done]. }
    destruct (stdout_write_spec s [PrintedLengths (length c2) (length c3)] w)
      as (w0 & Hw0 & Hs0 & He0). rewrite Hs in Hs0.
    destruct (csv_file_write_spec s (Row <$> py_zip_star (channel_data2 b)) w0 Hs0)
      as (w1 & Hw1 & Hs1 & He1).
    destruct (csv_file_write_spec s (Row <$> py_zip_star (channel_data3 b)) w1 Hs1)
      as (w2 & Hw2 & Hs2 & He2).
    destruct (csv_file_write_spec s [UnixTime (time2 b)] w2 Hs2)
      as (w3 & Hw3 & Hs3 & He3).
    destruct (IH w3 Hs3) as (w' & text & Hloop & Hs' & He' & Hnt & Hrows).
    eexists w', _. split.
    { rewrite (M_bind_step _ _ w w c2) by done.
      rewrite (M_bind_step _ _ w w c3) by done.
      rewrite (M_bind_step _ _ w w0 ()) by done.
      rewrite (M_bind_step _ _ w0 w1 ()) by done.
      rewrite (M_bind_step _ _ w1 w2 ()) by done.
      by rewrite (M_bind_step _ _ w2 w3 ()). }
    split; [done|]. split.
    { exact (evolves_trans _ _ _ _ _ _ _ _ He0
               (evolves_trans _ _ _ _ _ _ _ _ He1
                  (evolves_trans _ _ _ _ _ _ _ _ He2
                     (evolves_trans _ _ _ _ _ _ _ _ He3 He')))). }
    split.
    { repeat (apply Forall_app; split); try apply no_titles_Row;
        try apply no_titles_printed; try done. by constructor. }
    rewrite !text_rows_app, !text_rows_Row, text_rows_printed, Hrows. done.
Qed.

Lemma header_lines_titles (selected_channels : list Z) (sampling_rate : Z)
    (measured : option float) (now : float) (vsf : list float)
    (calibration_data : list (float * list float)) :
  ∃ rest,
    header_lines py_round selected_channels sampling_rate measured now vsf calibration_data
    = (ChannelTitles (channel_title <$> selected_channels) : Line V) :: rest
    ∧ no_titles rest ∧ text_rows rest = [].
Proof.
  unfold header_lines.
  set (zs := merge_sort vscale_le calibration_data).
  set (zlines := (λ item, ZeroOffsetLine item.1 ((λ v, py_round v 1) <$> item.2) : Line V)
                   <$> zs).
  assert (no_titles zlines ∧ text_rows zlines = []) as [Hz1 Hz2].
  { unfold zlines. induction zs as [|z zs [IH1 IH2]]; [split; [constructor | done]|].
    split; [by constructor | done]. }
  exists ([SamplingRate sampling_rate]
          ++ match measured with
             | Some r => if (r =? 0)%float then [] else [MeasuredSamplingRate r]
             | None => []
             end
          ++ [UnixTime now; IsoTime now; VscaleLine vsf; CalibrationDataHeading]
          ++ zlines).
  split; [reflexivity|]. split.
  - repeat (apply Forall_app; split); try done.
    + by constructor.
    + destruct measured as [r|]; [destruct (r =? 0)%float|]; repeat constructor.
    + repeat (constructor; [done|]). constructor.
  - rewrite !text_rows_app, Hz2.
    destruct measured as [r|]; [destruct (r =? 0)%float|]; done.
Qed.

(** What an export does, by exit path. *)
Lemma main_export_spec (csv_file_path : string) (selected_channels : list Z)
    (vertical_scale_factor : list float) (roll_mode : bool) (raw_or_volt : string)
    (sampling_rate : Z) (measured_sampling_rate : option float) (now : float)
    (device : Device V) (w : World V) :
  let sel := export_channels raw_or_volt selected_channels in
  let s := sink_of_path csv_file_path in
  let outcome := exit_path_of (export_outcome roll_mode sel device) in
  ∃ w' text,
    main_export py_round csv_file_path selected_channels vertical_scale_factor roll_mode
      raw_or_volt sampling_rate measured_sampling_rate now device w
    = (match outcome with Fatal e => Raise e | _ => Ok () end, w')
    ∧ sink_content s w'
      = sink_content s w
        ++ header_lines py_round sel sampling_rate measured_sampling_rate now
             vertical_scale_factor (get_calibration_data device)
        ++ text
    ∧ no_titles text
    ∧ text_rows text = export_rows roll_mode sel device
    ∧ w_log w'
      = w_log w ++ [open_message csv_file_path]
        ++ match outcome with
           | Completed => [InfoExportFinished]
           | Interrupted => [InfoCanceledByUser; InfoExportFinished]
           | Fatal _ => []
           end
    ∧ w_csv_file w' = match outcome with Fatal _ => Opened s | _ => Closed s end
    ∧ w_device_close_calls w'
      = match outcome with
        | Fatal _ => w_device_close_calls w
        | _ => S (w_device_close_calls w)
        end.
Proof.
  intros sel s outcome.
  set (hdr := header_lines py_round sel sampling_rate measured_sampling_rate now
                vertical_scale_factor (get_calibration_data device)).
  destruct (open_csv_file_spec csv_file_path w) as (w1 & Hw1 & Hs1 & He1).
  destruct (csv_file_write_spec s hdr w1 Hs1) as (w2 & Hw2 & Hs2 & He2).
  assert (∃ w3 text,
            (if roll_mode
             then roll_loop sel (roll_samples device) (roll_end device)
             else normal_loop (normal_samples device) (normal_end device)) w2
            = (export_outcome roll_mode sel device, w3)
            ∧ w_csv_file w3 = Opened s ∧ evolves s w2 w3 text []
            ∧ no_titles text ∧ text_rows text = export_rows roll_mode sel device)
    as (w3 & text & Hw3 & Hs3 & He3 & Hnt & Hrows).
  { unfold export_outcome, export_rows. destruct roll_mode.
    - apply roll_loop_spec, Hs2.
    - apply normal_loop_spec, Hs2. }
  pose proof (evolves_trans _ _ _ _ _ _ _ _ He1 (evolves_trans _ _ _ _ _ _ _ _ He2 He3))
    as He. fold s in He. cbn [app] in He.
  assert ((open_csv_file csv_file_path;;
           csv_file_write hdr;;
           if roll_mode
           then roll_loop sel (roll_samples device) (roll_end device)
           else normal_loop (normal_samples device) (normal_end device)) w
          = (export_outcome roll_mode sel device, w3)) as Hbody.
  { rewrite (M_bind_step _ _ w w1 ()) by done.
    by rewrite (M_bind_step _ _ w1 w2 ()). }
  unfold main_export. fold sel. cbv zeta. fold hdr.
  unfold outcome. destruct (export_outcome roll_mode sel device) as [[]|e] eqn:Hout.
  - (* the generator ends *)
    destruct (csv_file_close_spec s w3 Hs3) as (w4 & Hw4 & Hs4 & He4).
    destruct (world_log_spec s InfoExportFinished w4) as (w5 & Hw5 & Hs5 & He5).
    destruct (device_close_spec s w5) as (w6 & Hw6 & Hs6 & Hc6 & Hl6 & Hd6).
    exists w6, text. split.
    { rewrite (M_bind_step _ _ w w3 ()) by (unfold try_except_KeyboardInterrupt; by rewrite Hbody).
      rewrite (M_bind_step _ _ w3 w4 ()) by done.
      by rewrite (M_bind_step _ _ w4 w5 ()). }
    pose proof (evolves_trans _ _ _ _ _ _ _ _ He (evolves_trans _ _ _ _ _ _ _ _ He4 He5))
      as (Ht & Hl & Hd). rewrite !app_nil_r in Ht. cbn [app] in Hl.
    cbn [exit_path_of app].
    repeat split; try done; congruence.
  - assert (e = KeyboardInterrupt ∨ exit_path_of (Raise e) = Fatal e) as [->|Hfatal]
      by (destruct e; auto).
    + (* the operator interrupts *)
      destruct (world_log_spec s InfoCanceledByUser w3) as (w3' & Hw3' & Hs3' & He3').
      rewrite Hs3 in Hs3'.
      destruct (csv_file_close_spec s w3' Hs3') as (w4 & Hw4 & Hs4 & He4).
      destruct (world_log_spec s InfoExportFinished w4) as (w5 & Hw5 & Hs5 & He5).
      destruct (device_close_spec s w5) as (w6 & Hw6 & Hs6 & Hc6 & Hl6 & Hd6).
      exists w6, text. split.
      { rewrite (M_bind_step _ _ w w3' ())
          by (unfold try_except_KeyboardInterrupt; by rewrite Hbody).
        rewrite (M_bind_step _ _ w3' w4 ()) by done.
        by rewrite (M_bind_step _ _ w4 w5 ()). }
      pose proof (evolves_trans _ _ _ _ _ _ _ _ He
                    (evolves_trans _ _ _ _ _ _ _ _ He3'
                       (evolves_trans _ _ _ _ _ _ _ _ He4 He5))) as (Ht & Hl & Hd).
      rewrite !app_nil_r in Ht. cbn [app] in Hl.
      cbn [exit_path_of app].
      repeat split; try done; congruence.
    + (* a fatal error *)
      rewrite Hfatal. exists w3, text. split.
      { apply M_bind_Raise. unfold try_except_KeyboardInterrupt. rewrite Hbody.
        destruct e; try done. }
      destruct He as (Ht & Hl & Hd).
      rewrite app_nil_r. repeat split; try done.
Qed.

End export_facts.



(** The exit paths of an export in which [open] succeeds and nothing but
    the sample generator raises.  The rows of the batches handled so far
    are in the sink on every exit path.  When the generator ends or raises
    KeyboardInterrupt, the export returns normally with the sink closed and
    the device closed once, after logging the cancellation in the second
    case.  Any other exception of the generator leaves the export at once:
    the sink stays open and the device is not closed. *)
Lemma main_export_outcomes {V : Type} (py_round : float → Z → float)
    (csv_file_path : string) (selected_channels : list Z)
    (vertical_scale_factor : list float) (roll_mode : bool) (raw_or_volt : string)
    (sampling_rate : Z) (measured_sampling_rate : option float) (now : float)
    (device : Device V) (w : World V) :
  let sel := export_channels raw_or_volt selected_channels in
  let s := sink_of_path csv_file_path in
  let run := main_export py_round csv_file_path selected_channels vertical_scale_factor
               roll_mode raw_or_volt sampling_rate measured_sampling_rate now device w in
  text_rows (sink_text csv_file_path run.2)
  = text_rows (sink_text csv_file_path w) ++ export_rows roll_mode sel device
  ∧ match exit_path_of (export_outcome roll_mode sel device) with
    | Completed =>
        run.1 = Ok () ∧ w_csv_file run.2 = Closed s
        ∧ w_device_close_calls run.2 = S (w_device_close_calls w)
        ∧ w_log run.2 = w_log w ++ [open_message csv_file_path; InfoExportFinished]
    | Interrupted =>
        run.1 = Ok () ∧ w_csv_file run.2 = Closed s
        ∧ w_device_close_calls run.2 = S (w_device_close_calls w)
        ∧ w_log run.2
          = w_log w ++ [open_message csv_file_path; InfoCanceledByUser; InfoExportFinished]
    | Fatal e =>
        run.1 = Raise e ∧ w_csv_file run.2 = Opened s
        ∧ w_device_close_calls run.2 = w_device_close_calls w
    end.
Proof.
  intros sel s run.
  destruct (header_lines_titles (V:=V) py_round sel sampling_rate measured_sampling_rate now
              vertical_scale_factor (get_calibration_data device)) as (rest & Hhdr & Hnr & Hrr).
  destruct (main_export_spec py_round csv_file_path selected_channels vertical_scale_factor
              roll_mode raw_or_volt sampling_rate measured_sampling_rate now device w)
    as (w1 & text & Hrun & Htext & Hnt & Hrows & Hlog & Hcsv & Hdev).
  fold sel in Hrun, Htext, Hrows, Hlog, Hcsv, Hdev. fold s in Htext, Hcsv.
  unfold run. rewrite Hrun. cbn [fst snd]. split.
  - unfold sink_text. fold s. rewrite Htext, Hhdr, !text_rows_app.
    change (ChannelTitles (channel_title <$> sel) :: rest)
      with ([ChannelTitles (channel_title <$> sel) : Line V] ++ rest).
    rewrite text_rows_app, Hrr, Hrows. done.
  - destruct (exit_path_of (export_outcome roll_mode sel device)); done.
Qed.


(** The interrupt scenario of the specification: after one batch the sink
    holds exactly its two rows, is closed, and the device was closed once. *)
Example interrupt_scenario :
  (example_export 10.0 interrupted_device (fresh_world ∅)).1 = Ok ()
  ∧ text_rows (sink_text "out.csv" (example_export 10.0 interrupted_device (fresh_world ∅)).2)
    = [[5; 1]; [6; 2]]%Z
  ∧ w_csv_file (example_export 10.0 interrupted_device (fresh_world ∅)).2
    = Closed (PlainFile "out.csv")
  ∧ w_device_close_calls (example_export 10.0 interrupted_device (fresh_world ∅)).2 = 1.
Proof. vm_compute. repeat split; reflexivity. Qed.

(** ** The sampling-rate estimate *)

Lemma py_getitem_0 {A} (l : list A) (x : A) :
  py_getitem l 0 = Ok x → ∃ l', l = x :: l'.
Proof.
  change 0%Z with (Z.of_nat 0). rewrite py_getitem_nat_Ok.
  destruct l as [|y l']; [done|]. intros [= ->]. eauto.
Qed.

(** Once the timer runs, the loop adds the rows of every batch it takes. *)
Lemma measure_loop_started {V} (required_samples counter : Z) (start now : float)
    (batches : list (Batch V)) (c : Z) (st : option float) (t : float) :
  (0 ≤ counter)%Z →
  measure_loop required_samples counter (Some start) now batches = Ok (c, st, t) →
  st = Some start ∧ ∃ n, c = (counter + total_rows (take n batches))%Z.
Proof.
  revert counter now. induction batches as [|b batches IH]; intros counter now Hc; simpl.
  - intros [= <- <- <-]. split; [done|]. exists 0. simpl. lia.
  - assert ((counter =? -1)%Z = false) as -> by (apply Z.eqb_neq; lia).
    intros (data0 & (l' & Hdata)%py_getitem_0 & Hrest)%bind_Ok.
    assert (batch_rows b = Z.of_nat (length data0)) as Hrows
      by (unfold batch_rows; by rewrite Hdata).
    destruct (counter + Z.of_nat (length data0) >=? required_samples)%Z.
    + injection Hrest as <- <- <-. split; [done|]. exists 1. simpl. lia.
    + apply IH in Hrest as (-> & n & ->); [|lia]. split; [done|].
      exists (S n). simpl. lia.
Qed.

(** The timer starts at the first batch, and the rows of that batch are in
    the count. *)
Lemma measure_loop_counts_first_batch {V} (required_samples : Z) (now : float)
    (b : Batch V) (batches : list (Batch V)) (c : Z) (st : option float) (t : float) :
  measure_loop required_samples (-1) None now (b :: batches) = Ok (c, st, t) →
  st = Some (time b) ∧ ∃ n, c = (batch_rows b + total_rows (take n batches))%Z.
Proof.
  simpl. intros (data0 & (l' & Hdata)%py_getitem_0 & Hrest)%bind_Ok.
  assert (batch_rows b = Z.of_nat (length data0)) as Hrows
    by (unfold batch_rows; by rewrite Hdata).
  destruct (0 + Z.of_nat (length data0) >=? required_samples)%Z.
  - injection Hrest as <- <- <-. split; [done|]. exists 0. simpl. lia.
  - apply measure_loop_started in Hrest as (-> & n & ->); [|lia].
    split; [done|]. exists n. lia.
Qed.

(** C5.  The driver delivers 2200 rows every 5 seconds, 440 rows per
    second, the first batch 5 seconds after the start.  Measuring for 10
    seconds at 440 Hz, the estimator starts its timer at the first batch and
    stops after the second with 4400 rows counted in 5 seconds: the rows of
    the first batch, produced before the timer started, are in the count,
    and the estimate is 880 Hz. *)
Theorem first_batch_rows_counted :
  measure_loop (10 * 440) (-1) None 0 steady_batches = Ok (4400%Z, Some 5.0%float, 10.0%float)
  ∧ measure_sampling_rate steady_batches 0 440 10 = Ok 880.0%float.
Proof. split; vm_compute; reflexivity. Qed.

(** ** The calibration routine *)

Section calibration_facts.

Context {D R : Type} `{!Hantek1008 D R}.
Variable py_round : float → Z → float.
Variable average : list R → float.
Variable parse_voltages : string → option (list float).

Lemma no_quit_nil : no_quit [].
Proof. intros c v H. by inversion H. Qed.

Lemma no_quit_app (a b : list console_event) :
  no_quit (a ++ b) ↔ no_quit a ∧ no_quit b.
Proof.
  unfold no_quit. split.
  - intros H. split; intros c v Hin; apply (H c v), elem_of_app; auto.
  - intros [Ha Hb] c v [Hin|Hin]%elem_of_app; [by apply (Ha c v) | by apply (Hb c v)].
Qed.

Lemma no_quit_cell (c : Z) (v : float) (cmd : string) :
  cmd ≠ "q" → no_quit [AskCell c v cmd].
Proof. intros Hne c' v' Hin. apply list_elem_of_singleton in Hin. congruence. Qed.

(** One more answer, not [q], in front of answers without [q]. *)
Ltac no_quit_cons :=
  apply (no_quit_app [_]); split; [by apply no_quit_cell | done].

Lemma input_inv (prompt : string → console_event) (s s' : Session D) (r : result string) :
  input prompt s = (r, s') →
  (r = Raise EOFError ∧ s' = s)
  ∨ ∃ line,
      r = Ok line ∧ s_device s' = s_device s
      ∧ s_transcript s' = s_transcript s ++ [prompt line]
      ∧ s_calibration_data s' = s_calibration_data s
      ∧ s_written s' = s_written s.
Proof.
  unfold input. destruct (s_stdin s) as [|line rest].
  - intros [= <- <-]. by left.
  - intros [= <- <-]. right. exists line. done.
Qed.

(** A measurement touches the device and the records of its channel only. *)
Lemma measure_inv (c : Z) (v : float) (s s' : Session D) (r : result unit) :
  measure py_round average c v s = (r, s') →
  s_transcript s' = s_transcript s ∧ s_written s' = s_written s
  ∧ (∀ c', c' ≠ c → s_calibration_data s' !! c' = s_calibration_data s !! c')
  ∧ (∀ l, s_calibration_data s !! c = Some l →
       ∃ l', s_calibration_data s' !! c = Some (l ++ l')).
Proof.
  unfold measure, mbind, M_bind, with_device, modify, collect_rows, lift, records_of,
    gets, set_calibration_data. cbn -[take_rows required_calibration_samples_nun].
  destruct (take_rows required_calibration_samples_nun (cancel_pause (s_device s)))
    as [rows d]. cbn -[take_rows required_calibration_samples_nun].
  destruct (py_getitem (py_zip_star rows) c) as [cd|e]; simpl.
  2:{ intros [= <- <-]. simpl. repeat split; try done. intros l Hl. exists [].
      by rewrite app_nil_r. }
  destruct (s_calibration_data s !! c) as [records|] eqn:Hrec; simpl.
  2:{ intros [= <- <-]. simpl. repeat split; try done. }
  destruct (py_getitem (get_vscales (pause d)) c) as [vs|e]; simpl.
  2:{ intros [= <- <-]. simpl. repeat split; try done. intros l Hl. exists [].
      rewrite app_nil_r. congruence. }
  intros [= <- <-]. simpl. repeat split; try done.
  - intros c' Hc'. by rewrite lookup_insert_ne.
  - intros l [= <-]. rewrite lookup_insert_eq. eauto.
Qed.

Lemma voltage_loop_spec (c : Z) (tvs : list float) (s s' : Session D) (r : result flow) :
  voltage_loop py_round average c tvs s = (r, s') →
  s_written s' = s_written s
  ∧ ∃ asked,
      s_transcript s' = s_transcript s ++ asked
      ∧ Forall (λ ev, ∃ v cmd, ev = AskCell c v cmd) asked
      ∧ match r with
        | Ok Return => ∃ before v, asked = before ++ [AskCell c v "q"] ∧ no_quit before
        | Ok Next =>
            no_quit asked
            ∧ ((∃ v, AskCell c v "ss" ∈ asked)
               ∨ ∀ v, v ∈ tvs → ∃ cmd, AskCell c v cmd ∈ asked)
        | Raise _ => no_quit asked
        end
      ∧ (∀ c', c' ≠ c → s_calibration_data s' !! c' = s_calibration_data s !! c')
      ∧ (∀ l, s_calibration_data s !! c = Some l →
           ∃ l', s_calibration_data s' !! c = Some (l ++ l')
                 ∧ (channel_skipped asked c → l' = [])).
Proof.
  revert s r s'. induction tvs as [|tv tvs IH]; intros s r s'; simpl.
  - unfold mret, M_ret. intros [= <- <-]. split; [done|]. exists []. rewrite app_nil_r.
    repeat split; try done.
    + apply no_quit_nil.
    + right. intros v Hv. by inversion Hv.
    + intros l Hl. exists []. by rewrite app_nil_r.
  - unfold mbind at 1, M_bind at 1.
    destruct (input (AskCell c tv) s) as [[cmd|e] s1] eqn:Hin;
      apply input_inv in Hin as [[? ->]|(line & Hr & Hdev & Htr & Hdata & Hwr)]; try done;
      cbv beta iota.
    + injection Hr as <-.
      destruct (String.eqb_spec cmd "q") as [->|Hq].
      { unfold mret, M_ret. intros [= <- <-]. split; [done|]. exists [AskCell c tv "q"].
        repeat split; try done.
        - repeat constructor. eauto.
        - exists [], tv. split; [done | apply no_quit_nil].
        - intros c' _. by rewrite Hdata.
        - intros l Hl. exists []. rewrite app_nil_r, Hdata. done. }
      destruct (String.eqb_spec cmd "ss") as [->|Hss].
      { unfold mret, M_ret. intros [= <- <-]. split; [done|]. exists [AskCell c tv "ss"].
        repeat split; try done.
        - repeat constructor. eauto.
        - by apply no_quit_cell.
        - left. exists tv. apply list_elem_of_here.
        - intros c' _. by rewrite Hdata.
        - intros l Hl. exists []. rewrite app_nil_r, Hdata. done. }
      destruct (String.eqb_spec cmd "s") as [->|Hs].
      { intros (Hw & asked & Hasked & Hev & Hr & Hother & Hself)%IH.
        split; [congruence|]. exists (AskCell c tv "s" :: asked).
        split; [rewrite Hasked, Htr, <- app_assoc; done|].
        split; [constructor; eauto|]. split.
        - destruct r as [[|]|e].
          + destruct Hr as [Hnq Hdec]. split.
            * no_quit_cons.
            * destruct Hdec as [[v Hv]|Hall]; [left; exists v; by constructor|].
              right. intros v [->|Hv]%elem_of_cons.
              -- exists "s". apply list_elem_of_here.
              -- destruct (Hall v Hv) as [cmd' Hcmd]. exists cmd'. by constructor.
          + destruct Hr as (before & v & -> & Hnq).
            exists (AskCell c tv "s" :: before), v. split; [done|].
            no_quit_cons.
          + no_quit_cons.
        - split; [intros c' Hc'; rewrite (Hother c' Hc'), Hdata; done|].
          intros l Hl. rewrite <- Hdata in Hl. destruct (Hself l Hl) as (l' & Hl' & Hskip).
          exists l'. split; [done|]. intros Hsk. apply Hskip.
          intros v cmd' Hcmd. apply (Hsk v cmd'). by constructor. }
      (* a measurement *)
      unfold mbind at 1, M_bind at 1.
      destruct (measure py_round average c tv s1) as [[[]|e] s2] eqn:Hm;
        apply measure_inv in Hm as (Htr2 & Hwr2 & Hother2 & Hself2); cbv beta iota.
      * intros (Hw & asked & Hasked & Hev & Hr & Hother & Hself)%IH.
        split; [congruence|]. exists (AskCell c tv cmd :: asked).
        split; [rewrite Hasked, Htr2, Htr, <- app_assoc; done|].
        split; [constructor; eauto|]. split.
        -- destruct r as [[|]|e].
           ++ destruct Hr as [Hnq Hdec]. split.
              ** no_quit_cons.
              ** destruct Hdec as [[v Hv]|Hall]; [left; exists v; by constructor|].
                 right. intros v [->|Hv]%elem_of_cons.
                 --- exists cmd. apply list_elem_of_here.
                 --- destruct (Hall v Hv) as [cmd' Hcmd]. exists cmd'. by constructor.
           ++ destruct Hr as (before & v & -> & Hnq).
              exists (AskCell c tv cmd :: before), v. split; [done|].
              no_quit_cons.
           ++ no_quit_cons.
        -- split; [intros c' Hc'; rewrite (Hother c' Hc'), (Hother2 c' Hc'), Hdata; done|].
           intros l Hl. rewrite <- Hdata in Hl. destruct (Hself2 l Hl) as (l2 & Hl2).
           destruct (Hself _ Hl2) as (l' & Hl' & _).
           exists (l2 ++ l'). split; [by rewrite app_assoc|].
           intros Hsk. destruct (Hsk tv cmd (list_elem_of_here _ _)); congruence.
      * intros [= <- <-]. split; [congruence|]. exists [AskCell c tv cmd].
        split; [by rewrite Htr2, Htr|]. split; [repeat constructor; eauto|].
        split; [by apply no_quit_cell|].
        split; [intros c' Hc'; rewrite (Hother2 c' Hc'), Hdata; done|].
        intros l Hl. rewrite <- Hdata in Hl. destruct (Hself2 l Hl) as (l2 & Hl2).
        exists l2. split; [done|].
        intros Hsk. destruct (Hsk tv cmd (list_elem_of_here _ _)); congruence.
    + (* end of input *)
      intros [= <- <-]. split; [done|]. exists []. rewrite app_nil_r.
      repeat split; try done; [apply no_quit_nil|].
      intros l Hl. exists []. by rewrite app_nil_r.
Qed.

Lemma channel_loop_spec (tvs : list float) (chans : list Z) (s s' : Session D)
    (r : result flow) :
  NoDup chans →
  channel_loop py_round average tvs chans s = (r, s') →
  s_written s' = s_written s
  ∧ ∃ asked,
      s_transcript s' = s_transcript s ++ asked
      ∧ Forall (λ ev, ∃ c v cmd, ev = AskCell c v cmd ∧ c ∈ chans) asked
      ∧ match r with
        | Ok Return => ∃ before c v, asked = before ++ [AskCell c v "q"] ∧ no_quit before
        | Ok Next =>
            no_quit asked
            ∧ (∀ c, c ∈ chans → channel_decided tvs asked c)
            ∧ (∀ c, c ∈ chans → is_Some (s_calibration_data s' !! c))
            ∧ (∀ c, c ∈ chans → channel_skipped asked c →
                 s_calibration_data s' !! c = Some [])
        | Raise _ => no_quit asked
        end
      ∧ (∀ c', c' ∉ chans → s_calibration_data s' !! c' = s_calibration_data s !! c').
Proof.
  intros Hnd. revert s r s'.
  induction Hnd as [|c chans Hc Hnd IH]; intros s r s'; simpl.
  - unfold mret, M_ret. intros [= <- <-]. split; [done|]. exists []. rewrite app_nil_r.
    repeat split; try done; try (intros c Hin; by inversion Hin). apply no_quit_nil.
  - unfold mbind at 1, M_bind at 1, set_calibration_data at 1, modify at 1. cbv beta iota.
    set (s0 := {| s_device := s_device s; s_stdin := s_stdin s;
                  s_transcript := s_transcript s;
                  s_calibration_data := <[c:=[]]> (s_calibration_data s);
                  s_written := s_written s |}).
    unfold mbind at 1, M_bind at 1.
    destruct (voltage_loop py_round average c tvs s0) as [[f|e] s1] eqn:Hv;
      apply voltage_loop_spec in Hv
        as (Hw1 & asked1 & Htr1 & Hev1 & Hr1 & Hother1 & Hself1); cbv beta iota.
    2:{ (* the voltage loop raises *)
        intros [= <- <-]. split; [done|]. exists asked1. split; [done|].
        split; [|split; [done|]].
        - eapply Forall_impl; [exact Hev1|]. intros ev (v & cmd & ->).
          exists c, v, cmd. split; [done | apply list_elem_of_here].
        - intros c' Hc'. rewrite Hother1 by (intros ->; apply Hc', list_elem_of_here).
          simpl. rewrite lookup_insert_ne; [done|]. intros ->. apply Hc', list_elem_of_here. }
    destruct f.
    2:{ (* quit *)
        unfold mret, M_ret. intros [= <- <-]. split; [done|]. exists asked1. split; [done|].
        split; [|split].
        - eapply Forall_impl; [exact Hev1|]. intros ev (v & cmd & ->).
          exists c, v, cmd. split; [done | apply list_elem_of_here].
        - destruct Hr1 as (before & v & -> & Hnq). by exists before, c, v.
        - intros c' Hc'. rewrite Hother1 by (intros ->; apply Hc', list_elem_of_here).
          simpl. rewrite lookup_insert_ne; [done|]. intros ->. apply Hc', list_elem_of_here. }
    (* on to the next channel *)
    intros (Hw2 & asked2 & Htr2 & Hev2 & Hr2 & Hother2)%IH.
    destruct Hr1 as [Hnq1 Hdec1].
    destruct (Hself1 [] (lookup_insert_eq _ _ _)) as (l' & Hl' & Hskip1).
    assert (∀ c0 v cmd, AskCell c0 v cmd ∈ asked2 → c0 ∈ chans) as Hin2.
    { intros c0 v cmd Hin. rewrite Forall_forall in Hev2.
      destruct (Hev2 _ Hin) as (c1 & v1 & cmd1 & [= -> -> ->] & ?). done. }
    assert (∀ c0 v cmd, AskCell c0 v cmd ∈ asked1 → c0 = c) as Hin1.
    { intros c0 v cmd Hin. rewrite Forall_forall in Hev1.
      destruct (Hev1 _ Hin) as (v1 & cmd1 & [= -> -> ->]). done. }
    split; [by rewrite Hw2, Hw1|]. exists (asked1 ++ asked2).
    split; [by rewrite Htr2, Htr1, app_assoc|]. split.
    { apply Forall_app. split.
      - eapply Forall_impl; [exact Hev1|]. intros ev (v & cmd & ->).
        exists c, v, cmd. split; [done | apply list_elem_of_here].
      - eapply Forall_impl; [exact Hev2|]. intros ev (c0 & v & cmd & -> & Hin).
        exists c0, v, cmd. split; [done | by constructor]. }
    split.
    { destruct r as [[|]|e].
      - destruct Hr2 as (Hnq2 & Hdec2 & Hsome2 & Hempty2).
        split; [by apply no_quit_app|]. split; [|split].
        + intros c0 [->|Hin]%elem_of_cons.
          * destruct Hdec1 as [[v Hv]|Hall]; [left; exists v; apply elem_of_app; auto|].
            right. intros v Hv. destruct (Hall v Hv) as [cmd Hcmd].
            exists cmd. apply elem_of_app. auto.
          * destruct (Hdec2 c0 Hin) as [[v Hv]|Hall]; [left; exists v; apply elem_of_app; auto|].
            right. intros v Hv. destruct (Hall v Hv) as [cmd Hcmd].
            exists cmd. apply elem_of_app. auto.
        + intros c0 [->|Hin]%elem_of_cons; [|by apply Hsome2].
          rewrite (Hother2 c Hc), Hl'. eauto.
        + intros c0 [->|Hin]%elem_of_cons Hsk.
          * rewrite (Hother2 c Hc), Hl', Hskip1; [done|].
            intros v cmd Hcmd. apply (Hsk v cmd), elem_of_app. auto.
          * apply Hempty2; [done|].
            intros v cmd Hcmd. apply (Hsk v cmd), elem_of_app. auto.
      - destruct Hr2 as (before & c0 & v & -> & Hnq2).
        exists (asked1 ++ before), c0, v. split; [by rewrite app_assoc|].
        by apply no_quit_app.
      - by apply no_quit_app. }
    intros c' Hc'. rewrite Hother2 by (intros Hin; apply Hc'; by constructor).
    rewrite Hother1 by (intros ->; apply Hc', list_elem_of_here).
    simpl. rewrite lookup_insert_ne; [done|]. intros ->. apply Hc', list_elem_of_here.
Qed.

Lemma read_test_voltages_spec (fuel : nat) (s s' : Session D) (r : result (list float)) :
  read_test_voltages parse_voltages fuel s = (r, s') →
  s_written s' = s_written s
  ∧ s_calibration_data s' = s_calibration_data s
  ∧ ∃ asked, s_transcript s' = s_transcript s ++ asked
             ∧ Forall (λ ev, ∃ in_str, ev = AskVoltages in_str) asked.
Proof.
  revert s. induction fuel as [|fuel IH]; intros s; simpl.
  - intros [= <- <-]. repeat split; try done. exists []. by rewrite app_nil_r.
  - unfold mbind at 1, M_bind at 1.
    destruct (input AskVoltages s) as [[in_str|e] s1] eqn:Hin;
      apply input_inv in Hin as [[? ->]|(line & Hr & Hdev & Htr & Hdata & Hwr)]; try done;
      cbv beta iota.
    + injection Hr as <-. destruct (parse_voltages in_str) as [tvs|].
      * unfold mret, M_ret. intros [= <- <-]. repeat split; try done.
        exists [AskVoltages in_str]. split; [done|]. repeat constructor. eauto.
      * intros (Hw & Hd & asked & Hasked & Hev)%IH.
        repeat split; try congruence.
        exists (AskVoltages in_str :: asked).
        split; [by rewrite Hasked, Htr, <- app_assoc|]. constructor; eauto.
    + intros [= <- <-]. repeat split; try done. exists []. by rewrite app_nil_r.
Qed.

Lemma NoDup_py_range_0_8 : NoDup (py_range 0 8).
Proof. unfold py_range. apply NoDup_fmap_2; [intros a b; lia | apply NoDup_seq]. Qed.

Lemma elem_of_py_range_0_8 (c : Z) : c ∈ py_range 0 8 ↔ (0 ≤ c < 8)%Z.
Proof.
  unfold py_range. rewrite list_elem_of_fmap. split.
  - intros (n & -> & Hn%elem_of_seq). simpl in Hn. lia.
  - intros Hc. exists (Z.to_nat c). split; [lia|]. apply elem_of_seq. simpl. lia.
Qed.

(** What a run of the routine does, by the way its loops end. *)
Lemma calibration_routine_spec (path : string) (s : Session D) :
  let run := calibration_routine py_round average parse_voltages path s in
  ∃ asked,
    s_transcript run.2 = s_transcript s ++ asked
    ∧ ((∃ before c v, asked = before ++ [AskCell c v "q"] ∧ no_quit before
                      ∧ run.1 = Ok () ∧ s_written run.2 = s_written s)
       ∨ (no_quit asked ∧ s_written run.2 = s_written s ∧ ∃ e, run.1 = Raise e)
       ∨ (no_quit asked ∧ run.1 = Ok ()
          ∧ s_written run.2 = s_written s ++ [(path, s_calibration_data run.2)]
          ∧ (∃ test_voltages, ∀ c, (0 ≤ c < 8)%Z → channel_decided test_voltages asked c)
          ∧ (∀ c, is_Some (s_calibration_data run.2 !! c) ↔ (0 ≤ c < 8)%Z)
          ∧ (∀ c, (0 ≤ c < 8)%Z → channel_skipped asked c →
               s_calibration_data run.2 !! c = Some []))).
Proof.
  intros run. unfold run. clear run.
  destruct (calibration_routine py_round average parse_voltages path s) as [r s'] eqn:Hrun.
  cbn [fst snd]. unfold calibration_routine in Hrun.
  unfold mbind at 1, M_bind at 1, set_calibration_data at 1, modify at 1 in Hrun.
  cbv beta iota in Hrun.
  unfold mbind at 1, M_bind at 1, with_device at 1, modify at 1 in Hrun.
  cbv beta iota in Hrun.
  unfold mbind at 1, M_bind at 1, gets at 1 in Hrun. cbv beta iota in Hrun.
  set (s0 := {| s_device := _; s_stdin := _; s_transcript := _;
                s_calibration_data := _; s_written := _ |}) in Hrun.
  unfold mbind at 1, M_bind at 1 in Hrun.
  destruct (read_test_voltages parse_voltages (length (s_stdin s0)) s0)
    as [[tvs|e] s1] eqn:Hread;
    apply read_test_voltages_spec in Hread as (Hw1 & Hd1 & asked1 & Htr1 & Hev1);
    cbv beta iota in Hrun.
  2:{ injection Hrun as <- <-. exists asked1. split; [done|]. right. left.
      split; [|split; [done | eauto]].
      intros c v Hin. rewrite Forall_forall in Hev1. by destruct (Hev1 _ Hin). }
  assert (no_quit asked1) as Hnq1.
  { intros c v Hin. rewrite Forall_forall in Hev1. by destruct (Hev1 _ Hin). }
  unfold mbind at 1, M_bind at 1 in Hrun.
  destruct (channel_loop py_round average tvs (py_range 0 8) s1) as [[f|e] s2] eqn:Hloop;
    apply (channel_loop_spec _ _ _ _ _ NoDup_py_range_0_8) in Hloop
      as (Hw2 & asked2 & Htr2 & Hev2 & Hr2 & Hother2); cbv beta iota in Hrun.
  2:{ injection Hrun as <- <-. exists (asked1 ++ asked2).
      split; [by rewrite Htr2, Htr1, app_assoc|].
      right. left. split; [by apply no_quit_app|]. split; [by rewrite Hw2, Hw1 | eauto]. }
  destruct f.
  - (* natural completion *)
    unfold write_calibration_file, modify in Hrun. injection Hrun as <- <-. cbn [s_written
      s_transcript s_calibration_data].
    destruct Hr2 as (Hnq2 & Hdec2 & Hsome2 & Hempty2).
    exists (asked1 ++ asked2). split; [by rewrite Htr2, Htr1, app_assoc|].
    right. right. split; [by apply no_quit_app|]. split; [done|].
    split; [by rewrite Hw2, Hw1|]. split; [|split].
    + exists tvs. intros c Hc%elem_of_py_range_0_8.
      destruct (Hdec2 c Hc) as [[v Hv]|Hall]; [left; exists v; apply elem_of_app; auto|].
      right. intros v Hv. destruct (Hall v Hv) as [cmd Hcmd].
      exists cmd. apply elem_of_app. auto.
    + intros c. split.
      * intros Hsome. apply elem_of_py_range_0_8.
        destruct (decide (c ∈ py_range 0 8)) as [|Hnot]; [done|].
        rewrite (Hother2 c Hnot), Hd1 in Hsome. simpl in Hsome.
        rewrite lookup_empty in Hsome. by destruct Hsome.
      * intros Hc%elem_of_py_range_0_8. by apply Hsome2.
    + intros c Hc%elem_of_py_range_0_8 Hsk. apply Hempty2; [done|].
      intros v cmd Hcmd. apply (Hsk v cmd), elem_of_app. auto.
  - (* quit *)
    unfold mret, M_ret in Hrun. injection Hrun as <- <-.
    destruct Hr2 as (before & c & v & -> & Hnq2).
    exists (asked1 ++ before ++ [AskCell c v "q"]).
    split; [by rewrite Htr2, Htr1, <- !app_assoc|].
    left. exists (asked1 ++ before), c, v. split; [by rewrite app_assoc|].
    split; [by apply no_quit_app|]. split; [done|]. by rewrite Hw2, Hw1.
Qed.

(** C10.  When the routine has written its file, the mapping in it has
    exactly the keys 0..7, and a channel for which every answer was [s] or
    [ss] has the empty list of records. *)
Theorem completed_mapping_has_all_channels (path : string) (s : Session D)
    (m : gmap Z (list Test)) (asked : list console_event) :
  let run := calibration_routine py_round average parse_voltages path s in
  s_written run.2 = s_written s ++ [(path, m)] →
  s_transcript run.2 = s_transcript s ++ asked →
  m = s_calibration_data run.2
  ∧ (∀ c, is_Some (m !! c) ↔ (0 ≤ c < 8)%Z)
  ∧ (∀ c, (0 ≤ c < 8)%Z → channel_skipped asked c → m !! c = Some []).
Proof.
  intros run Hwritten Hasked.
  destruct (calibration_routine_spec path s) as (asked' & Htr & Hcases).
  fold run in Htr, Hcases.
  assert (asked' = asked) as -> by (rewrite Htr in Hasked; by apply app_inv_head in Hasked).
  assert (s_written run.2 ≠ s_written s) as Hne.
  { rewrite Hwritten. intros Heq%(f_equal length). rewrite length_app in Heq. simpl in Heq. lia. }
  destruct Hcases as [(before & c0 & v0 & -> & Hnq & Hr & Hw)
                     |[(Hnq & Hw & e & Hr)|(Hnq & Hr & Hw & Hdec & Hdom & Hempty)]];
    [done | done |].
  rewrite Hw in Hwritten. apply app_inv_head in Hwritten. injection Hwritten as <-.
  done.
Qed.

End calibration_facts.

Lemma completed_mapping_witness :
  s_calibration_data (example_routine completing_lines).2
  = s_calibration_data (example_routine completing_lines).2
  ∧ (∀ c, is_Some (s_calibration_data (example_routine completing_lines).2 !! c)
          ↔ (0 ≤ c < 8)%Z)
  ∧ (∀ c, (0 ≤ c < 8)%Z →
       channel_skipped (s_transcript (example_routine completing_lines).2) c →
       s_calibration_data (example_routine completing_lines).2 !! c = Some []).
Proof.
  apply (completed_mapping_has_all_channels (λ x _, x) mean_of_ints parse_example_voltages
           "cal.json" (example_session completing_lines)).
  - vm_compute. reflexivity.
  - vm_compute. reflexivity.
Defined.

(** The two runs of the examples: after a completed run the file holds one
    record for channel 1 and none for channel 2; after [q] nothing is
    written although a record was taken. *)
Example completing_run :
  (example_routine completing_lines).1 = Ok ()
  ∧ length (s_written (example_routine completing_lines).2) = 1
  ∧ (length <$> s_calibration_data (example_routine completing_lines).2 !! 0%Z) = Some 1
  ∧ s_calibration_data (example_routine completing_lines).2 !! 1%Z = Some [].
Proof. vm_compute. repeat split; reflexivity. Qed.

Example quitting_run :
  (example_routine quitting_lines).1 = Ok ()
  ∧ s_written (example_routine quitting_lines).2 = []
  ∧ (length <$> s_calibration_data (example_routine quitting_lines).2 !! 0%Z) = Some 1.
Proof. vm_compute. repeat split; reflexivity. Qed.

(* ===================================================================== *)
(** * Part III: further properties of the code                             *)
(* ===================================================================== *)

(** ** Which configurations are accepted *)

Lemma mapM_total {A B} (f : A → result B) (l : list A) :
  (∀ x, x ∈ l → ∃ y, f x = Ok y) → ∃ k, mapM f l = Ok k.
Proof.
  induction l as [|x l IH]; intros Hf; [by exists []|].
  destruct (Hf x (list_elem_of_here _ _)) as [y Hy].
  destruct IH as [k Hk]; [intros z Hz; apply Hf; by constructor|].
  exists (y :: k). apply mapM_Ok. constructor; [done | by apply mapM_Ok].
Qed.

Lemma py_index_elem (x : Z) (l : list Z) :
  x ∈ l → ∃ k, py_index x l = Ok k ∧ l !! k = Some x.
Proof.
  induction l as [|y l IH]; [by inversion 1|]. simpl.
  case_bool_decide as Hy.
  - intros _. exists 0. by subst.
  - intros [->|Hin]%elem_of_cons; [done|].
    destruct (IH Hin) as (k & -> & Hk). by exists (S k).
Qed.

Lemma py_getitem_lt {A} (l : list A) (k : nat) :
  k < length l → ∃ x, py_getitem l (Z.of_nat k) = Ok x.
Proof.
  intros Hk. destruct (lookup_lt_is_Some_2 l k Hk) as [x Hx].
  exists x. by apply py_getitem_nat_Ok.
Qed.

(** The scale vector is built whenever the factors are one, or as many as
    the selected channels. *)
Lemma main_vertical_scale_factor_total (fs : list float) (sel : list Z) :
  length fs = 1 ∨ length fs = length sel →
  ∃ v, main_vertical_scale_factor (VsfList fs) sel = Ok v.
Proof.
  intros Harity. unfold main_vertical_scale_factor. case_bool_decide as Hlen.
  - apply mapM_total. intros i _. case_bool_decide; [eauto|].
    apply (py_getitem_lt fs 0). lia.
  - destruct Harity as [?|Harity]; [done|].
    rewrite bool_decide_eq_true_2 by done. cbv [py_assert mbind result_bind].
    apply mapM_total. intros i _. case_bool_decide as Hin; [eauto|].
    destruct (py_index_elem i sel Hin) as (k & -> & Hk).
    simpl. apply py_getitem_lt. rewrite Harity. by eapply lookup_lt_Some.
Qed.

Lemma main_channel_config_is_Ok (selected : option (list Z)) (vsf : vsf_arg)
    (zos : option Z) :
  is_Ok (main_channel_config selected vsf zos) = true
  ↔ NoDup (default_channels selected)
    ∧ Forall (λ c, 1 ≤ c ≤ 8)%Z (default_channels selected)
    ∧ (∀ z, zos = Some z → (1 ≤ z ≤ 8)%Z)
    ∧ match vsf with
      | VsfNone => True
      | VsfFloat _ => False
      | VsfList fs => length fs = 1 ∨ length fs = length (default_channels selected)
      end.
Proof.
  unfold main_channel_config.
  destruct (main_selected_channels selected) as [sel|e] eqn:Hsel.
  2:{ split; [done|]. intros (Hnd & Hrange & _).
      assert (∃ sel, main_selected_channels selected = Ok sel) as [sel Hsel'].
      { eexists. apply main_selected_channels_Ok. eauto. }
      congruence. }
  apply main_selected_channels_Ok in Hsel as (Hnd & Hrange & ->).
  cbn [mbind result_bind].
  assert (is_Ok (main_zos_channel zos) = true ↔ ∀ z, zos = Some z → (1 ≤ z ≤ 8)%Z) as Hzos.
  { unfold main_zos_channel, in_1_8. destruct zos as [z|]; simpl.
    - destruct ((1 <=? z)%Z && (z <=? 8)%Z) eqn:Hz; simpl.
      + apply andb_true_iff in Hz as [?%Z.leb_le ?%Z.leb_le].
        split; [intros _ ? [= <-]; lia | done].
      + split; [done|]. intros H. specialize (H z eq_refl).
        apply andb_false_iff in Hz as [?%Z.leb_gt|?%Z.leb_gt]; lia.
    - split; [by intros _ ?|done]. }
  destruct (main_zos_channel zos) as [z'|e]; cbn [mbind result_bind is_Ok].
  2:{ split; [done|]. intros (_ & _ & Hz & _). by apply Hzos in Hz. }
  set (sel := (λ i, i - 1)%Z <$> default_channels selected).
  assert (NoDup sel) as Hnd' by (apply NoDup_fmap_2; [intros a b; lia | done]).
  destruct (main_vertical_scale_factor vsf sel) as [v|e] eqn:Hv;
    cbn [mbind result_bind is_Ok].
  - split; [|done]. intros _. split; [done|]. split; [done|]. split; [by apply Hzos|].
    destruct vsf as [|f|fs]; [done | done |].
    destruct (scale_vector_of_list _ _ _ Hnd' Hv) as (_ & Harity & _).
    unfold sel in Harity. by rewrite length_fmap in Harity.
  - split; [done|]. intros (_ & _ & _ & Harity).
    destruct vsf as [|f|fs]; [done | done |].
    destruct (main_vertical_scale_factor_total fs sel) as [v Hv'];
      [unfold sel; by rewrite length_fmap | congruence].
Qed.

Lemma py_assert_Raise (b : bool) (e : exn) : py_assert b = Raise e → e = AssertionError.
Proof. destruct b; [done | by intros [= <-]]. Qed.

(** X1.  [main] gets past lines 29-54 exactly when the channels (all eight
    when none are given) are pairwise distinct and in 1..8, the compensation
    channel, if any, is in 1..8, and the scale factors are [None] or a list
    with one factor or one factor per channel; the bare float [1.0] that the
    signature gives as default is refused.  When it does not get past them
    the exception is an AssertionError: the indexing of lines 44-54 never
    raises. *)
Theorem main_channel_config_accepts (selected : option (list Z)) (vsf : vsf_arg)
    (zos : option Z) :
  (is_Ok (main_channel_config selected vsf zos) = true
   ↔ NoDup (default_channels selected)
     ∧ Forall (λ c, 1 ≤ c ≤ 8)%Z (default_channels selected)
     ∧ (∀ z, zos = Some z → (1 ≤ z ≤ 8)%Z)
     ∧ match vsf with
       | VsfNone => True
       | VsfFloat _ => False
       | VsfList fs => length fs = 1 ∨ length fs = length (default_channels selected)
       end)
  ∧ ∀ e, main_channel_config selected vsf zos = Raise e → e = AssertionError.
Proof.
  split; [apply main_channel_config_is_Ok|].
  intros e. unfold main_channel_config, main_selected_channels, main_zos_channel.
  cbv zeta.
  destruct (py_assert (bool_decide (len_set (default_channels selected)
                                    = length (default_channels selected))))
    as [[]|e1] eqn:H1; cbn [mbind result_bind];
    [|intros [= <-]; by apply py_assert_Raise in H1].
  destruct (py_assert (forallb in_1_8 (default_channels selected)))
    as [[]|e2] eqn:H2; cbn [mbind result_bind];
    [|intros [= <-]; by apply py_assert_Raise in H2].
  destruct (py_assert match zos with Some c => in_1_8 c | None => true end)
    as [[]|e3] eqn:H3; cbn [mbind result_bind];
    [|intros [= <-]; by apply py_assert_Raise in H3].
  set (sel := (λ i, i - 1)%Z <$> default_channels selected).
  destruct vsf as [|f|fs].
  - done.
  - by intros [= <-].
  - destruct (main_vertical_scale_factor (VsfList fs) sel) as [v|e4] eqn:Hv;
      cbn [mbind result_bind]; [done|]. intros [= <-].
    unfold main_vertical_scale_factor in Hv.
    destruct (bool_decide (length fs = 1)) eqn:Hlen.
    + apply bool_decide_eq_true in Hlen.
      destruct (main_vertical_scale_factor_total fs sel (or_introl Hlen)) as [v Hv'].
      unfold main_vertical_scale_factor in Hv'.
      rewrite bool_decide_eq_true_2 in Hv' by done. congruence.
    + destruct (py_assert (bool_decide (length fs = length sel))) as [[]|e5] eqn:H5;
        cbn [mbind result_bind] in Hv;
        [|injection Hv as <-; by apply py_assert_Raise in H5].
      apply py_assert_Ok, bool_decide_eq_true in H5.
      destruct (main_vertical_scale_factor_total fs sel (or_intror H5)) as [v Hv'].
      unfold main_vertical_scale_factor in Hv'. rewrite Hlen in Hv'.
      rewrite bool_decide_eq_true_2 in Hv' by done.
      cbn [py_assert mbind result_bind] in Hv'. congruence.
Qed.

(** X2.  What [main] hands on when it accepts: the channels as given,
    counted from 0, pairwise distinct and in 0..7; the compensation channel
    counted from 0; and a scale vector of 8 factors, also when the factors
    are [None]. *)
Theorem main_channel_config_result (selected : option (list Z)) (vsf : vsf_arg)
    (zos : option Z) (cfg : ChannelConfig) :
  main_channel_config selected vsf zos = Ok cfg →
  selected_channels cfg = (λ c, c - 1)%Z <$> default_channels selected
  ∧ NoDup (selected_channels cfg)
  ∧ Forall (λ c, 0 ≤ c < 8)%Z (selected_channels cfg)
  ∧ zero_offset_shift_compensation_channel cfg = (λ z, z - 1)%Z <$> zos
  ∧ (∀ z, zero_offset_shift_compensation_channel cfg = Some z → (0 ≤ z < 8)%Z)
  ∧ length (vertical_scale_factor cfg) = 8.
Proof.
  intros Hcfg.
  assert (is_Ok (main_channel_config selected vsf zos) = true) as Hacc by (by rewrite Hcfg).
  apply main_channel_config_is_Ok in Hacc as (Hnd & Hrange & Hzos & Hvsf).
  unfold main_channel_config in Hcfg.
  apply bind_Ok in Hcfg as (sel & Hsel & Hcfg).
  apply bind_Ok in Hcfg as (z & Hz & Hcfg).
  apply bind_Ok in Hcfg as (v & Hv & [= <-]). simpl.
  apply main_selected_channels_Ok in Hsel as (_ & _ & ->).
  assert (NoDup ((λ i, i - 1)%Z <$> default_channels selected)) as Hnd'
    by (apply NoDup_fmap_2; [intros a b; lia | done]).
  assert (z = (λ z, z - 1)%Z <$> zos) as ->.
  { unfold main_zos_channel in Hz. apply bind_Ok in Hz as (_ & _ & [= <-]). done. }
  split; [done|]. split; [done|]. split.
  { apply Forall_fmap. eapply Forall_impl; [exact Hrange|]. simpl. intros; lia. }
  split; [done|]. split.
  { intros z'. destruct zos as [z0|]; [|done]. intros [= <-].
    specialize (Hzos z0 eq_refl). lia. }
  destruct vsf as [|f|fs]; [| done |].
  - injection Hv as <-. done.
  - by destruct (scale_vector_of_list _ _ _ Hnd' Hv) as (? & _).
Qed.

Lemma main_channel_config_result_witness :
  [2; 0]%Z = (λ c, c - 1)%Z <$> default_channels (Some [3; 1]%Z)
  ∧ NoDup [2; 0]%Z
  ∧ Forall (λ c, 0 ≤ c < 8)%Z [2; 0]%Z
  ∧ Some 7%Z = (λ z, z - 1)%Z <$> Some 8%Z
  ∧ (∀ z, Some 7%Z = Some z → (0 ≤ z < 8)%Z)
  ∧ length [1.0; 1.0; 1.0; 1.0; 1.0; 1.0; 1.0; 1.0]%float = 8.
Proof.
  exact (main_channel_config_result (Some [3; 1]%Z) VsfNone (Some 8%Z)
           {| selected_channels := [2; 0]%Z;
              zero_offset_shift_compensation_channel := Some 7%Z;
              vertical_scale_factor := [1.0; 1.0; 1.0; 1.0; 1.0; 1.0; 1.0; 1.0]%float |}
           eq_refl).
Defined.

(** ** The command line *)

(** X3.  With a calibration file given, the third [arg_assert] is never
    called: once the number of scale factors and the distinctness of the
    channels have passed, evaluating [args.raw_or_volt.contains("volt")]
    raises AttributeError, whatever the other arguments are. *)
Theorem check_args_calibrationfile_AttributeError (vscale : list float)
    (channels : list Z) (path raw_or_volt : string) (zos : option Z) :
  NoDup channels →
  (length vscale = 1 ∨ length vscale = length channels) →
  check_args vscale channels (Some path) raw_or_volt zos = Raise AttributeError.
Proof.
  intros Hnd Harity. unfold check_args.
  assert (bool_decide (length vscale = 1) || bool_decide (length vscale = length channels)
          = true) as ->.
  { apply orb_true_iff. destruct Harity; [left | right]; by apply bool_decide_eq_true. }
  simpl. rewrite (bool_decide_eq_true_2 (len_set channels = length channels));
    [reflexivity|]. by rewrite len_set_NoDup.
Qed.

Lemma check_args_calibrationfile_witness :
  check_args [1.0%float] [1; 2]%Z (Some "cal.json") "raw" None = Raise AttributeError.
Proof.
  apply check_args_calibrationfile_AttributeError.
  - apply NoDup_cons. split; [|apply NoDup_singleton].
    intros Hin%list_elem_of_singleton. discriminate.
  - left. reflexivity.
Defined.

Lemma mapM_channel_type (channels l : list Z) :
  mapM channel_type channels = Ok l ↔ Forall (λ c, 1 ≤ c ≤ 8)%Z channels ∧ l = channels.
Proof.
  rewrite mapM_Ok. revert l. induction channels as [|c channels IH]; intros l.
  - split; [by inversion 1 | intros [_ ->]; constructor].
  - split.
    + inversion 1 as [|? y ? k Hy Hk]; subst. apply IH in Hk as [Hk ->].
      unfold channel_type, in_1_8 in Hy.
      destruct ((1 <=? c)%Z && (c <=? 8)%Z) eqn:Hc; [|done]. injection Hy as <-.
      apply andb_true_iff in Hc as [?%Z.leb_le ?%Z.leb_le]. split; [|done].
      constructor; [lia | done].
    + intros [Hall ->]. inversion Hall as [|? ? Hc Hrest]; subst.
      constructor; [|by apply IH].
      unfold channel_type, in_1_8.
      assert ((1 <=? c)%Z && (c <=? 8)%Z = true) as ->; [|done].
      apply andb_true_iff. split; apply Z.leb_le; lia.
Qed.

(** The checks of lines 346-358 pass only without a calibration file and
    without a compensation channel. *)
Lemma check_args_passes (vscale : list float) (channels : list Z)
    (path : option string) (raw_or_volt : string) (zos : option Z) :
  is_Ok (check_args vscale channels path raw_or_volt zos) = true
  ↔ (length vscale = 1 ∨ length vscale = length channels)
    ∧ NoDup channels ∧ path = None ∧ zos = None.
Proof.
  unfold check_args. rewrite <- len_set_NoDup.
  destruct (bool_decide (length vscale = 1)) eqn:H1;
    destruct (bool_decide (length vscale = length channels)) eqn:H2;
    destruct (bool_decide (len_set channels = length channels)) eqn:H3;
    destruct path, zos; simpl;
    try apply bool_decide_eq_true in H1; try apply bool_decide_eq_false in H1;
    try apply bool_decide_eq_true in H2; try apply bool_decide_eq_false in H2;
    try apply bool_decide_eq_true in H3; try apply bool_decide_eq_false in H3;
    split; try done; try (intros ([?|?] & ? & ? & ?); done); auto.
Qed.

(** Which configurations pass [channel_type], the checks of [arg_assert]
    and the assertions of [main]. *)
Lemma cli_channel_config_is_Ok (channels : list Z) (vscale : list float)
    (path : option string) (raw_or_volt : string) (zos : option Z) :
  is_Ok (cli_channel_config channels vscale path raw_or_volt zos) = true
  ↔ Forall (λ c, 1 ≤ c ≤ 8)%Z channels
    ∧ NoDup channels
    ∧ (length vscale = 1 ∨ (channels ≠ [] ∧ length vscale = length channels))
    ∧ path = None ∧ zos = None.
Proof.
  unfold cli_channel_config.
  destruct (mapM channel_type channels) as [l|e] eqn:Hl; cbn [mbind result_bind is_Ok].
  2:{ split; [done|]. intros (Hrange & _).
      assert (mapM channel_type channels = Ok channels) by (by apply mapM_channel_type).
      congruence. }
  apply mapM_channel_type in Hl as [Hrange ->].
  destruct zos as [z|].
  { split; [|by intros (_ & _ & _ & _ & [=])].
    destruct (channel_type z) as [z'|e]; cbn [fmap result_fmap mbind result_bind is_Ok];
      [|done].
    destruct (check_args vscale channels path raw_or_volt (Some z')) eqn:Hc;
      cbn [mbind result_bind is_Ok]; [|done].
    assert (is_Ok (check_args vscale channels path raw_or_volt (Some z')) = true) as Hp
      by (by rewrite Hc).
    by apply check_args_passes in Hp as (_ & _ & _ & [=]). }
  cbn [mbind result_bind].
  destruct (check_args vscale channels path raw_or_volt None) as [[]|e] eqn:Hc;
    cbn [mbind result_bind is_Ok].
  2:{ split; [done|]. intros (_ & Hnd & Harity & -> & _).
      assert (is_Ok (check_args vscale channels None raw_or_volt None) = true) as Hp.
      { apply check_args_passes. split; [|done]. destruct Harity as [|[_ ?]]; auto. }
      by rewrite Hc in Hp. }
  assert (is_Ok (check_args vscale channels path raw_or_volt None) = true) as Hp
    by (by rewrite Hc).
  apply check_args_passes in Hp as (Harity & Hnd & -> & _).
  rewrite main_channel_config_is_Ok. unfold default_channels.
  destruct channels as [|c channels]; simpl.
  - split.
    + intros (_ & _ & _ & [Hv|Hv]); [by auto 10|].
      destruct Harity as [|Hv']; [by auto 10|]. simpl in Hv'. rewrite Hv' in Hv. done.
    + intros (_ & _ & [Hv|[? _]] & _); [|done].
      split; [apply NoDup_fmap_2; [intros a b; lia | apply NoDup_seq]|].
      split; [|split; [done | by left]].
      apply Forall_fmap, Forall_forall. intros n Hn%elem_of_seq. simpl in *. lia.
  - split.
    + intros (_ & _ & _ & [Hv|Hv]); [by auto 10|].
      repeat split; try done. right. done.
    + intros (_ & _ & Hv & _). split; [done|]. split; [done|]. split; [done|].
      destruct Hv as [|[_ ?]]; auto.
Qed.

(** X4.  What every command line that gets through has.  [argparse] checks
    more than [cli_channel_config] does (the [choices] of [--vscale],
    [--raw] and [--samplingrate], the command group), and only rejects
    more; whatever it lets pass must still pass [channel_type], the checks
    of lines 346-358 and the assertions of [main].  So a command line that
    reaches the export has every channel in 1..8, pairwise distinct
    channels, one scale factor or one per channel, and neither a
    calibration file nor a compensation channel: with either of the two
    the run ends before [main] is called. *)
Theorem cli_channel_config_accepts (channels : list Z) (vscale : list float)
    (path : option string) (raw_or_volt : string) (zos : option Z) :
  is_Ok (cli_channel_config channels vscale path raw_or_volt zos) = true →
  Forall (λ c, 1 ≤ c ≤ 8)%Z channels
  ∧ NoDup channels
  ∧ (length vscale = 1 ∨ (channels ≠ [] ∧ length vscale = length channels))
  ∧ path = None ∧ zos = None.
Proof. apply cli_channel_config_is_Ok. Qed.

Lemma cli_channel_config_accepts_witness :
  Forall (λ c, 1 ≤ c ≤ 8)%Z [1; 2]%Z
  ∧ NoDup [1; 2]%Z
  ∧ (length [1.0%float] = 1 ∨ ([1; 2]%Z ≠ [] ∧ length [1.0%float] = length [1; 2]%Z))
  ∧ (None : option string) = None ∧ (None : option Z) = None.
Proof.
  apply (cli_channel_config_accepts [1; 2]%Z [1.0%float] None "volt" None). reflexivity.
Defined.

(** ** Channel ids as list indexes *)

Lemma py_getitem_out_of_range {A} (l : list A) (i : Z) :
  ¬ (- Z.of_nat (length l) ≤ i < Z.of_nat (length l))%Z →
  py_getitem l i = Raise IndexError.
Proof.
  intros Hi. unfold py_getitem. cbv zeta.
  destruct (0 <=? i)%Z eqn:H0.
  - rewrite H0. apply Z.leb_le in H0. rewrite lookup_ge_None_2; [done | lia].
  - apply Z.leb_gt in H0.
    assert ((0 <=? Z.of_nat (length l) + i)%Z = false) as -> by (apply Z.leb_gt; lia).
    done.
Qed.

Lemma py_getitem_negative {A} (l : list A) (k : Z) :
  (- Z.of_nat (length l) ≤ k < 0)%Z →
  py_getitem l k = py_getitem l (Z.of_nat (length l) + k).
Proof.
  intros Hk. unfold py_getitem. cbv zeta.
  assert ((0 <=? k)%Z = false) as H1 by (apply Z.leb_gt; lia).
  assert ((0 <=? Z.of_nat (length l) + k)%Z = true) as H2 by (apply Z.leb_le; lia).
  repeat (progress (rewrite ?H1, ?H2; cbv beta iota)). done.
Qed.

Lemma py_setitem_negative {A} (l : list A) (k : Z) (x : A) :
  (- Z.of_nat (length l) ≤ k < 0)%Z →
  py_setitem l k x = py_setitem l (Z.of_nat (length l) + k) x.
Proof.
  intros Hk. unfold py_setitem. cbv zeta.
  assert ((0 <=? k)%Z = false) as H1 by (apply Z.leb_gt; lia).
  assert ((0 <=? Z.of_nat (length l) + k)%Z = true) as H2 by (apply Z.leb_le; lia).
  repeat (progress (rewrite ?H1, ?H2; cbv beta iota)). done.
Qed.

Lemma py_setitem_other {A} (l l' : list A) (c c' : Z) (x : A) :
  py_setitem l c x = Ok l' → (0 ≤ c)%Z → (0 ≤ c')%Z → c' ≠ c →
  py_getitem l' c' = py_getitem l c'.
Proof.
  unfold py_setitem, py_getitem. cbv zeta. intros Hset Hc Hc' Hne.
  assert ((0 <=? c)%Z = true) as Hcb by (by apply Z.leb_le).
  assert ((0 <=? c')%Z = true) as Hcb' by (by apply Z.leb_le).
  repeat (progress (rewrite ?Hcb in Hset; cbv beta iota in Hset)).
  repeat (progress (rewrite ?Hcb'; cbv beta iota)).
  destruct (c <? Z.of_nat (length l))%Z; simpl in Hset; [|done].
  injection Hset as <-. rewrite list_lookup_insert_ne; [done | lia].
Qed.

(** ** One record and the rest of the table *)

(** X5.  A channel id outside the range of the table's indexes, that is
    outside -8..7 for the table of line 56, ends the load with an
    IndexError at line 86, after the record and its factor have been
    logged. *)
Theorem add_test_channel_out_of_range (c : Z) (cd : CorrectionDataType) (t : Test)
    (log : list log_msg) (f : float) :
  correction_factor_of t = Ok f →
  ¬ (- Z.of_nat (length cd) ≤ c < Z.of_nat (length cd))%Z →
  add_test c cd t log = (Raise IndexError, log ++ [InfoTest t f]).
Proof.
  intros Hf Hc. unfold add_test. cbv zeta.
  rewrite (M_bind_step _ _ log log f) by (unfold lift; by rewrite Hf).
  rewrite (M_bind_step _ _ log (log ++ [InfoTest t f]) ()) by done.
  apply M_bind_Raise. unfold lift. by rewrite py_getitem_out_of_range.
Qed.

Lemma add_test_channel_out_of_range_witness :
  add_test 8 empty_correction_data
    {| test_voltage := 5.0; measured_value := 510.0; vscale := 1.0; zero_offset := 10.0 |} []
  = (Raise IndexError,
     [] ++ [InfoTest {| test_voltage := 5.0; measured_value := 510.0; vscale := 1.0;
                        zero_offset := 10.0 |} 1.0]).
Proof.
  apply add_test_channel_out_of_range; [reflexivity|]. simpl. lia.
Defined.

Lemma add_test_effect (c : Z) (cd cd' : CorrectionDataType) (t : Test)
    (log log' : list log_msg) :
  add_test c cd t log = (Ok cd', log') →
  length cd' = length cd
  ∧ ∀ c', (0 ≤ c)%Z → (0 ≤ c')%Z → c' ≠ c → py_getitem cd' c' = py_getitem cd c'.
Proof.
  unfold add_test. cbv zeta.
  intros (f & s1 & [Hf ->]%lift_Ok & H)%M_bind_Ok.
  apply M_bind_Ok in H as ([] & s2 & [= <-] & H).
  apply M_bind_Ok in H as (d & s3 & [Hd ->]%lift_Ok & H).
  apply M_bind_Ok in H as (cd1 & s4 & Hcd1 & H).
  apply M_bind_Ok in H as (d1 & s5 & [Hd1 ->]%lift_Ok & H).
  apply M_bind_Ok in H as (inner & s6 & [Hinner ->]%lift_Ok & H).
  apply lift_Ok in H as [Hcd' ->].
  assert (length cd1 = length cd
          ∧ ∀ c', (0 ≤ c)%Z → (0 ≤ c')%Z → c' ≠ c → py_getitem cd1 c' = py_getitem cd c')
    as [Hlen1 Hother1].
  { unfold fdict in *. destruct (fd_contains d (vscale t)).
    - injection Hcd1 as <- _. done.
    - apply lift_Ok in Hcd1 as [Hset _].
      split; [by destruct (py_setitem_Ok _ _ _ _ Hset)|].
      intros c' ? ? ?. by apply (py_setitem_other _ _ _ _ _ Hset). }
  split.
  - destruct (py_setitem_Ok _ _ _ _ Hcd') as [_ ->]. done.
  - intros c' ? ? ?. rewrite (py_setitem_other _ _ _ _ _ Hcd') by done. by apply Hother1.
Qed.

Lemma M_bind_ext {S A B} (m1 m2 : M S A) (k1 k2 : A → M S B) (s : S) :
  m1 s = m2 s →
  (∀ a s', m1 s = (Ok a, s') → k1 a s' = k2 a s') →
  (m1 ≫= k1) s = (m2 ≫= k2) s.
Proof.
  intros Hm Hk. unfold mbind, M_bind. rewrite <- Hm.
  destruct (m1 s) as [[a|e] s']; [by apply Hk | done].
Qed.

Lemma add_test_wraps (k : Z) (cd : CorrectionDataType) (t : Test)
    (log : list log_msg) :
  (- Z.of_nat (length cd) ≤ k < 0)%Z →
  add_test k cd t log = add_test (Z.of_nat (length cd) + k) cd t log.
Proof.
  intros Hk. unfold add_test. cbv zeta.
  assert (∀ cd1 : CorrectionDataType, length cd1 = length cd →
            py_getitem cd1 k = py_getitem cd1 (Z.of_nat (length cd) + k)
            ∧ ∀ x, py_setitem cd1 k x = py_setitem cd1 (Z.of_nat (length cd) + k) x) as Hneg.
  { intros cd1 Hlen. rewrite <- Hlen in *.
    split; [by apply py_getitem_negative | intros x; by apply py_setitem_negative]. }
  apply M_bind_ext; [done | intros f s1 _].
  apply M_bind_ext; [done | intros [] s2 _].
  apply M_bind_ext; [unfold lift; by rewrite (proj1 (Hneg cd eq_refl)) | intros d s3 _].
  apply M_bind_ext.
  { destruct (negb (fd_contains d (vscale t))); [|done].
    unfold lift. by rewrite (proj2 (Hneg cd eq_refl)). }
  intros cd1 s4 Hcd1.
  assert (length cd1 = length cd) as Hlen.
  { destruct (negb (fd_contains d (vscale t))).
    - apply lift_Ok in Hcd1 as [Hset _]. by destruct (py_setitem_Ok _ _ _ _ Hset).
    - by injection Hcd1 as <- _. }
  apply M_bind_ext; [unfold lift; by rewrite (proj1 (Hneg cd1 Hlen)) | intros d1 s5 _].
  apply M_bind_ext; [done | intros inner s6 _].
  unfold lift. by rewrite (proj2 (Hneg cd1 Hlen)).
Qed.

(** X6.  A negative channel id counts from the end of the table, as any
    Python list index does: with 8 channels, the records filed under the
    key -1 go to channel 8, under -8 to channel 1. *)
Theorem add_test_negative_channel (k : Z) (cd : CorrectionDataType) (t : Test)
    (log : list log_msg) :
  (- Z.of_nat (length cd) ≤ k < 0)%Z →
  add_test k cd t log = add_test (Z.of_nat (length cd) + k) cd t log.
Proof. apply add_test_wraps. Qed.

Lemma add_test_negative_channel_witness :
  add_test (-1) empty_correction_data
    {| test_voltage := 5.0; measured_value := 510.0; vscale := 1.0; zero_offset := 10.0 |} []
  = add_test (Z.of_nat (length empty_correction_data) + -1) empty_correction_data
      {| test_voltage := 5.0; measured_value := 510.0; vscale := 1.0; zero_offset := 10.0 |} [].
Proof. apply add_test_negative_channel. simpl. lia. Defined.

Lemma foldM_add_test_effect (c : Z) (tests : list Test) (cd cd' : CorrectionDataType)
    (log log' : list log_msg) :
  foldM (add_test c) cd tests log = (Ok cd', log') →
  length cd' = length cd
  ∧ ∀ c', (0 ≤ c)%Z → (0 ≤ c')%Z → c' ≠ c → py_getitem cd' c' = py_getitem cd c'.
Proof.
  revert cd log. induction tests as [|t tests IH]; intros cd log; simpl.
  - by intros [= <- _].
  - intros (cd1 & log1 & Hadd & Hrest)%M_bind_Ok.
    apply add_test_effect in Hadd as [Hlen1 Hother1].
    apply IH in Hrest as [Hlen Hother]. split; [congruence|].
    intros c' ? ? ?. rewrite Hother by done. by apply Hother1.
Qed.

(** X7.  The records of one channel change the factors of that channel
    only: after the tests of channel [c] are loaded, every other channel
    returns under every key what it returned before. *)
Theorem other_channels_untouched (c c' : Z) (tests : list Test)
    (cd cd' : CorrectionDataType) (log log' : list log_msg) (v u : float) :
  foldM (add_test c) cd tests log = (Ok cd', log') →
  (0 ≤ c)%Z → (0 ≤ c')%Z → c' ≠ c →
  table_get cd' c' v u = table_get cd c' v u.
Proof.
  intros [_ Hother]%foldM_add_test_effect Hc Hc' Hne.
  unfold table_get. by rewrite Hother.
Qed.

Lemma other_channels_untouched_witness :
  table_get [[(1.0, [(500.0, 1.0)])]; []; []; []; []; []; []; []]%float 3 1.0 500.0
  = table_get empty_correction_data 3 1.0 500.0.
Proof.
  apply (other_channels_untouched 0 3
           [{| test_voltage := 5.0; measured_value := 510.0; vscale := 1.0;
               zero_offset := 10.0 |}]
           empty_correction_data _ []
           [InfoTest {| test_voltage := 5.0; measured_value := 510.0; vscale := 1.0;
                        zero_offset := 10.0 |} 1.0]);
    [reflexivity | lia | lia | lia].
Defined.

(** ** The channels a calibration file covers *)

Lemma py_getitem_lookup_eq {A} (l l' : list A) (j : nat) :
  py_getitem l' (Z.of_nat j) = py_getitem l (Z.of_nat j) → l' !! j = l !! j.
Proof.
  intros Heq.
  destruct (l !! j) as [x|] eqn:Hl.
  - apply py_getitem_nat_Ok. rewrite Heq. by apply py_getitem_nat_Ok.
  - destruct (l' !! j) as [y|] eqn:Hl'; [|done].
    apply py_getitem_nat_Ok in Hl'. rewrite Heq in Hl'.
    apply py_getitem_nat_Ok in Hl'. congruence.
Qed.

Lemma fd_set_not_nil {V} (d : fdict V) (k : float) (v : V) : fd_set d k v ≠ [].
Proof. destruct d as [|[k' v'] d]; simpl; [done|]. by destruct (k' =? k)%float. Qed.

Lemma names_place_unique (n : nat) (k : Z) (i j : nat) :
  (i < n)%nat → (j < n)%nat → names_place n k i → names_place n k j → i = j.
Proof. unfold names_place. lia. Qed.

Lemma add_test_place (c : Z) (cd cd' : CorrectionDataType) (t : Test)
    (log log' : list log_msg) :
  add_test c cd t log = (Ok cd', log') →
  length cd' = length cd
  ∧ ∃ i, (i < length cd)%nat ∧ names_place (length cd) c i
         ∧ (∃ d, cd' !! i = Some d ∧ d ≠ [])
         ∧ ∀ j, j ≠ i → cd' !! j = cd !! j.
Proof.
  assert (∀ i : nat, add_test (Z.of_nat i) cd t log = (Ok cd', log') →
            length cd' = length cd
            ∧ (i < length cd)%nat
            ∧ (∃ d, cd' !! i = Some d ∧ d ≠ [])
            ∧ ∀ j, j ≠ i → cd' !! j = cd !! j) as Hnat.
  { intros i Hadd.
    destruct (add_test_effect _ _ _ _ _ _ Hadd) as [Hlen Hother].
    destruct (add_test_Ok _ _ _ _ _ _ Hadd) as (f & d & inner & _ & _ & Hd & _ & Hd' & _).
    apply py_getitem_nat_Ok in Hd, Hd'.
    split; [done|]. split; [by apply lookup_lt_Some in Hd|].
    split; [eexists; split; [done | apply fd_set_not_nil]|].
    intros j Hj. apply py_getitem_lookup_eq. apply Hother; lia. }
  intros Hadd.
  destruct (add_test_Ok _ _ _ _ _ _ Hadd) as (_ & d & _ & _ & _ & Hd & _).
  destruct (Z.le_gt_cases 0 c) as [Hc|Hc].
  - rewrite <- (Z2Nat.id c Hc) in Hadd.
    destruct (Hnat _ Hadd) as (Hlen & Hi & Hd' & Hother).
    split; [done|]. exists (Z.to_nat c). split; [done|].
    split; [left; lia | done].
  - assert (- Z.of_nat (length cd) ≤ c)%Z as Hlo.
    { destruct (Z.le_gt_cases (- Z.of_nat (length cd)) c) as [?|Hout]; [done|].
      rewrite py_getitem_out_of_range in Hd by lia. done. }
    rewrite add_test_wraps in Hadd by lia.
    rewrite <- (Z2Nat.id (Z.of_nat (length cd) + c)) in Hadd by lia.
    destruct (Hnat _ Hadd) as (Hlen & Hi & Hd' & Hother).
    split; [done|]. exists (Z.to_nat (Z.of_nat (length cd) + c)). split; [done|].
    split; [right; lia | done].
Qed.

Lemma foldM_add_test_place (c : Z) (tests : list Test) (cd cd' : CorrectionDataType)
    (log log' : list log_msg) :
  foldM (add_test c) cd tests log = (Ok cd', log') →
  tests ≠ [] →
  length cd' = length cd
  ∧ ∃ i, (i < length cd)%nat ∧ names_place (length cd) c i
         ∧ (∃ d, cd' !! i = Some d ∧ d ≠ [])
         ∧ ∀ j, j ≠ i → cd' !! j = cd !! j.
Proof.
  revert cd log. induction tests as [|t tests IH]; intros cd log Hrun Hne; [done|].
  simpl in Hrun. apply M_bind_Ok in Hrun as (cd1 & log1 & Hadd & Hrest).
  apply add_test_place in Hadd as (Hlen1 & i & Hi & Hplace & Hd1 & Hother1).
  destruct tests as [|t' tests].
  - injection Hrest as <- _. split; [done|]. by exists i.
  - apply IH in Hrest as (Hlen & i' & Hi' & Hplace' & Hd' & Hother'); [|done].
    rewrite Hlen1 in *.
    assert (i' = i) as -> by by eapply names_place_unique.
    split; [congruence|]. exists i. split; [done|]. split; [done|]. split; [done|].
    intros j Hj. rewrite Hother' by done. by apply Hother1.
Qed.

Section coverage.

Variable py_int : string → result Z.

Lemma foldM_add_test_load_lines (c : Z) (tests : list Test) (cd cd' : CorrectionDataType)
    (log log' : list log_msg) :
  foldM (add_test c) cd tests log = (Ok cd', log') →
  ∃ lines, log' = log ++ lines ∧ Forall is_load_line lines.
Proof.
  revert cd log. induction tests as [|t tests IH]; intros cd log; simpl.
  - intros [= <- <-]. exists []. by rewrite app_nil_r.
  - intros (cd1 & log1 & Hadd & Hrest)%M_bind_Ok.
    apply add_test_Ok in Hadd as (f & _ & _ & _ & -> & _).
    apply IH in Hrest as (lines & -> & Hlines).
    exists (InfoTest t f :: lines). rewrite <- app_assoc. split; [done|].
    by constructor.
Qed.

Lemma add_channel_Ok (cd cd' : CorrectionDataType) (key : string) (tests : list Test)
    (log log' : list log_msg) :
  add_channel py_int cd (key, tests) log = (Ok cd', log') →
  ∃ k lines,
    py_int key = Ok k ∧ log' = log ++ lines ∧ Forall is_load_line lines
    ∧ length cd' = length cd
    ∧ ((tests = [] ∧ cd' = cd)
       ∨ (tests ≠ [] ∧
          ∃ i, (i < length cd)%nat ∧ names_place (length cd) k i
               ∧ (∃ d, cd' !! i = Some d ∧ d ≠ [])
               ∧ ∀ j, j ≠ i → cd' !! j = cd !! j)).
Proof.
  unfold add_channel.
  intros (k & log1 & [Hk ->]%lift_Ok & Hrun)%M_bind_Ok.
  exists k. destruct tests as [|t tests].
  - injection Hrun as <- <-. exists []. rewrite app_nil_r. repeat split; auto.
  - rewrite bool_decide_eq_false_2 in Hrun by done.
    apply M_bind_Ok in Hrun as ([] & log2 & [= <-] & Hrun).
    destruct (foldM_add_test_load_lines _ _ _ _ _ _ Hrun) as (lines & -> & Hlines).
    apply foldM_add_test_place in Hrun as [Hlen Hplace]; [|done].
    exists (InfoChannel (k + 1) :: lines). rewrite <- app_assoc.
    split; [done|]. split; [done|]. split; [by constructor|]. split; [done|].
    right. by split.
Qed.

Lemma foldM_add_channel_Ok (items : list (string * list Test))
    (cd cd' : CorrectionDataType) (log log' : list log_msg) :
  foldM (add_channel py_int) cd items log = (Ok cd', log') →
  length cd' = length cd
  ∧ (∃ lines, log' = log ++ lines ∧ Forall is_load_line lines)
  ∧ ∀ i, (i < length cd)%nat →
      (cd' !! i = Some [] ↔ cd !! i = Some [] ∧ ¬ has_record py_int (length cd) items i).
Proof.
  revert cd log. induction items as [|[key tests] items IH]; intros cd log; simpl.
  - intros [= <- <-]. split; [done|]. split; [exists []; by rewrite app_nil_r|].
    intros i Hi. split; [|by intros [? _]].
    intros Hnil. split; [done|]. intros (? & ? & ? & []%elem_of_nil & _).
  - intros (cd1 & log1 & Hadd & Hrest)%M_bind_Ok.
    apply add_channel_Ok in Hadd as (k & lines1 & Hk & -> & Hlines1 & Hlen1 & Hcase).
    apply IH in Hrest as (Hlen & (lines & -> & Hlines) & Hrest).
    split; [congruence|].
    split. { exists (lines1 ++ lines). rewrite app_assoc. split; [done|]. by apply Forall_app. }
    intros i Hi. rewrite Hrest by lia. rewrite Hlen1.
    assert (has_record py_int (length cd) ((key, tests) :: items) i
            ↔ (tests ≠ [] ∧ names_place (length cd) k i)
              ∨ has_record py_int (length cd) items i) as ->.
    { unfold has_record. split.
      - intros (key' & tests' & k' & [[= -> ->]|Hin]%elem_of_cons & Hk' & Hne & Hpl).
        + left. split; [done|]. congruence.
        + right. eauto 10.
      - intros [[Hne Hpl]|(key' & tests' & k' & Hin & Hk' & Hne & Hpl)].
        + exists key, tests, k. split; [left|]; done.
        + exists key', tests', k'. split; [by right|]. done. }
    destruct Hcase as [[-> ->]|(Hne & i0 & Hi0 & Hpl0 & (d & Hd & Hdne) & Hother)].
    + intuition.
    + destruct (decide (i = i0)) as [->|Hii].
      * rewrite Hd. split; [intros [[= ->] _]; done|]. intros [_ Hno]. destruct Hno. by left.
      * rewrite Hother by done. split.
        -- intros [Hnil Hno]. split; [done|]. intros [[_ Hpl]|Hrec]; [|done].
           apply Hii. by eapply names_place_unique.
        -- intros [Hnil Hno]. split; [done|]. intros Hrec. apply Hno. by right.
Qed.

Lemma channels_without_cd_spec (cd : CorrectionDataType) (c : Z) :
  c ∈ channels_without_cd cd ↔ ∃ i : nat, c = (Z.of_nat i + 1)%Z ∧ cd !! i = Some [].
Proof.
  unfold channels_without_cd. rewrite list_elem_of_omap. split.
  - intros ([i d] & Hin & Hsome). apply elem_of_lookup_imap in Hin as (i' & d' & [= -> ->] & Hd).
    simpl in Hsome. destruct d'; [|done]. injection Hsome as <-. eauto.
  - intros (i & -> & Hd). exists (i, []). split; [|done].
    apply elem_of_lookup_imap. eauto.
Qed.

Lemma main_correction_data_loaded (path : string) (items : list (string * list Test))
    (log log' : list log_msg) (cd : CorrectionDataType) :
  path ≠ "" →
  main_correction_data py_int (Some path) (JsonObject items) log = (Ok cd, log') →
  length cd = 8%nat
  ∧ (∀ c, c ∈ channels_without_cd cd
          ↔ ∃ i : nat, c = (Z.of_nat i + 1)%Z ∧ (i < 8)%nat ∧ ¬ has_record py_int 8 items i)
  ∧ ∃ lines,
      Forall is_load_line lines
      ∧ log' = log ++ InfoUsingCalibrationData path :: lines
                   ++ match channels_without_cd cd with
                      | [] => []
                      | chans => [WarningNoCalibrationData chans]
                      end.
Proof.
  intros Hpath. unfold main_correction_data. cbv zeta.
  rewrite (proj2 (String.eqb_neq _ _) Hpath).
  intros ([] & log1 & [= <-] & Hrun)%M_bind_Ok.
  apply M_bind_Ok in Hrun as (cd1 & log2 & Hfold & Hrun).
  apply foldM_add_channel_Ok in Hfold as (Hlen & (lines & -> & Hlines) & Hnil).
  change (length empty_correction_data) with 8%nat in Hlen, Hnil.
  apply M_bind_Ok in Hrun as ([] & log3 & Hwarn & [= <- <-]).
  split; [done|]. split.
  - intros c. rewrite channels_without_cd_spec. split.
    + intros (i & -> & Hd). exists i. split; [done|].
      assert (i < 8)%nat as Hi by (apply lookup_lt_Some in Hd; unfold fdict, CorrectionDataType in *; lia).
      split; [done|]. apply Hnil in Hd as [_ Hno]; [|done].
      intros (key & tests & k & Hin & Hrec). apply Hno.
      exists key, tests, k. split; [|done]. by rewrite merge_sort_Permutation.
    + intros (i & -> & Hi & Hno). exists i. split; [done|]. apply Hnil; [done|].
      split; [by apply lookup_replicate_2|].
      intros (key & tests & k & Hin & Hrec). apply Hno.
      exists key, tests, k. split; [|done]. by rewrite merge_sort_Permutation in Hin.
  - exists lines. split; [done|].
    rewrite <- app_assoc in Hwarn. simpl in Hwarn.
    destruct (channels_without_cd cd1) as [|c chans].
    + injection Hwarn as <-. by rewrite app_nil_r.
    + rewrite bool_decide_eq_true_2 in Hwarn by (simpl; lia).
      injection Hwarn as <-. by rewrite <- app_assoc.
Qed.

End coverage.

(** X8.  After a calibration file is loaded, the warning of line 94 names
    exactly the channels, counted from 1, for which the file has no
    record: no key with a non-empty list names the channel, as the id
    channel-1 or, counting from the end, channel-9.  The log holds the
    opening line, then only lines of channels and records, then the
    warning, and no warning when every channel has a record. *)
Theorem warning_names_uncovered_channels (py_int : string → result Z) (path : string)
    (items : list (string * list Test)) (log log' : list log_msg)
    (cd : CorrectionDataType) :
  path ≠ "" →
  main_correction_data py_int (Some path) (JsonObject items) log = (Ok cd, log') →
  length cd = 8%nat
  ∧ (∀ c, c ∈ channels_without_cd cd
          ↔ (1 ≤ c ≤ 8)%Z
            ∧ ¬ ∃ key tests k, (key, tests) ∈ items ∧ py_int key = Ok k ∧ tests ≠ []
                               ∧ (k = c - 1 ∨ k = c - 9)%Z)
  ∧ ∃ lines,
      Forall is_load_line lines
      ∧ log' = log ++ InfoUsingCalibrationData path :: lines
                   ++ match channels_without_cd cd with
                      | [] => []
                      | chans => [WarningNoCalibrationData chans]
                      end.
Proof.
  intros Hpath Hrun.
  destruct (main_correction_data_loaded _ _ _ _ _ _ Hpath Hrun) as (Hlen & Hmem & Hlog).
  split; [done|]. split; [|done].
  intros c. rewrite Hmem. unfold has_record, names_place. split.
  - intros (i & -> & Hi & Hno). split; [lia|].
    intros (key & tests & k & Hin & Hk & Hne & Hpl). apply Hno.
    exists key, tests, k. repeat split; try done. lia.
  - intros [Hc Hno]. exists (Z.to_nat (c - 1)). split; [lia|]. split; [lia|].
    intros (key & tests & k & Hin & Hk & Hne & Hpl). apply Hno.
    exists key, tests, k. repeat split; try done. lia.
Qed.

Lemma warning_names_uncovered_channels_witness :
  length example_table = 8%nat
  ∧ (∀ c, c ∈ channels_without_cd example_table
          ↔ (1 ≤ c ≤ 8)%Z
            ∧ ¬ ∃ key tests k, (key, tests) ∈ example_items ∧ int_of_digits key = Ok k
                               ∧ tests ≠ [] ∧ (k = c - 1 ∨ k = c - 9)%Z)
  ∧ ∃ lines,
      Forall is_load_line lines
      ∧ example_load_log
        = [] ++ InfoUsingCalibrationData "cal.json" :: lines
             ++ match channels_without_cd example_table with
                | [] => []
                | chans => [WarningNoCalibrationData chans]
                end.
Proof.
  apply (warning_names_uncovered_channels int_of_digits "cal.json" example_items []
           example_load_log example_table); [discriminate | vm_compute; reflexivity].
Defined.

(** ** The order of the keys in the calibration file *)

Lemma string_leb_trans (s1 s2 s3 : string) :
  String.leb s1 s2 = true → String.leb s2 s3 = true → String.leb s1 s3 = true.
Proof.
  unfold String.leb. revert s2 s3.
  induction s1 as [|a s1 IH]; intros [|b s2] [|c s3]; simpl; try done.
  unfold Ascii.compare.
  destruct (N.compare_spec (Ascii.N_of_ascii a) (Ascii.N_of_ascii b)),
           (N.compare_spec (Ascii.N_of_ascii b) (Ascii.N_of_ascii c)),
           (N.compare_spec (Ascii.N_of_ascii a) (Ascii.N_of_ascii c));
    try done; try lia.
  apply IH.
Qed.

#[local] Instance item_le_trans : Transitive item_le.
Proof. intros x y z. unfold item_le. apply string_leb_trans. Qed.

#[local] Instance item_le_total : Total item_le.
Proof. intros x y. unfold item_le. apply String.leb_total. Qed.

Lemma NoDup_fst_eq {A B} (l : list (A * B)) (x y : A * B) :
  NoDup l.*1 → x ∈ l → y ∈ l → x.1 = y.1 → x = y.
Proof.
  induction l as [|z l IH]; simpl; [by intros _ []%elem_of_nil|].
  intros [Hz Hl]%NoDup_cons [->|Hx]%elem_of_cons [->|Hy]%elem_of_cons Heq; [done| | |by apply IH].
  - destruct Hz. rewrite Heq. by apply list_elem_of_fmap_2.
  - destruct Hz. rewrite <- Heq. by apply list_elem_of_fmap_2.
Qed.

Lemma sorted_items_unique (items items' : list (string * list Test)) :
  NoDup items.*1 → items ≡ₚ items' →
  merge_sort item_le items = merge_sort item_le items'.
Proof.
  intros Hnd Hperm. apply (Sorted_unique_strong item_le).
  - intros x1 x2 Hx1 Hx2 H12 H21.
    rewrite merge_sort_Permutation in Hx1, Hx2. rewrite <- Hperm in Hx2.
    apply (NoDup_fst_eq items); [done..|]. by apply String.leb_antisym.
  - apply Sorted_merge_sort, _.
  - apply Sorted_merge_sort, _.
  - by rewrite !merge_sort_Permutation.
Qed.

(** X9.  The keys of a JSON object are distinct, and the channels are
    loaded in the sorted order of the keys (line 73): the table, the log
    and the exception of a load do not depend on the order in which the
    file lists its channels. *)
Theorem load_independent_of_key_order (py_int : string → result Z)
    (path : option string) (items items' : list (string * list Test))
    (log : list log_msg) :
  NoDup items.*1 → items ≡ₚ items' →
  main_correction_data py_int path (JsonObject items) log
  = main_correction_data py_int path (JsonObject items') log.
Proof.
  intros Hnd Hperm. unfold main_correction_data.
  by rewrite (sorted_items_unique items items' Hnd Hperm).
Qed.

Lemma load_independent_of_key_order_witness :
  main_correction_data int_of_digits (Some "cal.json"%string)
    (JsonObject [("7"%string, [example_test]); ("0"%string, [example_test])]) []
  = main_correction_data int_of_digits (Some "cal.json"%string)
      (JsonObject [("0"%string, [example_test]); ("7"%string, [example_test])]) [].
Proof.
  apply load_independent_of_key_order; [|apply perm_swap].
  apply NoDup_cons. split; [|apply NoDup_singleton].
  intros Hin%list_elem_of_singleton. discriminate Hin.
Defined.

(** ** The sampling-rate estimate: where the loop stops, and how it fails *)

Lemma batch_rows_nonneg {V} (b : Batch V) : (0 ≤ batch_rows b)%Z.
Proof. unfold batch_rows. destruct (data b); lia. Qed.

Lemma total_rows_nonneg {V} (batches : list (Batch V)) : (0 ≤ total_rows batches)%Z.
Proof.
  induction batches as [|b batches IH]; simpl; [done|].
  pose proof (batch_rows_nonneg b). lia.
Qed.

Lemma total_rows_app {V} (l1 l2 : list (Batch V)) :
  total_rows (l1 ++ l2) = (total_rows l1 + total_rows l2)%Z.
Proof. induction l1 as [|b l1 IH]; simpl; [done|]. rewrite IH. lia. Qed.

Lemma py_getitem_0_rows {V} (b : Batch V) :
  data b ≠ [] → ∃ data0, py_getitem (data b) 0 = Ok data0
                         ∧ batch_rows b = Z.of_nat (length data0).
Proof.
  unfold batch_rows. destruct (data b) as [|data0 l]; [done|]. intros _. by exists data0.
Qed.

Lemma measure_loop_stops {V} (required_samples counter : Z) (start now : float)
    (pre post : list (Batch V)) (b : Batch V) :
  (0 ≤ counter)%Z →
  Forall (λ b, data b ≠ []) (pre ++ [b]) →
  (pre ≠ [] → counter + total_rows pre < required_samples)%Z →
  (required_samples ≤ counter + total_rows (pre ++ [b]))%Z →
  measure_loop required_samples counter (Some start) now (pre ++ b :: post)
  = Ok ((counter + total_rows (pre ++ [b]))%Z, Some start, time b).
Proof.
  revert counter now. induction pre as [|p pre IH]; intros counter now Hc Hdata Hlt Hge.
  - simpl in *. assert ((counter =? -1)%Z = false) as -> by (apply Z.eqb_neq; lia).
    apply Forall_cons in Hdata as [Hb _].
    destruct (py_getitem_0_rows b Hb) as (data0 & -> & Hrows). simpl.
    rewrite <- Hrows.
    assert ((counter + batch_rows b >=? required_samples)%Z = true) as ->
      by (apply Z.geb_le; lia).
    by rewrite Z.add_0_r.
  - simpl in *. assert ((counter =? -1)%Z = false) as -> by (apply Z.eqb_neq; lia).
    apply Forall_cons in Hdata as [Hp Hdata].
    destruct (py_getitem_0_rows p Hp) as (data0 & -> & Hrows). simpl.
    rewrite <- Hrows.
    pose proof (batch_rows_nonneg p). pose proof (total_rows_nonneg pre).
    assert ((counter + batch_rows p >=? required_samples)%Z = false) as ->.
    { rewrite Z.geb_leb. apply Z.leb_gt. specialize (Hlt ltac:(done)). lia. }
    rewrite IH; [f_equal; f_equal; f_equal; lia | lia | done | | lia].
    intros Hne. specialize (Hlt ltac:(done)). lia.
Qed.

Lemma measure_loop_first {V} (required_samples : Z) (now : float)
    (b : Batch V) (batches : list (Batch V)) :
  measure_loop required_samples (-1) None now (b :: batches)
  = measure_loop required_samples 0 (Some (time b)) now (b :: batches).
Proof. done. Qed.

Lemma measure_loop_threshold {V} (pre post : list (Batch V)) (b : Batch V)
    (now : float) (required_samples : Z) :
  Forall (λ b, data b ≠ []) (pre ++ [b]) →
  (pre ≠ [] → total_rows pre < required_samples)%Z →
  (required_samples ≤ total_rows (pre ++ [b]))%Z →
  measure_loop required_samples (-1) None now (pre ++ b :: post)
  = Ok (total_rows (pre ++ [b]), Some (time (default b (head pre))), time b).
Proof.
  intros Hdata Hlt Hge. destruct pre as [|p pre].
  - simpl app. rewrite measure_loop_first.
    by rewrite (measure_loop_stops _ 0 _ _ [] post b).
  - change ((p :: pre) ++ b :: post) with (p :: (pre ++ b :: post)).
    rewrite measure_loop_first.
    change (p :: (pre ++ b :: post)) with ((p :: pre) ++ b :: post).
    by rewrite (measure_loop_stops _ 0 _ _ (p :: pre) post b).
Qed.

(** X10.  The estimator takes batches until the rows counted reach
    [measurment_duration * used_sampling_rate] and not one more: what the
    generator would yield afterwards has no part in the result.  The count
    is the number of rows of all batches taken, the first included, and it
    is divided by the time between the reading of the clock made with the
    first batch (line 200) and the reading made after the loop (line
    206), also when the first batch is the only one taken. *)
Theorem estimator_stops_at_threshold {V} (pre post : list (Batch V)) (b : Batch V)
    (end_time : float) (used_sampling_rate measurment_duration : Z) :
  Forall (λ b, data b ≠ []) (pre ++ [b]) →
  (pre ≠ [] → total_rows pre < measurment_duration * used_sampling_rate)%Z →
  (measurment_duration * used_sampling_rate ≤ total_rows (pre ++ [b]))%Z →
  measure_sampling_rate_until (pre ++ b :: post) end_time
    used_sampling_rate measurment_duration
  = py_truediv (float_of_int (total_rows (pre ++ [b])))
               (end_time - time (default b (head pre)))%float.
Proof.
  intros Hdata Hlt Hge. unfold measure_sampling_rate_until. cbv zeta.
  by rewrite (measure_loop_threshold pre post b end_time _ Hdata Hlt Hge).
Qed.

Lemma estimator_stops_at_threshold_witness :
  measure_sampling_rate_until
    ([] ++ {| time := 5.0; data := [[1; 2; 3]%Z] |}
        :: [{| time := 9.0; data := [[7; 8; 9]%Z] |}]) 5.5 1 3
  = py_truediv
      (float_of_int (total_rows ([] ++ [{| time := 5.0; data := [[1; 2; 3]%Z] |}])))
      (5.5 - time (default {| time := 5.0; data := [[1; 2; 3]%Z] |} (head [])))%float.
Proof.
  apply estimator_stops_at_threshold.
  - repeat constructor; simpl; discriminate.
  - by intros [].
  - vm_compute. discriminate.
Defined.

(** A run of one batch: three rows between the readings 5.0 and 5.5 give 6
    rows per second. *)
Example single_batch_estimate :
  measure_sampling_rate_until
    [{| time := 5.0; data := [[1; 2; 3]%Z] |}; {| time := 9.0; data := [[7; 8; 9]%Z] |}]
    5.5 1 3 = Ok 6.0%float.
Proof. vm_compute. reflexivity. Qed.

Lemma measure_loop_now {V} (required_samples counter : Z) (start_time : option float)
    (t1 t2 : float) (b : Batch V) (batches : list (Batch V)) :
  measure_loop required_samples counter start_time t1 (b :: batches)
  = measure_loop required_samples counter start_time t2 (b :: batches).
Proof. done. Qed.

(** When the reading of line 206 is the one made with the last batch
    handled, the two forms of the estimate agree. *)
Lemma measure_sampling_rate_until_last {V} (batches : list (Batch V)) (now : float)
    (used_sampling_rate measurment_duration counter : Z) (start_time : option float)
    (last : float) :
  measure_loop (measurment_duration * used_sampling_rate) (-1) None now batches
  = Ok (counter, start_time, last) →
  batches ≠ [] →
  measure_sampling_rate batches now used_sampling_rate measurment_duration
  = measure_sampling_rate_until batches last used_sampling_rate measurment_duration.
Proof.
  intros Hloop Hne. unfold measure_sampling_rate, measure_sampling_rate_until. cbv zeta.
  destruct batches as [|b batches]; [done|].
  rewrite (measure_loop_now _ _ _ last now). by rewrite Hloop.
Qed.

Lemma py_getitem_Raise {A} (l : list A) (i : Z) (e : exn) :
  py_getitem l i = Raise e → e = IndexError.
Proof.
  unfold py_getitem. cbv zeta.
  destruct (0 <=? (if (0 <=? i)%Z then i else Z.of_nat (length l) + i))%Z; [|congruence].
  destruct (l !! _); congruence.
Qed.

Lemma py_getitem_0_Raise {A} (l : list A) (e : exn) :
  py_getitem l 0 = Raise e → l = [].
Proof. destruct l; [done|]. discriminate. Qed.

Lemma measure_loop_Raise {V} (required_samples counter : Z) (start_time : option float)
    (now : float) (batches : list (Batch V)) (e : exn) :
  measure_loop required_samples counter start_time now batches = Raise e →
  e = IndexError ∧ ∃ b, b ∈ batches ∧ data b = [].
Proof.
  revert counter start_time now.
  induction batches as [|b batches IH]; intros counter start_time now; simpl; [done|].
  destruct (counter =? -1)%Z.
  - destruct (py_getitem (data b) 0) as [data0|e'] eqn:Hget; simpl.
    + destruct (0 + Z.of_nat (length data0) >=? required_samples)%Z; [done|].
      intros [-> (b' & Hin & Hb')]%IH. split; [done|]. exists b'. split; [by right | done].
    + intros [= <-]. split; [by eapply py_getitem_Raise|].
      exists b. split; [by left | by eapply py_getitem_0_Raise].
  - destruct (py_getitem (data b) 0) as [data0|e'] eqn:Hget; simpl.
    + destruct (counter + Z.of_nat (length data0) >=? required_samples)%Z; [done|].
      intros [-> (b' & Hin & Hb')]%IH. split; [done|]. exists b'. split; [by right | done].
    + intros [= <-]. split; [by eapply py_getitem_Raise|].
      exists b. split; [by left | by eapply py_getitem_0_Raise].
Qed.

(** X11.  How the estimator fails.  A generator that yields nothing
    leaves [start_time] unassigned: UnboundLocalError at line 206.  Any
    other failure is an IndexError of line 202, for a batch without
    channels, or the ZeroDivisionError of line 207, when the last batch
    taken has the clock reading of the first. *)
Theorem estimator_failures {V} (batches : list (Batch V)) (now : float)
    (used_sampling_rate measurment_duration : Z) :
  (batches = [] →
   measure_sampling_rate batches now used_sampling_rate measurment_duration
   = Raise UnboundLocalError)
  ∧ ∀ e, measure_sampling_rate batches now used_sampling_rate measurment_duration = Raise e →
         (e = UnboundLocalError ∧ batches = [])
         ∨ (e = IndexError ∧ ∃ b, b ∈ batches ∧ data b = [])
         ∨ (e = ZeroDivisionError ∧ batches ≠ []).
Proof.
  split; [by intros ->|].
  intros e. unfold measure_sampling_rate. cbv zeta.
  destruct batches as [|b batches]; [intros [= <-]; by left|].
  destruct (measure_loop _ (-1) None now (b :: batches)) as [[[c st] t]|e'] eqn:Hloop.
  - apply measure_loop_counts_first_batch in Hloop as [-> _]. simpl.
    unfold py_truediv. destruct (_ =? 0)%float; [|done].
    intros [= <-]. right. right. done.
  - simpl. intros [= <-]. apply measure_loop_Raise in Hloop. right. by left.
Qed.

(** ** The text of an export, and the files it leaves alone *)

Section export_text_facts.

Context {V : Type}.
Variable py_round : float → Z → float.

Lemma grows_refl (s : Sink) (w : World V) : grows s w w [].
Proof. unfold grows. by rewrite app_nil_r. Qed.

Lemma grows_trans (s : Sink) (w1 w2 w3 : World V) (t1 t2 : list (Line V)) :
  grows s w1 w2 t1 → grows s w2 w3 t2 → grows s w1 w3 (t1 ++ t2).
Proof.
  intros [H1 H2] [H3 H4]. unfold grows. rewrite H3, H1, H4, H2, app_assoc. done.
Qed.

Lemma world_log_grows (s : Sink) (msg : log_msg) (w : World V) :
  ∃ w', world_log msg w = (Ok (), w') ∧ w_csv_file w' = w_csv_file w ∧ grows s w w' [].
Proof.
  eexists. split; [reflexivity|]. split; [done|].
  unfold grows. destruct s; simpl; by rewrite app_nil_r.
Qed.

Lemma stdout_write_grows (s : Sink) (ls : list (Line V)) (w : World V) :
  ∃ w', stdout_write ls w = (Ok (), w') ∧ w_csv_file w' = w_csv_file w
        ∧ grows s w w' (printed s ls).
Proof.
  eexists. split; [reflexivity|]. split; [done|].
  unfold grows. destruct s; simpl; by rewrite ?app_nil_r.
Qed.

Lemma csv_file_write_grows (s : Sink) (ls : list (Line V)) (w : World V) :
  w_csv_file w = Opened s →
  ∃ w', csv_file_write ls w = (Ok (), w') ∧ w_csv_file w' = Opened s ∧ grows s w w' ls.
Proof.
  intros Hs. unfold csv_file_write. rewrite Hs.
  destruct s; (eexists; split; [reflexivity|]; split; [done|]);
    unfold grows; simpl; rewrite ?lookup_insert_eq, ?delete_insert_eq; done.
Qed.

Lemma open_csv_file_grows (csv_file_path : string) (w : World V) :
  ∃ w', open_csv_file csv_file_path w = (Ok (), w')
        ∧ w_csv_file w' = Opened (sink_of_path csv_file_path)
        ∧ grows (sink_of_path csv_file_path) w w' [].
Proof.
  unfold open_csv_file, sink_of_path.
  destruct (String.eqb csv_file_path "-"); [|destruct (py_endswith csv_file_path ".xz")];
    (eexists; split; [reflexivity|]; split; [done|]);
    unfold grows; simpl; rewrite ?app_nil_r, ?lookup_insert_eq, ?delete_insert_eq; done.
Qed.

Lemma csv_file_close_grows (s : Sink) (w : World V) :
  w_csv_file w = Opened s →
  ∃ w', csv_file_close w = (Ok (), w') ∧ grows s w w' [].
Proof.
  intros Hs. unfold csv_file_close. rewrite Hs.
  eexists; split; [reflexivity|].
  unfold grows. destruct s; simpl; by rewrite !app_nil_r.
Qed.

Lemma device_close_grows (s : Sink) (w : World V) :
  ∃ w', device_close w = (Ok (), w') ∧ grows s w w' [].
Proof.
  eexists. split; [reflexivity|]. unfold grows. destruct s; simpl; by rewrite !app_nil_r.
Qed.

Lemma roll_loop_grows (s : Sink) (selected_channels : list Z) (batches : list (Batch V))
    (ending : stream_end) (w : World V) :
  w_csv_file w = Opened s →
  ∃ w', roll_loop selected_channels batches ending w
        = (roll_result selected_channels batches ending, w')
        ∧ w_csv_file w' = Opened s
        ∧ grows s w w' (roll_text selected_channels batches).
Proof.
  revert w. induction batches as [|b batches IH]; intros w Hs; simpl.
  - exists w. split; [by destruct ending|]. split; [done | apply grows_refl].
  - destruct (mapM (py_getitem (data b)) selected_channels) as [channel_data|e] eqn:Hcols.
    + destruct (csv_file_write_grows s (Row <$> py_zip_star channel_data) w Hs)
        as (w1 & Hw1 & Hs1 & Hg1).
      destruct (csv_file_write_grows s [UnixTime (time b)] w1 Hs1)
        as (w2 & Hw2 & Hs2 & Hg2).
      destruct (IH w2 Hs2) as (w' & Hloop & Hs' & Hg').
      exists w'. split.
      { rewrite (M_bind_step _ _ w w channel_data) by done.
        rewrite (M_bind_step _ _ w w1 ()) by done.
        by rewrite (M_bind_step _ _ w1 w2 ()). }
      split; [done|]. unfold roll_batch_lines.
      exact (grows_trans _ _ _ _ _ _ (grows_trans _ _ _ _ _ _ Hg1 Hg2) Hg').
    + exists w. split; [by apply M_bind_Raise|]. split; [done | apply grows_refl].
Qed.

Lemma normal_loop_grows (s : Sink) (batches : list (DoubleBatch V)) (ending : exn)
    (w : World V) :
  w_csv_file w = Opened s →
  ∃ w', normal_loop batches ending w = (normal_result batches ending, w')
        ∧ w_csv_file w' = Opened s
        ∧ grows s w w' (normal_text s batches).
Proof.
  revert w. induction batches as [|b batches IH]; intros w Hs; simpl.
  - exists w. split; [done|]. split; [done | apply grows_refl].
  - unfold lengths_printable.
    destruct (py_getitem (channel_data2 b) 0) as [c2|e] eqn:Hc2; simpl.
    2:{ exists w. split; [by apply M_bind_Raise|]. split; [done | apply grows_refl]. }
    destruct (py_getitem (channel_data3 b) 0) as [c3|e] eqn:Hc3; simpl.
    2:{ exists w. split.
        { rewrite (M_bind_step _ _ w w c2) by done. by apply M_bind_Raise. }
        split; [done | apply grows_refl]. }
    destruct (stdout_write_grows s [PrintedLengths (length c2) (length c3)] w)
      as (w0 & Hw0 & Hs0 & Hg0). rewrite Hs in Hs0.
    destruct (csv_file_write_grows s (Row <$> py_zip_star (channel_data2 b)) w0 Hs0)
      as (w1 & Hw1 & Hs1 & Hg1).
    destruct (csv_file_write_grows s (Row <$> py_zip_star (channel_data3 b)) w1 Hs1)
      as (w2 & Hw2 & Hs2 & Hg2).
    destruct (csv_file_write_grows s [UnixTime (time2 b)] w2 Hs2)
      as (w3 & Hw3 & Hs3 & Hg3).
    destruct (IH w3 Hs3) as (w' & Hloop & Hs' & Hg').
    exists w'. split.
    { rewrite (M_bind_step _ _ w w c2) by done.
      rewrite (M_bind_step _ _ w w c3) by done.
      rewrite (M_bind_step _ _ w w0 ()) by done.
      rewrite (M_bind_step _ _ w0 w1 ()) by done.
      rewrite (M_bind_step _ _ w1 w2 ()) by done.
      by rewrite (M_bind_step _ _ w2 w3 ()). }
    split; [done|].
    exact (grows_trans _ _ _ _ _ _ Hg0
             (grows_trans _ _ _ _ _ _ Hg1
                (grows_trans _ _ _ _ _ _ Hg2
                   (grows_trans _ _ _ _ _ _ Hg3 Hg')))).
Qed.

(** An export, whatever its exit path, adds the header and the text of the
    batches to its sink and changes no other file. *)
Lemma main_export_grows (csv_file_path : string) (selected_channels : list Z)
    (vertical_scale_factor : list float) (roll_mode : bool) (raw_or_volt : string)
    (sampling_rate : Z) (measured_sampling_rate : option float) (now : float)
    (device : Device V) (w : World V) :
  let sel := export_channels raw_or_volt selected_channels in
  let s := sink_of_path csv_file_path in
  grows s w
    (main_export py_round csv_file_path selected_channels vertical_scale_factor roll_mode
       raw_or_volt sampling_rate measured_sampling_rate now device w).2
    (header_lines py_round sel sampling_rate measured_sampling_rate now
       vertical_scale_factor (get_calibration_data device)
     ++ export_text roll_mode s sel device).
Proof.
  intros sel s.
  set (hdr := header_lines py_round sel sampling_rate measured_sampling_rate now
                vertical_scale_factor (get_calibration_data device)).
  destruct (open_csv_file_grows csv_file_path w) as (w1 & Hw1 & Hs1 & Hg1).
  destruct (csv_file_write_grows s hdr w1 Hs1) as (w2 & Hw2 & Hs2 & Hg2).
  assert (∃ w3,
            (if roll_mode
             then roll_loop sel (roll_samples device) (roll_end device)
             else normal_loop (normal_samples device) (normal_end device)) w2
            = (export_outcome roll_mode sel device, w3)
            ∧ w_csv_file w3 = Opened s
            ∧ grows s w2 w3 (export_text roll_mode s sel device))
    as (w3 & Hw3 & Hs3 & Hg3).
  { unfold export_outcome, export_text. destruct roll_mode.
    - apply roll_loop_grows, Hs2.
    - apply normal_loop_grows, Hs2. }
  pose proof (grows_trans _ _ _ _ _ _ Hg1 (grows_trans _ _ _ _ _ _ Hg2 Hg3)) as Hg.
  fold s in Hg. cbn [app] in Hg.
  assert ((open_csv_file csv_file_path;;
           csv_file_write hdr;;
           if roll_mode
           then roll_loop sel (roll_samples device) (roll_end device)
           else normal_loop (normal_samples device) (normal_end device)) w
          = (export_outcome roll_mode sel device, w3)) as Hbody.
  { rewrite (M_bind_step _ _ w w1 ()) by done.
    by rewrite (M_bind_step _ _ w1 w2 ()). }
  unfold main_export. fold sel. cbv zeta. fold hdr.
  assert (∀ w4, w_csv_file w4 = Opened s → grows s w w4 (hdr ++ export_text roll_mode s sel device) →
            grows s w ((csv_file_close;; world_log InfoExportFinished;; device_close) w4).2
              (hdr ++ export_text roll_mode s sel device)) as Hend.
  { intros w4 Hs4 Hg4.
    destruct (csv_file_close_grows s w4 Hs4) as (w5 & Hw5 & Hg5).
    destruct (world_log_grows s InfoExportFinished w5) as (w6 & Hw6 & _ & Hg6).
    destruct (device_close_grows s w6) as (w7 & Hw7 & Hg7).
    rewrite (M_bind_step _ _ w4 w5 ()) by done.
    rewrite (M_bind_step _ _ w5 w6 ()) by done.
    rewrite Hw7. simpl.
    pose proof (grows_trans _ _ _ _ _ _ Hg4
                  (grows_trans _ _ _ _ _ _ Hg5 (grows_trans _ _ _ _ _ _ Hg6 Hg7))) as H.
    by rewrite !app_nil_r in H. }
  destruct (export_outcome roll_mode sel device) as [[]|e] eqn:Hout.
  - rewrite (M_bind_step _ _ w w3 ()) by (unfold try_except_KeyboardInterrupt; by rewrite Hbody).
    by apply Hend.
  - assert (e = KeyboardInterrupt ∨ e ≠ KeyboardInterrupt) as [->|Hfatal]
      by (destruct e; auto; right; discriminate).
    + destruct (world_log_grows s InfoCanceledByUser w3) as (w3' & Hw3' & Hs3' & Hg3').
      rewrite Hs3 in Hs3'.
      rewrite (M_bind_step _ _ w w3' ())
        by (unfold try_except_KeyboardInterrupt; by rewrite Hbody).
      apply Hend; [done|].
      pose proof (grows_trans _ _ _ _ _ _ Hg Hg3') as H. by rewrite app_nil_r in H.
    + rewrite (M_bind_Raise _ _ w w3 e); [done|].
      unfold try_except_KeyboardInterrupt. rewrite Hbody. by destruct e.
Qed.

End export_text_facts.

(** The text of a session in which [open] succeeds and nothing but the
    sample generator raises: after the text its sink already held come the
    header and then, for every batch handled, the rows of the batch
    followed by one timestamp line. *)
Lemma main_export_text {V : Type} (py_round : float → Z → float)
    (csv_file_path : string) (selected_channels : list Z)
    (vertical_scale_factor : list float) (roll_mode : bool) (raw_or_volt : string)
    (sampling_rate : Z) (measured_sampling_rate : option float) (now : float)
    (device : Device V) (w : World V) :
  let sel := export_channels raw_or_volt selected_channels in
  let w' := (main_export py_round csv_file_path selected_channels vertical_scale_factor
               roll_mode raw_or_volt sampling_rate measured_sampling_rate now device w).2 in
  sink_text csv_file_path w'
  = sink_text csv_file_path w
    ++ header_lines py_round sel sampling_rate measured_sampling_rate now
         vertical_scale_factor (get_calibration_data device)
    ++ export_text roll_mode (sink_of_path csv_file_path) sel device.
Proof.
  intros sel w'. unfold sink_text.
  apply (main_export_grows py_round csv_file_path selected_channels vertical_scale_factor
           roll_mode raw_or_volt sampling_rate measured_sampling_rate now device w).
Qed.

(** X13.  An export writes to its sink only: exporting to standard output
    changes no file, and exporting to a path leaves every file at another
    path as it was, on every exit path. *)
Theorem export_changes_no_other_file {V : Type} (py_round : float → Z → float)
    (csv_file_path : string) (selected_channels : list Z)
    (vertical_scale_factor : list float) (roll_mode : bool) (raw_or_volt : string)
    (sampling_rate : Z) (measured_sampling_rate : option float) (now : float)
    (device : Device V) (w : World V) :
  let w' := (main_export py_round csv_file_path selected_channels vertical_scale_factor
               roll_mode raw_or_volt sampling_rate measured_sampling_rate now device w).2 in
  (csv_file_path = "-"%string → w_files w' = w_files w)
  ∧ ∀ path, path ≠ csv_file_path → w_files w' !! path = w_files w !! path.
Proof.
  intros w'.
  destruct (main_export_grows py_round csv_file_path selected_channels vertical_scale_factor
              roll_mode raw_or_volt sampling_rate measured_sampling_rate now device w)
    as [_ Hother].
  fold w' in Hother. unfold other_files, sink_of_path in Hother. split.
  - intros ->. done.
  - intros path Hne.
    destruct (String.eqb csv_file_path "-"); [by rewrite Hother|].
    destruct (py_endswith csv_file_path ".xz").
    + rewrite <- (lookup_delete_ne (w_files w') csv_file_path path) by done.
      rewrite Hother. by rewrite lookup_delete_ne.
    + rewrite <- (lookup_delete_ne (w_files w') csv_file_path path) by done.
      rewrite Hother. by rewrite lookup_delete_ne.
Qed.

(** ** The rows of a batch *)

Lemma mapM_Some_impl {A B} (f g : A → option B) (l : list A) (k : list B) :
  (∀ x y, f x = Some y → g x = Some y) → mapM f l = Some k → mapM g l = Some k.
Proof. rewrite !mapM_Some. intros Hfg H. eapply Forall2_impl; [exact H | exact Hfg]. Qed.

Lemma mapM_head_tail {A} (cols : list (list A)) (j : nat) (row : list A) :
  (mapM head cols = Some row ↔ mapM (λ col, col !! 0%nat) cols = Some row)
  ∧ (mapM (λ col, col !! j) (tail <$> cols) = Some row
     ↔ mapM (λ col, col !! S j) cols = Some row).
Proof.
  split.
  - split; apply mapM_Some_impl; intros col y; by rewrite head_lookup.
  - rewrite !mapM_Some, Forall2_fmap_l.
    split; intros H; (eapply Forall2_impl; [exact H|]); intros col y; simpl;
      by rewrite lookup_tail.
Qed.

Lemma mapM_lookup_0 {A} (cols : list (list A)) (j : nat) (row : list A) :
  mapM (λ col, col !! j) cols = Some row →
  ∃ row0, mapM (λ col, col !! 0%nat) cols = Some row0.
Proof.
  rewrite mapM_Some. induction 1 as [|col v cols row Hv _ [row0 IH]]; [by exists []|].
  destruct col as [|x col]; [done|].
  exists (x :: row0). simpl. by rewrite IH.
Qed.

Lemma zip_rows_lookup {A} (n : nat) (cols : list (list A)) (j : nat) (row : list A) :
  zip_rows n cols !! j = Some row ↔ (j < n)%nat ∧ mapM (λ col, col !! j) cols = Some row.
Proof.
  revert cols j. induction n as [|n IH]; intros cols j; simpl.
  - split; [done | lia].
  - destruct (mapM head cols) as [row0|] eqn:Hhead.
    + apply (mapM_head_tail cols 0 row0) in Hhead.
      destruct j as [|j]; simpl.
      * rewrite Hhead. split; [intros [= ->]; split; [lia | done] | by intros [_ [= ->]]].
      * rewrite IH. rewrite (proj2 (mapM_head_tail cols j row)). split; intros [? ?]; split; [lia | done | lia | done].
    + split; [done|]. intros [_ Hrow].
      destruct (mapM_lookup_0 _ _ _ Hrow) as [row0 Hrow0].
      apply (mapM_head_tail cols 0 row0) in Hrow0. congruence.
Qed.

Lemma py_zip_star_lookup {A} (cols : list (list A)) (j : nat) (row : list A) :
  py_zip_star cols !! j = Some row
  ↔ cols ≠ [] ∧ mapM (λ col, col !! j) cols = Some row.
Proof.
  unfold py_zip_star. destruct cols as [|c cols]; [split; [done | by intros [? _]]|].
  rewrite zip_rows_lookup. split; [by intros [_ ?]|].
  intros [_ Hrow]. split; [|done].
  simpl in Hrow. destruct (c !! j) as [v|] eqn:Hv; [|done].
  by apply lookup_lt_Some in Hv.
Qed.

(** X14.  What a row of the CSV holds.  A batch has a [j]-th row exactly
    when channels are selected and each of them has a [j]-th sample in
    the batch; the row is then made of these samples, one per selected
    channel, in the order of the selection.  The rows of a batch are
    therefore as many as the shortest selected channel has samples. *)
Theorem csv_row_values {V} (b : Batch V) (selected_channels : list Z)
    (channel_data : list (list V)) (j : nat) (row : list V) :
  mapM (py_getitem (data b)) selected_channels = Ok channel_data →
  (py_zip_star channel_data !! j = Some row
   ↔ selected_channels ≠ []
     ∧ Forall2 (λ ch v, ∃ samples, py_getitem (data b) ch = Ok samples
                                   ∧ samples !! j = Some v)
         selected_channels row).
Proof.
  intros Hcols%mapM_Ok. rewrite py_zip_star_lookup, mapM_Some.
  pose proof (Forall2_length _ _ _ Hcols) as Hlen.
  split.
  - intros [Hne Hrow]. split; [by destruct Hcols|].
    apply Forall2_same_length_lookup. split.
    + rewrite Hlen. by eapply Forall2_length.
    + intros k ch v Hch Hv.
      destruct (Forall2_lookup_l _ _ _ _ _ Hcols Hch) as (samples & Hs & Hget).
      exists samples. split; [done|].
      by apply (Forall2_lookup_lr _ _ _ _ _ _ Hrow Hs Hv).
  - intros [Hne Hrow]. split; [by destruct Hcols|].
    apply Forall2_same_length_lookup. split.
    + rewrite <- Hlen. by eapply Forall2_length.
    + intros k samples v Hs Hv.
      destruct (Forall2_lookup_r _ _ _ _ _ Hcols Hs) as (ch & Hch & Hget).
      destruct (Forall2_lookup_lr _ _ _ _ _ _ Hrow Hch Hv) as (samples' & Hget' & Hv').
      congruence.
Qed.

Lemma csv_row_values_witness :
  py_zip_star [[10; 11; 12]; [30; 31]]%Z !! 1%nat = Some [11; 31]%Z
  ↔ [0; 2]%Z ≠ []
    ∧ Forall2 (λ ch v, ∃ samples,
                 py_getitem (data {| time := 0; data := [[10; 11; 12]; [20]; [30; 31]]%Z |}) ch
                 = Ok samples ∧ samples !! 1%nat = Some v)
        [0; 2]%Z [11; 31]%Z.
Proof.
  apply (csv_row_values {| time := 0; data := [[10; 11; 12]; [20]; [30; 31]]%Z |}).
  reflexivity.
Defined.

(** X15.  With ["volt+raw"] the header names every selected channel
    twice: first its volt column [ch_n], then, after all of these, its raw
    column [ch_n_raw], in the same order. *)
Theorem volt_raw_titles (selected_channels : list Z) :
  Forall (λ c, 0 ≤ c < 8)%Z selected_channels →
  channel_title <$> export_channels "volt+raw" selected_channels
  = ((λ c, Ch (c + 1)) <$> selected_channels)
    ++ ((λ c, ChRaw (c + 1)) <$> selected_channels).
Proof.
  intros Hsel. unfold export_channels. simpl String.eqb. cbv iota.
  rewrite fmap_app, <- list_fmap_compose. f_equal.
  - apply Forall_fmap_ext_1. eapply Forall_impl; [exact Hsel|]. intros c Hc. simpl in Hc.
    unfold channel_title. by rewrite (proj2 (Z.ltb_lt c 8)) by lia.
  - apply Forall_fmap_ext_1. eapply Forall_impl; [exact Hsel|]. intros c Hc. simpl in Hc. simpl.
    unfold channel_title. rewrite (proj2 (Z.ltb_ge (c + 8) 8)) by lia.
    f_equal. lia.
Qed.

Lemma volt_raw_titles_witness :
  channel_title <$> export_channels "volt+raw" [0; 2]%Z
  = ((λ c, Ch (c + 1)) <$> [0; 2]%Z) ++ ((λ c, ChRaw (c + 1)) <$> [0; 2]%Z).
Proof. apply volt_raw_titles. repeat constructor; lia. Defined.

(** ** The calibration routine: measurements and records *)

Section measurement_facts.

Context {D R : Type} `{!Hantek1008 D R}.
Variable py_round : float → Z → float.
Variable average : list R → float.
Variable parse_voltages : string → option (list float).

Lemma take_rows_length (n : nat) (d : D) : length (take_rows n d).1 = n.
Proof.
  revert d. induction n as [|n IH]; intros d; simpl; [done|].
  destruct (next_row d) as [row d1]. specialize (IH d1).
  destruct (take_rows n d1) as [rows d2]. simpl in *. by rewrite IH.
Qed.

Lemma measure_device (c : Z) (v : float) (s s' : Session D) (r : result unit) :
  measure py_round average c v s = (r, s') →
  s_device s'
  = pause (take_rows required_calibration_samples_nun (cancel_pause (s_device s))).2.
Proof.
  unfold measure, mbind, M_bind, with_device, modify, collect_rows, lift, records_of,
    gets, set_calibration_data. cbn -[take_rows required_calibration_samples_nun].
  destruct (take_rows required_calibration_samples_nun (cancel_pause (s_device s)))
    as [rows d]. cbn -[take_rows required_calibration_samples_nun].
  destruct (py_getitem (py_zip_star rows) c) as [cd|e]; simpl; [|by intros [= <- <-]].
  destruct (s_calibration_data s !! c) as [records|]; simpl; [|by intros [= <- <-]].
  destruct (py_getitem (get_vscales (pause d)) c) as [vs|e]; simpl; by intros [= <- <-].
Qed.

Lemma measure_Ok (c : Z) (v : float) (s s' : Session D) :
  measure py_round average c v s = (Ok (), s') →
  ∃ column records vs,
    py_getitem
      (py_zip_star (take_rows required_calibration_samples_nun
                      (cancel_pause (s_device s))).1) c = Ok column
    ∧ s_calibration_data s !! c = Some records
    ∧ py_getitem (get_vscales (s_device s')) c = Ok vs
    ∧ s_transcript s' = s_transcript s ∧ s_written s' = s_written s
    ∧ s_stdin s' = s_stdin s
    ∧ s_calibration_data s'
      = <[c := records ++ [{| test_voltage := v;
                             measured_value := py_round (average column) 2;
                             vscale := vs;
                             zero_offset := py_round (get_zero_offset (s_device s') c) 2 |}]]>
          (s_calibration_data s).
Proof.
  unfold measure, mbind, M_bind, with_device, modify, collect_rows, lift, records_of,
    gets, set_calibration_data. cbn -[take_rows required_calibration_samples_nun].
  destruct (take_rows required_calibration_samples_nun (cancel_pause (s_device s)))
    as [rows d]. cbn -[take_rows required_calibration_samples_nun].
  destruct (py_getitem (py_zip_star rows) c) as [cd|e]; simpl; [|done].
  destruct (s_calibration_data s !! c) as [records|]; simpl; [|done].
  destruct (py_getitem (get_vscales (pause d)) c) as [vs|e] eqn:Hvs; simpl; [|done].
  intros [= <-]. simpl. exists cd, records, vs. done.
Qed.

Lemma measured_voltages_app (c : Z) (a b : list console_event) :
  measured_voltages c (a ++ b) = measured_voltages c a ++ measured_voltages c b.
Proof. apply omap_app. Qed.

Lemma measured_voltages_other (c c' : Z) (asked : list console_event) :
  c' ≠ c → Forall (λ ev, ∃ v cmd, ev = AskCell c v cmd) asked →
  measured_voltages c' asked = [].
Proof.
  intros Hne. induction 1 as [|ev asked (v & cmd & ->) _ IH]; [done|].
  simpl. rewrite (proj2 (Z.eqb_neq c c')) by done. done.
Qed.

Lemma measured_voltages_prompts (c : Z) (asked : list console_event) :
  Forall (λ ev, ∃ in_str, ev = AskVoltages in_str) asked → measured_voltages c asked = [].
Proof. induction 1 as [|ev asked (in_str & ->) _ IH]; [done|]. done. Qed.

Lemma voltage_loop_records (c : Z) (tvs : list float) (s s' : Session D) (f : flow) :
  voltage_loop py_round average c tvs s = (Ok f, s') →
  ∃ asked,
    s_transcript s' = s_transcript s ++ asked
    ∧ Forall (λ ev, ∃ v cmd, ev = AskCell c v cmd) asked
    ∧ (∀ c', c' ≠ c → s_calibration_data s' !! c' = s_calibration_data s !! c')
    ∧ ∀ l, s_calibration_data s !! c = Some l →
        ∃ l', s_calibration_data s' !! c = Some (l ++ l')
              ∧ test_voltage <$> l' = measured_voltages c asked.
Proof.
  revert s. induction tvs as [|tv tvs IH]; intros s; simpl.
  - unfold mret, M_ret. intros [= <- <-]. exists []. rewrite app_nil_r.
    repeat split; try done. intros l Hl. exists []. by rewrite app_nil_r.
  - unfold mbind at 1, M_bind at 1.
    destruct (input (AskCell c tv) s) as [[cmd|e] s1] eqn:Hin;
      apply input_inv in Hin as [[? ->]|(line & Hr & Hdev & Htr & Hdata & Hwr)]; try done;
      cbv beta iota.
    injection Hr as <-.
    destruct (String.eqb cmd "q") eqn:Hq.
    { unfold mret, M_ret. intros [= <- <-]. exists [AskCell c tv cmd].
      split; [done|]. split; [repeat constructor; eauto|].
      split; [intros c' _; by rewrite Hdata|].
      intros l Hl. exists []. rewrite app_nil_r, Hdata. split; [done|].
      simpl. by rewrite Z.eqb_refl, Hq. }
    destruct (String.eqb cmd "ss") eqn:Hss.
    { unfold mret, M_ret. intros [= <- <-]. exists [AskCell c tv cmd].
      split; [done|]. split; [repeat constructor; eauto|].
      split; [intros c' _; by rewrite Hdata|].
      intros l Hl. exists []. rewrite app_nil_r, Hdata. split; [done|].
      simpl. by rewrite Z.eqb_refl, Hq, Hss. }
    destruct (String.eqb cmd "s") eqn:Hs.
    { intros (asked & Hasked & Hev & Hother & Hself)%IH.
      exists (AskCell c tv cmd :: asked).
      split; [rewrite Hasked, Htr, <- app_assoc; done|].
      split; [constructor; eauto|].
      split; [intros c' Hc'; rewrite (Hother c' Hc'), Hdata; done|].
      intros l Hl. rewrite <- Hdata in Hl. destruct (Hself l Hl) as (l' & Hl' & Hv).
      exists l'. split; [done|]. simpl. by rewrite Z.eqb_refl, Hq, Hss, Hs. }
    unfold mbind at 1, M_bind at 1.
    destruct (measure py_round average c tv s1) as [[[]|e] s2] eqn:Hm; cbv beta iota; [|done].
    apply measure_Ok in Hm
      as (column & records & vs & _ & Hrec & _ & Htr2 & Hwr2 & _ & Hdata2).
    intros (asked & Hasked & Hev & Hother & Hself)%IH.
    exists (AskCell c tv cmd :: asked).
    split; [rewrite Hasked, Htr2, Htr, <- app_assoc; done|].
    split; [constructor; eauto|].
    split.
    { intros c' Hc'. rewrite (Hother c' Hc'), Hdata2, lookup_insert_ne, Hdata; done. }
    intros l Hl. rewrite <- Hdata, Hrec in Hl. injection Hl as ->.
    destruct (Hself (l ++ [{| test_voltage := tv;
                              measured_value := py_round (average column) 2;
                              vscale := vs;
                              zero_offset := py_round (get_zero_offset (s_device s2) c) 2 |}]))
      as (l' & Hl' & Hv); [by rewrite Hdata2, lookup_insert_eq|].
    eexists. split; [by rewrite Hl', <- app_assoc|].
    rewrite fmap_app, Hv. simpl. by rewrite Z.eqb_refl, Hq, Hss, Hs.
Qed.

Lemma channel_loop_records (tvs : list float) (chans : list Z) (s s' : Session D)
    (f : flow) :
  NoDup chans →
  channel_loop py_round average tvs chans s = (Ok f, s') →
  ∃ asked,
    s_transcript s' = s_transcript s ++ asked
    ∧ ∀ c, (s_calibration_data s' !! c = s_calibration_data s !! c
            ∧ measured_voltages c asked = [])
           ∨ ∃ l, s_calibration_data s' !! c = Some l
                  ∧ test_voltage <$> l = measured_voltages c asked.
Proof.
  intros Hnd. revert s.
  induction Hnd as [|c chans Hc Hnd IH]; intros s; simpl.
  - unfold mret, M_ret. intros [= <- <-]. exists []. rewrite app_nil_r.
    split; [done|]. intros c. by left.
  - unfold mbind at 1, M_bind at 1, set_calibration_data at 1, modify at 1. cbv beta iota.
    set (s0 := {| s_device := s_device s; s_stdin := s_stdin s;
                  s_transcript := s_transcript s;
                  s_calibration_data := <[c:=[]]> (s_calibration_data s);
                  s_written := s_written s |}).
    unfold mbind at 1, M_bind at 1.
    destruct (voltage_loop py_round average c tvs s0) as [[f1|e] s1] eqn:Hv;
      cbv beta iota; [|done].
    pose proof (channel_loop_spec py_round average tvs chans s1) as Hspec.
    apply voltage_loop_records in Hv as (asked1 & Htr1 & Hev1 & Hother1 & Hself1).
    destruct (Hself1 [] (lookup_insert_eq _ _ _)) as (l' & Hl' & Hvolt1).
    simpl in Hl'.
    assert (∀ c', c' ≠ c →
              s_calibration_data s1 !! c' = s_calibration_data s !! c'
              ∧ measured_voltages c' asked1 = []) as Hrest1.
    { intros c' Hc'. split; [|by eapply measured_voltages_other].
      rewrite (Hother1 c' Hc'). simpl. by rewrite lookup_insert_ne. }
    destruct f1.
    2:{ unfold mret, M_ret. intros [= <- <-]. exists asked1. split; [done|].
        intros c'. destruct (decide (c' = c)) as [->|Hne]; [right; eauto | left; auto]. }
    intros Hloop. destruct (Hspec _ _ Hnd Hloop) as (_ & asked2' & Htr2' & Hev2 & _ & Hout2).
    apply IH in Hloop as (asked2 & Htr2 & Hrec2).
    assert (asked2' = asked2) as -> by (rewrite Htr2 in Htr2'; by apply app_inv_head in Htr2').
    exists (asked1 ++ asked2). split; [by rewrite Htr2, Htr1, app_assoc|].
    intros c'. rewrite measured_voltages_app.
    destruct (decide (c' = c)) as [->|Hne].
    + right. exists l'. rewrite (Hout2 c Hc). split; [done|].
      assert (measured_voltages c asked2 = []) as ->; [|by rewrite app_nil_r].
      clear -Hev2 Hc. induction Hev2 as [|ev asked (c0 & v & cmd & -> & Hin) _ IH']; [done|].
      simpl. rewrite (proj2 (Z.eqb_neq c0 c)) by (intros ->; done). done.
    + destruct (Hrest1 c' Hne) as [Hd1 ->]. simpl.
      destruct (Hrec2 c') as [[Hd2 Hm2]|(l & Hl & Hm2)].
      * left. split; [congruence | done].
      * right. eauto.
Qed.

Lemma read_test_voltages_device (fuel : nat) (s s' : Session D) (r : result (list float)) :
  read_test_voltages parse_voltages fuel s = (r, s') → s_device s' = s_device s.
Proof.
  revert s. induction fuel as [|fuel IH]; intros s; simpl; [by intros [= <- <-]|].
  unfold mbind at 1, M_bind at 1.
  destruct (input AskVoltages s) as [[in_str|e] s1] eqn:Hin;
    apply input_inv in Hin as [[? ->]|(line & Hr & Hdev & _)]; try done; cbv beta iota.
  - destruct (parse_voltages in_str); [unfold mret, M_ret; intros [= <- <-]; done|].
    intros ->%IH. done.
  - by intros [= <- <-].
Qed.

Lemma voltage_loop_device (c : Z) (tvs : list float) (s s' : Session D) (r : result flow) :
  voltage_loop py_round average c tvs s = (r, s') →
  s_device s' = s_device s ∨ ∃ d, s_device s' = pause d.
Proof.
  revert s. induction tvs as [|tv tvs IH]; intros s; simpl.
  - unfold mret, M_ret. intros [= <- <-]. by left.
  - unfold mbind at 1, M_bind at 1.
    destruct (input (AskCell c tv) s) as [[cmd|e] s1] eqn:Hin;
      apply input_inv in Hin as [[? ->]|(line & Hr & Hdev & _)]; try done; cbv beta iota.
    2:{ intros [= <- <-]. by left. }
    destruct (String.eqb cmd "q"); [unfold mret, M_ret; intros [= <- <-]; by left|].
    destruct (String.eqb cmd "ss"); [unfold mret, M_ret; intros [= <- <-]; by left|].
    destruct (String.eqb cmd "s").
    { intros [->|Hp]%IH; [by left | by right]. }
    unfold mbind at 1, M_bind at 1.
    destruct (measure py_round average c tv s1) as [[[]|e] s2] eqn:Hm;
      apply measure_device in Hm; cbv beta iota.
    + intros [->|Hp]%IH; right; eauto.
    + intros [= <- <-]. right. eauto.
Qed.

Lemma channel_loop_device (tvs : list float) (chans : list Z) (s s' : Session D)
    (r : result flow) :
  channel_loop py_round average tvs chans s = (r, s') →
  s_device s' = s_device s ∨ ∃ d, s_device s' = pause d.
Proof.
  revert s. induction chans as [|c chans IH]; intros s; simpl.
  - unfold mret, M_ret. intros [= <- <-]. by left.
  - unfold mbind at 1, M_bind at 1, set_calibration_data at 1, modify at 1. cbv beta iota.
    set (s0 := {| s_device := s_device s; s_stdin := s_stdin s;
                  s_transcript := s_transcript s;
                  s_calibration_data := <[c:=[]]> (s_calibration_data s);
                  s_written := s_written s |}).
    unfold mbind at 1, M_bind at 1.
    destruct (voltage_loop py_round average c tvs s0) as [[f1|e] s1] eqn:Hv;
      apply voltage_loop_device in Hv; cbv beta iota.
    2:{ intros [= <- <-]. done. }
    destruct f1; [|unfold mret, M_ret; intros [= <- <-]; done].
    intros [Heq|Hp]%IH; [|by right]. rewrite Heq. done.
Qed.

End measurement_facts.

Section calibration_records.

Context {D R : Type} `{!Hantek1008 D R}.
Variable py_round : float → Z → float.
Variable average : list R → float.
Variable parse_voltages : string → option (list float).

(** The stages of a run: the prompt for the voltages, the loop over the
    channels, the file. *)
Lemma calibration_routine_stages (path : string) (s s' : Session D) (r : result unit) :
  calibration_routine py_round average parse_voltages path s = (r, s') →
  let s0 := {| s_device := pause (s_device s); s_stdin := s_stdin s;
               s_transcript := s_transcript s; s_calibration_data := ∅;
               s_written := s_written s |} in
  (∃ e, read_test_voltages parse_voltages (length (s_stdin s)) s0 = (Raise e, s')
        ∧ r = Raise e)
  ∨ ∃ tvs s1,
      read_test_voltages parse_voltages (length (s_stdin s)) s0 = (Ok tvs, s1)
      ∧ ((∃ e, channel_loop py_round average tvs (py_range 0 8) s1 = (Raise e, s')
               ∧ r = Raise e)
         ∨ (channel_loop py_round average tvs (py_range 0 8) s1 = (Ok Return, s')
            ∧ r = Ok ())
         ∨ ∃ s2, channel_loop py_round average tvs (py_range 0 8) s1 = (Ok Next, s2)
                 ∧ r = Ok ()
                 ∧ s_device s' = s_device s2 ∧ s_transcript s' = s_transcript s2
                 ∧ s_calibration_data s' = s_calibration_data s2
                 ∧ s_written s' = s_written s2 ++ [(path, s_calibration_data s2)]).
Proof.
  intros Hrun. unfold calibration_routine in Hrun.
  unfold mbind at 1, M_bind at 1, set_calibration_data at 1, modify at 1 in Hrun.
  cbv beta iota in Hrun.
  unfold mbind at 1, M_bind at 1, with_device at 1, modify at 1 in Hrun.
  cbv beta iota in Hrun.
  unfold mbind at 1, M_bind at 1, gets at 1 in Hrun. cbv beta iota in Hrun.
  cbn [s_device s_stdin s_transcript s_calibration_data s_written] in Hrun.
  cbv zeta.
  set (s0 := {| s_device := pause (s_device s); s_stdin := s_stdin s;
                s_transcript := s_transcript s; s_calibration_data := ∅;
                s_written := s_written s |}) in *.
  unfold mbind at 1, M_bind at 1 in Hrun.
  destruct (read_test_voltages parse_voltages (length (s_stdin s)) s0)
    as [[tvs|e] s1] eqn:Hread; cbv beta iota in Hrun.
  2:{ injection Hrun as <- <-. left. eauto. }
  right. exists tvs, s1. split; [done|].
  unfold mbind at 1, M_bind at 1 in Hrun.
  destruct (channel_loop py_round average tvs (py_range 0 8) s1) as [[f|e] s2] eqn:Hloop;
    cbv beta iota in Hrun.
  2:{ injection Hrun as <- <-. left. eauto. }
  destruct f.
  - unfold write_calibration_file, modify in Hrun. injection Hrun as <- <-.
    right. right. exists s2. done.
  - unfold mret, M_ret in Hrun. injection Hrun as <- <-. right. by left.
Qed.

(** X16.  The records of a channel are its measured cells.  When the
    routine returns, the records it holds for a channel (the ones it
    writes, if it writes the file) carry, in order, the test voltages of
    the cells of that channel that the operator answered with anything but
    [q], [ss] or [s]: one record per measurement, none for a skipped
    cell. *)
Theorem records_follow_answers (path : string) (s : Session D) :
  let run := calibration_routine py_round average parse_voltages path s in
  run.1 = Ok () →
  ∃ asked,
    s_transcript run.2 = s_transcript s ++ asked
    ∧ (∀ c records, s_calibration_data run.2 !! c = Some records →
         test_voltage <$> records = measured_voltages c asked)
    ∧ (s_written run.2 = s_written s
       ∨ s_written run.2 = s_written s ++ [(path, s_calibration_data run.2)]).
Proof.
  intros run. unfold run. clear run.
  destruct (calibration_routine py_round average parse_voltages path s) as [r s'] eqn:Hrun.
  cbn [fst snd]. intros ->.
  apply calibration_routine_stages in Hrun
    as [(e & _ & [=])|(tvs & s1 & Hread & Hrun)].
  apply read_test_voltages_spec in Hread as (Hw1 & Hd1 & asked1 & Htr1 & Hev1).
  cbn [s_written s_calibration_data s_transcript] in Hw1, Hd1, Htr1.
  assert (∀ s2 f, channel_loop py_round average tvs (py_range 0 8) s1 = (Ok f, s2) →
            s_written s2 = s_written s
            ∧ ∃ asked, s_transcript s2 = s_transcript s ++ asked
                       ∧ ∀ c records, s_calibration_data s2 !! c = Some records →
                           test_voltage <$> records = measured_voltages c asked) as Hloop.
  { intros s2 f Hloop.
    destruct (channel_loop_spec py_round average _ _ _ _ _ NoDup_py_range_0_8 Hloop) as [Hw2 _].
    apply (channel_loop_records _ _ _ _ _ _ _ NoDup_py_range_0_8) in Hloop
      as (asked2 & Htr2 & Hrec2).
    split; [congruence|]. exists (asked1 ++ asked2).
    split; [by rewrite Htr2, Htr1, app_assoc|].
    intros c records Hc. rewrite measured_voltages_app.
    rewrite (measured_voltages_prompts c asked1 Hev1). simpl.
    destruct (Hrec2 c) as [[Hsame _]|(l & Hl & Hm)].
    - rewrite Hsame, Hd1, lookup_empty in Hc. done.
    - congruence. }
  destruct Hrun as [(e & _ & [=])|[[Hret _]|(s2 & Hnext & _ & Hdev & Htr & Hdata & Hwr)]].
  - destruct (Hloop _ _ Hret) as (Hw & asked & Hasked & Hrec).
    exists asked. split; [done|]. split; [done | by left].
  - destruct (Hloop _ _ Hnext) as (Hw & asked & Hasked & Hrec).
    exists asked. rewrite Htr, Hdata, Hwr, Hw. split; [done|]. split; [done | by right].
Qed.

Lemma calibration_routine_device (path : string) (s : Session D) :
  ∃ d, s_device (calibration_routine py_round average parse_voltages path s).2 = pause d.
Proof.
  destruct (calibration_routine py_round average parse_voltages path s) as [r s'] eqn:Hrun.
  cbn [snd].
  apply calibration_routine_stages in Hrun
    as [(e & Hread & _)|(tvs & s1 & Hread & Hrun)];
    apply read_test_voltages_device in Hread; cbn [s_device] in Hread; [eauto|].
  assert (∀ s2 r2, channel_loop py_round average tvs (py_range 0 8) s1 = (r2, s2) →
            ∃ d, s_device s2 = pause d) as Hloop.
  { intros s2 r2 [Heq|Hp]%channel_loop_device; [|done]. rewrite Heq, Hread. eauto. }
  destruct Hrun as [(e & Hl & _)|[[Hl _]|(s2 & Hl & _ & Hdev & _)]];
    apply Hloop in Hl as [d Hd]; exists d; congruence.
Qed.

(** X17.  When the routine returns, by completion or by [q], or ends at a
    prompt because the input is exhausted, the device is paused: the last
    thing done to it is a call of [device.pause()].  (An exception or an
    interrupt while the 512 rows of a measurement are read is another way
    out, on which lines 247-257 do leave the device streaming; the rows of
    [next_row] always arrive, so that way out is not among the runs
    here.) *)
Theorem device_left_paused (path : string) (s : Session D) :
  let run := calibration_routine py_round average parse_voltages path s in
  run.1 = Ok () ∨ run.1 = Raise EOFError →
  ∃ d, s_device run.2 = pause d.
Proof. intros run _. apply calibration_routine_device. Qed.

(** X18.  One measurement.  Between [cancel_pause] and [pause] it reads
    [required_calibration_samples_nun] = 512 rows from the device; the
    value it averages is the list of the entries of these rows at the
    place of the channel, 512 samples; the record it appends to the
    channel holds the test voltage, the average and the zero offset
    rounded to two digits, and the vscale the paused device reports for
    the channel. *)
Theorem measurement_averages_512_samples (c : Z) (v : float) (s : Session D) :
  let run := measure py_round average c v s in
  let taken := take_rows required_calibration_samples_nun (cancel_pause (s_device s)) in
  (0 ≤ c)%Z →
  run.1 = Ok () →
  s_device run.2 = pause taken.2
  ∧ ∃ column records vs,
      length column = required_calibration_samples_nun
      ∧ Forall2 (λ row x, row !! Z.to_nat c = Some x) taken.1 column
      ∧ s_calibration_data s !! c = Some records
      ∧ py_getitem (get_vscales (pause taken.2)) c = Ok vs
      ∧ s_calibration_data run.2
        = <[c := records
                 ++ [{| test_voltage := v;
                        measured_value := py_round (average column) 2;
                        vscale := vs;
                        zero_offset := py_round (get_zero_offset (pause taken.2) c) 2 |}]]>
            (s_calibration_data s).
Proof.
  intros run taken Hc. unfold run. clear run.
  destruct (measure py_round average c v s) as [r s'] eqn:Hrun.
  cbn [fst snd]. intros ->.
  pose proof (measure_device _ _ _ _ _ _ _ Hrun) as Hdev.
  apply measure_Ok in Hrun as (column & records & vs & Hcol & Hrec & Hvs & _ & _ & _ & Hdata).
  fold taken in Hcol, Hdev. rewrite Hdev in Hvs, Hdata.
  split; [done|]. exists column, records, vs.
  rewrite <- (Z2Nat.id c Hc) in Hcol at 1. apply py_getitem_nat_Ok in Hcol.
  apply py_zip_star_lookup in Hcol as [_ Hcol%mapM_Some].
  split; [|done].
  rewrite <- (Forall2_length _ _ _ Hcol). apply take_rows_length.
Qed.

End calibration_records.

Lemma records_follow_answers_witness :
  ∃ asked,
    s_transcript (example_routine completing_lines).2
    = s_transcript (example_session completing_lines) ++ asked
    ∧ (∀ c records,
         s_calibration_data (example_routine completing_lines).2 !! c = Some records →
         test_voltage <$> records = measured_voltages c asked)
    ∧ (s_written (example_routine completing_lines).2
       = s_written (example_session completing_lines)
       ∨ s_written (example_routine completing_lines).2
         = s_written (example_session completing_lines)
           ++ [("cal.json"%string, s_calibration_data (example_routine completing_lines).2)]).
Proof.
  apply (records_follow_answers (λ x _, x) mean_of_ints parse_example_voltages
           "cal.json" (example_session completing_lines)).
  vm_compute. reflexivity.
Defined.

Lemma measurement_averages_512_samples_witness :
  s_device (measure (λ x _, x) mean_of_ints 0 1.0 measuring_session).2
  = pause (take_rows required_calibration_samples_nun
             (cancel_pause (s_device measuring_session))).2
  ∧ ∃ column records vs,
      length column = required_calibration_samples_nun
      ∧ Forall2 (λ row x, row !! Z.to_nat 0 = Some x)
          (take_rows required_calibration_samples_nun
             (cancel_pause (s_device measuring_session))).1 column
      ∧ s_calibration_data measuring_session !! 0%Z = Some records
      ∧ py_getitem
          (get_vscales
             (pause (take_rows required_calibration_samples_nun
                       (cancel_pause (s_device measuring_session))).2)) 0 = Ok vs
      ∧ s_calibration_data (measure (λ x _, x) mean_of_ints 0 1.0 measuring_session).2
        = <[0%Z := records
                   ++ [{| test_voltage := 1.0;
                          measured_value := (λ x _, x) (mean_of_ints column) 2%Z;
                          vscale := vs;
                          zero_offset :=
                            (λ x _, x)
                              (get_zero_offset
                                 (pause (take_rows required_calibration_samples_nun
                                           (cancel_pause (s_device measuring_session))).2)
                                 0) 2%Z |}]]>
            (s_calibration_data measuring_session).
Proof.
  apply (measurement_averages_512_samples (λ x _, x) mean_of_ints 0 1.0 measuring_session);
    [lia | vm_compute; reflexivity].
Defined.

(** ** Connecting to the device *)

(** X19.  How the connect phase ends.  It returns only when both
    [device.connect()] and [device.init()] return.  A RuntimeError of
    either is logged and ends the program with exit status 1, and
    [device.close()] is not called; an interrupt ends it with status 0
    after one call of [device.close()]; any other exception leaves [main]
    as it is, again without [device.close()].  Nothing is logged after the
    failing call but the error line. *)
Theorem connect_phase_exits (connect init : result unit) (st : Startup) :
  let run := main_connect connect init st in
  let closes := st_device_close_calls run.2 - st_device_close_calls st in
  match first_failure connect init with
  | None => run.1 = Ok () ∧ closes = 0
  | Some RuntimeError =>
      run.1 = Raise (SystemExit 1) ∧ closes = 0
      ∧ ∃ lines, st_log run.2 = st_log st ++ lines ++ [ErrorRuntimeError]
  | Some KeyboardInterrupt => run.1 = Raise (SystemExit 0) ∧ closes = 1
  | Some e => run.1 = Raise e ∧ closes = 0
  end
  ∧ (is_Ok run.1 = true →
     st_log run.2 = st_log st ++ [InfoConnecting; InfoConnectionEstablished;
                                  InfoInitialising; InfoInitialisationCompleted]).
Proof.
  destruct st as [log n].
  destruct connect as [[]|e1]; [destruct init as [[]|e2]|].
  - simpl. split; [split; [done | lia] | intros _; by rewrite <- !app_assoc].
  - destruct e2; simpl; (split; [|done]); repeat split; try lia.
    exists [InfoConnecting; InfoConnectionEstablished; InfoInitialising].
    by rewrite <- !app_assoc.
  - destruct e1; simpl; (split; [|done]); repeat split; try lia.
    exists [InfoConnecting]. by rewrite <- !app_assoc.
Qed.

Lemma device_left_paused_witness :
  ∃ d, s_device (example_routine completing_lines).2 = pause d.
Proof.
  apply (device_left_paused (λ x _, x) mean_of_ints parse_example_voltages "cal.json"
           (example_session completing_lines)).
  left. vm_compute. reflexivity.
Defined.

(** ** The calibration routine: when the file is written *)

Section calibration_completion.

Context {D R : Type} `{!Hantek1008 D R}.
Variable py_round : float → Z → float.
Variable average : list R → float.
Variable parse_voltages : string → option (list float).

Lemma read_test_voltages_Ok (fuel : nat) (s s' : Session D) (tvs : list float) :
  read_test_voltages parse_voltages fuel s = (Ok tvs, s') →
  ∃ prompts in_str,
    s_transcript s' = s_transcript s ++ (AskVoltages <$> prompts) ++ [AskVoltages in_str]
    ∧ Forall (λ l, parse_voltages l = None) prompts
    ∧ parse_voltages in_str = Some tvs.
Proof.
  revert s. induction fuel as [|fuel IH]; intros s; simpl; [done|].
  unfold mbind at 1, M_bind at 1.
  destruct (input AskVoltages s) as [[in_str|e] s1] eqn:Hin;
    apply input_inv in Hin as [[? ->]|(line & Hr & Hdev & Htr & Hdata & Hwr)]; try done;
    cbv beta iota; try done.
  injection Hr as <-. destruct (parse_voltages in_str) as [tvs'|] eqn:Hparse.
  - unfold mret, M_ret. intros [= <- <-]. exists [], in_str. done.
  - intros (prompts & in_str' & Htr' & Hnone & Hsome)%IH.
    exists (in_str :: prompts), in_str'. split; [|split; [by constructor | done]].
    rewrite Htr', Htr, <- !app_assoc. done.
Qed.

Lemma voltage_loop_Next (c : Z) (tvs : list float) (s s' : Session D) :
  voltage_loop py_round average c tvs s = (Ok Next, s') →
  ∃ cells, s_transcript s' = s_transcript s ++ cells ∧ channel_cells tvs c cells.
Proof.
  revert s. induction tvs as [|tv tvs IH]; intros s; simpl.
  - unfold mret, M_ret. intros [= <-]. exists []. rewrite app_nil_r. split; [done|].
    exists []. split; [|done]. exists []. split; [constructor | by left].
  - unfold mbind at 1, M_bind at 1.
    destruct (input (AskCell c tv) s) as [[cmd|e] s1] eqn:Hin;
      apply input_inv in Hin as [[? ->]|(line & Hr & Hdev & Htr & Hdata & Hwr)]; try done;
      cbv beta iota; try done.
    injection Hr as <-.
    destruct (String.eqb_spec cmd "q") as [->|Hq]; [done|].
    destruct (String.eqb_spec cmd "ss") as [->|Hss].
    { unfold mret, M_ret. intros [= <-]. exists [AskCell c tv "ss"]. split; [done|].
      exists ["ss"%string]. split; [|by destruct tvs].
      exists []. split; [constructor|]. right. split; [done | simpl; lia]. }
    assert (∀ s2, s_transcript s2 = s_transcript s1 →
              voltage_loop py_round average c tvs s2 = (Ok Next, s') →
              ∃ cells, s_transcript s' = s_transcript s ++ cells
                       ∧ channel_cells (tv :: tvs) c cells) as Hrest.
    { intros s2 Htr2 (cells & Hcells & cmds & (before & Hbefore & Hcase) & ->)%IH.
      exists (AskCell c tv cmd :: zip_with (AskCell c) tvs cmds).
      split; [rewrite Hcells, Htr2, Htr, <- app_assoc; done|].
      exists (cmd :: cmds). split; [|done].
      exists (cmd :: before). split; [by constructor|].
      destruct Hcase as [[-> Hlen]|[-> Hlen]].
      - left. split; [done | simpl; by rewrite Hlen].
      - right. split; [done | simpl; lia]. }
    destruct (String.eqb_spec cmd "s") as [->|Hs]; [by apply Hrest|].
    unfold mbind at 1, M_bind at 1.
    destruct (measure py_round average c tv s1) as [[[]|e] s2] eqn:Hm; cbv beta iota; [|done].
    apply measure_inv in Hm as (Htr2 & _). by apply Hrest.
Qed.

Lemma channel_loop_Next (tvs : list float) (chans : list Z) (s s' : Session D) :
  channel_loop py_round average tvs chans s = (Ok Next, s') →
  ∃ parts, s_transcript s' = s_transcript s ++ concat parts
           ∧ Forall2 (channel_cells tvs) chans parts.
Proof.
  revert s. induction chans as [|c chans IH]; intros s; simpl.
  - unfold mret, M_ret. intros [= <-]. exists []. simpl. rewrite app_nil_r.
    split; [done | constructor].
  - unfold mbind at 1, M_bind at 1, set_calibration_data at 1, modify at 1. cbv beta iota.
    set (s0 := {| s_device := s_device s; s_stdin := s_stdin s;
                  s_transcript := s_transcript s;
                  s_calibration_data := <[c:=[]]> (s_calibration_data s);
                  s_written := s_written s |}).
    unfold mbind at 1, M_bind at 1.
    destruct (voltage_loop py_round average c tvs s0) as [[f1|e] s1] eqn:Hv;
      cbv beta iota; [|done].
    destruct f1; [|done].
    apply voltage_loop_Next in Hv as (cells & Htr1 & Hcells).
    intros (parts & Htr2 & Hparts)%IH.
    exists (cells :: parts). split; [|by constructor].
    simpl. rewrite Htr2, Htr1, <- app_assoc. done.
Qed.

(** A written file means that the voltages were read and every channel was
    settled. *)
Lemma calibration_routine_written (path : string) (s : Session D) :
  let run := calibration_routine py_round average parse_voltages path s in
  s_written run.2 ≠ s_written s →
  ∃ prompts in_str test_voltages parts,
    s_transcript run.2
    = s_transcript s ++ (AskVoltages <$> prompts) ++ [AskVoltages in_str] ++ concat parts
    ∧ Forall (λ l, parse_voltages l = None) prompts
    ∧ parse_voltages in_str = Some test_voltages
    ∧ Forall2 (channel_cells test_voltages) (py_range 0 8) parts.
Proof.
  intros run. unfold run. clear run.
  destruct (calibration_routine py_round average parse_voltages path s) as [r s'] eqn:Hrun.
  cbn [fst snd]. intros Hne.
  apply calibration_routine_stages in Hrun
    as [(e & Hread & _)|(tvs & s1 & Hread & Hrun)].
  { apply read_test_voltages_spec in Hread as (Hw1 & _). done. }
  pose proof (read_test_voltages_spec _ _ _ _ _ Hread) as (Hw1 & _).
  cbn [s_written] in Hw1.
  apply read_test_voltages_Ok in Hread as (prompts & in_str & Htr1 & Hnone & Hsome).
  cbn [s_transcript] in Htr1.
  destruct Hrun as [(e & Hloop & _)|[[Hloop _]|(s2 & Hloop & _ & _ & Htr & _ & _)]].
  - destruct (channel_loop_spec py_round average _ _ _ _ _ NoDup_py_range_0_8 Hloop)
      as [Hw2 _]. congruence.
  - destruct (channel_loop_spec py_round average _ _ _ _ _ NoDup_py_range_0_8 Hloop)
      as [Hw2 _]. congruence.
  - apply channel_loop_Next in Hloop as (parts & Htr2 & Hparts).
    exists prompts, in_str, tvs, parts. split; [|done].
    rewrite Htr, Htr2, Htr1, <- !app_assoc. done.
Qed.

(** C7.  A run of the routine asks the operator a sequence of questions.
    If some cell is answered with [q], that answer is the last one, the
    routine returns at once and writes no file, whatever was measured
    before.  The routine writes at most one file, the mapping it holds at
    its end, and it writes it exactly when it returns without any cell
    answered with [q].  When the file is written, the transcript of the
    run is complete: the prompts for the voltages up to the first line
    that parses, giving the test voltages, and then, for each of the
    channels 0..7 in order, the cells of that channel, one per test
    voltage in order, up to the last voltage or to the answer [ss]; and
    the mapping written has exactly the channel ids 0..7 as keys. *)
Theorem quit_writes_nothing (path : string) (s : Session D) :
  let run := calibration_routine py_round average parse_voltages path s in
  ∃ asked,
    s_transcript run.2 = s_transcript s ++ asked
    ∧ (∀ c v, AskCell c v "q" ∈ asked →
         run.1 = Ok () ∧ s_written run.2 = s_written s
         ∧ ∃ before, asked = before ++ [AskCell c v "q"] ∧ no_quit before)
    ∧ (s_written run.2 = s_written s
       ∨ s_written run.2 = s_written s ++ [(path, s_calibration_data run.2)])
    ∧ (s_written run.2 ≠ s_written s ↔ run.1 = Ok () ∧ no_quit asked)
    ∧ (s_written run.2 ≠ s_written s →
         (∀ c, is_Some (s_calibration_data run.2 !! c) ↔ (0 ≤ c < 8)%Z)
         ∧ ∃ prompts in_str test_voltages parts,
             asked = (AskVoltages <$> prompts) ++ [AskVoltages in_str] ++ concat parts
             ∧ Forall (λ l, parse_voltages l = None) prompts
             ∧ parse_voltages in_str = Some test_voltages
             ∧ Forall2 (channel_cells test_voltages) (py_range 0 8) parts).
Proof.
  intros run.
  pose proof (calibration_routine_written path s) as Hwritten. fold run in Hwritten.
  destruct (calibration_routine_spec py_round average parse_voltages path s)
    as (asked & Htr & Hcases). fold run in Htr, Hcases.
  exists asked. split; [done|].
  assert (∀ x : string * gmap Z (list Test), s_written s ++ [x] ≠ s_written s) as Hgrow.
  { intros x Heq%(f_equal length). rewrite length_app in Heq. simpl in Heq. lia. }
  destruct Hcases as [(before & c0 & v0 & -> & Hnq & Hr & Hw)
                     |[(Hnq & Hw & e & Hr)|(Hnq & Hr & Hw & Hdec & Hdom & _)]].
  - split.
    { intros c v [Hin|Hin%list_elem_of_singleton]%elem_of_app; [by destruct (Hnq c v)|].
      injection Hin as -> ->. eauto. }
    split; [by left|]. split; [|by intros []].
    split; [by intros [] | intros [_ Hno]].
    destruct (Hno c0 v0). apply elem_of_app. right. apply list_elem_of_here.
  - split; [intros c v Hin; by destruct (Hnq c v)|].
    split; [by left|]. split; [|by intros []].
    split; [by intros [] | intros [Hok _]; congruence].
  - split; [intros c v Hin; by destruct (Hnq c v)|].
    split; [by right|]. split.
    { split; [done | intros _; rewrite Hw; apply Hgrow]. }
    intros Hne. split; [done|].
    destruct (Hwritten Hne) as (prompts & in_str & tvs & parts & Htr' & Hrest).
    exists prompts, in_str, tvs, parts. split; [|done].
    rewrite Htr in Htr'. by apply app_inv_head in Htr'.
Qed.

End calibration_completion.

(** ** The export when statements fail *)

Section export_statement_facts.

Context {V : Type}.
Variable py_round : float → Z → float.
Variable faults : nat → option exn.

Lemma wrote_refl (s : Sink) (w : World V) : wrote s w w [].
Proof. unfold wrote. by rewrite app_nil_r. Qed.

Lemma wrote_trans (s : Sink) (w1 w2 w3 : World V) (t1 t2 : list (Line V)) :
  wrote s w1 w2 t1 → wrote s w2 w3 t2 → wrote s w1 w3 (t1 ++ t2).
Proof.
  intros (H1 & H2 & H3 & H4) (H5 & H6 & H7 & H8). unfold wrote.
  rewrite H5, H1, H6, H2, H7, H3, H8, H4, app_assoc. done.
Qed.

Lemma no_fault_between_split (a b c : nat) :
  (a ≤ b)%nat → (b ≤ c)%nat → no_fault_between faults a c →
  no_fault_between faults a b ∧ no_fault_between faults b c.
Proof. intros Hab Hbc H. split; intros k Hk; apply H; lia. Qed.

(** A statement that appends [ls] to the sink. *)
Lemma writes_all_stmt (s : Sink) (m : M (World V) unit) (ls : list (Line V)) :
  (∀ w, w_csv_file w = Opened s → ∃ w', m w = (Ok (), w') ∧ wrote s w w' ls) →
  writes_all faults s ls (stmt faults m).
Proof.
  intros Hm.
  assert (∀ p r p', w_csv_file (p_world p) = Opened s → stmt faults m p = (r, p') →
            p_clock p' = S (p_clock p)
            ∧ ((faults (p_clock p) = None ∧ r = Ok () ∧ wrote s (p_world p) (p_world p') ls)
               ∨ (∃ e, faults (p_clock p) = Some e ∧ r = Raise e
                       ∧ p_world p' = p_world p))) as Hstep.
  { intros p r p' Hs. unfold stmt. destruct (faults (p_clock p)) as [e|] eqn:Hf.
    - intros [= <- <-]. split; [done|]. right. eauto.
    - destruct (Hm _ Hs) as (w' & -> & Hw). intros [= <- <-]. split; [done|]. by left. }
  split.
  - intros p r p' Hs Hrun. destruct (Hstep p r p' Hs Hrun) as [Hclock Hcase].
    split; [lia|].
    destruct Hcase as [(Hf & -> & Hw)|(e & Hf & -> & Hw)].
    + exists ls. done.
    + exists []. rewrite Hw. split; [apply wrote_refl|]. split; [apply prefix_nil|].
      split; [done|]. intros Hno. rewrite Hno in Hf by lia. done.
  - intros p r p' Hs Hrun Hno. destruct (Hstep p r p' Hs Hrun) as [Hclock Hcase].
    destruct Hcase as [(Hf & -> & Hw)|(e & Hf & -> & Hw)]; [done|].
    rewrite Hno in Hf by lia. done.
Qed.

Lemma writes_all_csv_file_write (s : Sink) (ls : list (Line V)) :
  writes_all faults s ls (stmt faults (csv_file_write ls)).
Proof.
  apply writes_all_stmt. intros w Hs.
  destruct (csv_file_write_spec s ls w Hs) as (w' & Hw & Hs' & Ht & Hl & Hd).
  exists w'. split; [done|]. unfold wrote. rewrite app_nil_r in Hl.
  repeat split; try done. congruence.
Qed.

Lemma writes_all_stdout_write (s : Sink) (ls : list (Line V)) :
  writes_all faults s (printed s ls) (stmt faults (stdout_write ls)).
Proof.
  apply writes_all_stmt. intros w Hs.
  destruct (stdout_write_spec s ls w) as (w' & Hw & Hs' & Ht & Hl & Hd).
  exists w'. split; [done|]. unfold wrote. rewrite app_nil_r in Hl. done.
Qed.

Lemma writes_all_yield (s : Sink) :
  writes_all faults s [] (stmt faults (mret () : M (World V) unit)).
Proof.
  apply writes_all_stmt. intros w Hs. exists w. split; [done | apply wrote_refl].
Qed.

Lemma writes_all_ret (s : Sink) : writes_all faults s [] (mret () : M (Process V) unit).
Proof.
  split.
  - intros p r p' Hs [= <- <-]. split; [done|]. exists []. split; [apply wrote_refl|]. done.
  - by intros p r p' Hs [= <- <-].
Qed.

(** The last step of a generator: it ends or raises, and writes nothing. *)
Lemma writes_end (s : Sink) (m : M (World V) unit) :
  (∀ w, (m w).2 = w) → writes faults s [] (stmt faults m).
Proof.
  intros Hm p r p' Hs. unfold stmt.
  destruct (faults (p_clock p)); intros [= <- <-]; cbn [p_clock p_world];
    (split; [lia|]); exists []; rewrite ?Hm; (split; [apply wrote_refl | done]).
Qed.

Lemma writes_seq (s : Sink) (f1 f2 : list (Line V)) (m1 m2 : M (Process V) unit) :
  writes_all faults s f1 m1 → writes faults s f2 m2 →
  writes faults s (f1 ++ f2) (m1;; m2).
Proof.
  intros [H1 H1all] H2 p r p' Hs Hrun.
  unfold mbind, M_bind in Hrun. destruct (m1 p) as [[[]|e] p1] eqn:Hm1.
  - destruct (H1 _ _ _ Hs Hm1) as (Hc1 & t1 & Hw1 & _ & Ht1 & _).
    specialize (Ht1 eq_refl). subst t1.
    assert (w_csv_file (p_world p1) = Opened s) as Hs1
      by (destruct Hw1 as (_ & _ & -> & _); done).
    destruct (H2 _ _ _ Hs1 Hrun) as (Hc2 & t2 & Hw2 & Hp2 & Hok2 & Hno2).
    split; [lia|]. exists (f1 ++ t2). split; [by eapply wrote_trans|].
    split; [by apply prefix_app|]. split; [intros Hr; by rewrite Hok2|].
    intros Hno. apply (no_fault_between_split _ (p_clock p1)) in Hno as [_ Hno]; [|lia..].
    by rewrite Hno2.
  - injection Hrun as <- <-.
    destruct (H1 _ _ _ Hs Hm1) as (Hc1 & t1 & Hw1 & Hp1 & _ & _).
    split; [done|]. exists t1. split; [done|]. split; [by apply prefix_app_r|].
    split; [done|]. intros Hno. by specialize (H1all _ _ _ Hs Hm1 Hno).
Qed.

Lemma writes_all_seq (s : Sink) (f1 f2 : list (Line V)) (m1 m2 : M (Process V) unit) :
  writes_all faults s f1 m1 → writes_all faults s f2 m2 →
  writes_all faults s (f1 ++ f2) (m1;; m2).
Proof.
  intros H1 [H2 H2all]. split; [by apply writes_seq|].
  destruct H1 as [H1 H1all].
  intros p r p' Hs Hrun Hno.
  unfold mbind, M_bind in Hrun. destruct (m1 p) as [[[]|e] p1] eqn:Hm1.
  - destruct (H1 _ _ _ Hs Hm1) as (Hc1 & t1 & Hw1 & _).
    assert (w_csv_file (p_world p1) = Opened s) as Hs1
      by (destruct Hw1 as (_ & _ & -> & _); done).
    destruct (H2 _ _ _ Hs1 Hrun) as (Hc2 & _).
    apply (no_fault_between_split _ (p_clock p1)) in Hno as [_ Hno]; [|lia..].
    by apply (H2all _ _ _ Hs1 Hrun).
  - injection Hrun as <- <-. by specialize (H1all _ _ _ Hs Hm1 Hno).
Qed.

Lemma writes_all_write_lines (s : Sink) (ls : list (Line V)) :
  writes_all faults s ls (write_lines faults ls).
Proof.
  induction ls as [|l ls IH]; simpl; [apply writes_all_ret|].
  apply (writes_all_seq s [l] ls); [apply writes_all_csv_file_write | done].
Qed.

Lemma writes_lift {A} (s : Sink) (full : list (Line V)) (r : result A)
    (k : A → M (Process V) unit) :
  (∀ a, r = Ok a → writes faults s full (k a)) →
  (∀ e, r = Raise e → full = []) →
  writes faults s full (lift r ≫= k).
Proof.
  intros Hok Hraise. destruct r as [a|e].
  - exact (Hok a eq_refl).
  - rewrite (Hraise e eq_refl). intros p r p' Hs [= <- <-].
    split; [done|]. exists []. split; [apply wrote_refl | done].
Qed.

Lemma roll_loop_writes (s : Sink) (selected_channels : list Z) (batches : list (Batch V))
    (ending : stream_end) :
  writes faults s (roll_text selected_channels batches)
    (roll_loop_stmts faults selected_channels batches ending).
Proof.
  induction batches as [|b batches IH]; simpl.
  - apply writes_end. by destruct ending.
  - apply (writes_seq s [] _ _ _ (writes_all_yield s)).
    apply writes_lift.
    + intros channel_data ->. unfold roll_batch_lines. rewrite <- app_assoc.
      apply writes_seq; [apply writes_all_write_lines|].
      apply writes_seq; [apply writes_all_csv_file_write | done].
    + by intros e ->.
Qed.

Lemma normal_loop_writes (s : Sink) (batches : list (DoubleBatch V)) (ending : exn) :
  writes faults s (normal_text s batches) (normal_loop_stmts faults batches ending).
Proof.
  induction batches as [|b batches IH]; simpl.
  - by apply writes_end.
  - apply (writes_seq s [] _ _ _ (writes_all_yield s)).
    apply writes_lift; [|by intros e ->].
    intros c2 ->. apply writes_lift; [|by intros e ->].
    intros c3 ->.
    apply writes_seq; [apply writes_all_stdout_write|].
    apply writes_seq; [apply writes_all_write_lines|].
    apply writes_seq; [apply writes_all_write_lines|].
    apply (writes_seq s [UnixTime (time2 b)] (normal_text s batches));
      [apply writes_all_csv_file_write | done].
Qed.

Lemma open_csv_file_stmts_spec (csv_file_path : string) (p p1 : Process V)
    (r : result unit) :
  open_csv_file_stmts faults csv_file_path p = (r, p1) →
  let s := sink_of_path csv_file_path in
  (p_clock p ≤ p_clock p1)%nat
  ∧ w_device_close_calls (p_world p1) = w_device_close_calls (p_world p)
  ∧ sink_content s (p_world p1) = sink_content s (p_world p)
  ∧ ((r = Ok () ∧ w_csv_file (p_world p1) = Opened s
      ∧ w_log (p_world p1) = w_log (p_world p) ++ [open_message csv_file_path]
      ∧ no_fault_between faults (p_clock p) (p_clock p1))
     ∨ (∃ e, r = Raise e ∧ w_csv_file (p_world p1) = w_csv_file (p_world p)
             ∧ ¬ no_fault_between faults (p_clock p) (p_clock p1))).
Proof.
  unfold open_csv_file_stmts, sink_of_path, open_message.
  destruct (String.eqb csv_file_path "-"); [|destruct (py_endswith csv_file_path ".xz")];
    unfold mbind, M_bind, stmt;
    (destruct (faults (p_clock p)) as [e0|] eqn:H0; cbn;
     [|destruct (faults (S (p_clock p))) as [e1|] eqn:H1; cbn]);
    intros [= <- <-]; cbn; rewrite ?lookup_insert_eq, ?app_nil_r;
    (split; [lia|]); (split; [done|]); (split; [done|]);
    try (right; eexists; split; [done|]; split; [done|];
         intros Hno;
         first [by rewrite Hno in H1 by lia | by rewrite Hno in H0 by lia]);
    left; (split; [done|]); (split; [done|]); (split; [done|]);
    intros k Hk; assert (k = p_clock p ∨ k = S (p_clock p)) as [-> | ->] by lia; done.
Qed.

(** The [try] block: started with [csv_file] unbound or bound, it leaves
    the device alone and appends to the sink a prefix of the header and
    the text of the batches, and only once the sink is open. *)
Lemma export_body_stmts_spec (csv_file_path : string) (selected_channels : list Z)
    (vertical_scale_factor : list float) (roll_mode : bool) (raw_or_volt : string)
    (sampling_rate : Z) (measured_sampling_rate : option float) (now : float)
    (device : Device V) (p p' : Process V) (r : result unit) :
  export_body_stmts py_round faults csv_file_path selected_channels vertical_scale_factor
    roll_mode raw_or_volt sampling_rate measured_sampling_rate now device p = (r, p') →
  let sel := export_channels raw_or_volt selected_channels in
  let s := sink_of_path csv_file_path in
  (p_clock p ≤ p_clock p')%nat
  ∧ w_device_close_calls (p_world p') = w_device_close_calls (p_world p)
  ∧ (∃ t, sink_content s (p_world p') = sink_content s (p_world p) ++ t
          ∧ t `prefix_of`
              (header_lines py_round sel sampling_rate measured_sampling_rate now
                 vertical_scale_factor (get_calibration_data device)
               ++ export_text roll_mode s sel device)
          ∧ (no_fault_between faults (p_clock p) (p_clock p') →
             t = header_lines py_round sel sampling_rate measured_sampling_rate now
                   vertical_scale_factor (get_calibration_data device)
                 ++ export_text roll_mode s sel device))
  ∧ (r = Ok () → w_csv_file (p_world p') = Opened s)
  ∧ (w_csv_file (p_world p') = Opened s ∨ w_csv_file (p_world p') = w_csv_file (p_world p)).
Proof.
  intros Hrun sel s. unfold export_body_stmts in Hrun. fold sel in Hrun. cbv zeta in Hrun.
  set (hdr := header_lines py_round sel sampling_rate measured_sampling_rate now
                vertical_scale_factor (get_calibration_data device)) in *.
  unfold mbind at 1, M_bind at 1 in Hrun.
  destruct (open_csv_file_stmts faults csv_file_path p) as [ro p1] eqn:Hopen.
  apply open_csv_file_stmts_spec in Hopen as (Hc1 & Hd1 & Ht1 & Hcase). fold s in Ht1, Hcase.
  destruct Hcase as [(-> & Hs1 & _ & Hno1)|(e & -> & Hs1 & Hfault)].
  2:{ injection Hrun as <- <-. split; [done|]. split; [done|]. split.
      - exists []. rewrite app_nil_r. split; [done|]. split; [apply prefix_nil | done].
      - split; [done | by right]. }
  assert (writes faults s (hdr ++ export_text roll_mode s sel device)
            (write_lines faults hdr;;
             if roll_mode
             then roll_loop_stmts faults sel (roll_samples device) (roll_end device)
             else normal_loop_stmts faults (normal_samples device) (normal_end device)))
    as Hwrites.
  { apply writes_seq; [apply writes_all_write_lines|].
    unfold export_text. destruct roll_mode; [apply roll_loop_writes | apply normal_loop_writes]. }
  destruct (Hwrites _ _ _ Hs1 Hrun) as (Hc2 & t & (Ht & _ & Hs2 & Hd2) & Hpre & _ & Hall).
  split; [lia|]. split; [congruence|]. split.
  - exists t. split; [congruence|]. split; [done|].
    intros Hno. apply Hall. intros k Hk. apply Hno. lia.
  - split; [intros _|left]; congruence.
Qed.

(** The statements after the [try]. *)
Lemma export_shutdown_stmts_spec (s : Sink) (p p' : Process V) (r : result unit) :
  export_shutdown_stmts faults p = (r, p') →
  sink_content s (p_world p') = sink_content s (p_world p)
  ∧ w_device_close_calls (p_world p')
    = (if is_Ok r then S (w_device_close_calls (p_world p))
       else w_device_close_calls (p_world p))
  ∧ (r = Ok () → ∃ s0, (w_csv_file (p_world p) = Opened s0
                        ∨ w_csv_file (p_world p) = Closed s0)
                       ∧ w_csv_file (p_world p') = Closed s0)
  ∧ (no_fault_from faults (p_clock p) →
     match w_csv_file (p_world p) with
     | NotOpened => r = Raise UnboundLocalError ∧ w_log (p_world p') = w_log (p_world p)
     | _ => r = Ok () ∧ w_log (p_world p') = w_log (p_world p) ++ [InfoExportFinished]
     end).
Proof.
  unfold export_shutdown_stmts, mbind, M_bind, stmt, csv_file_close.
  destruct (faults (p_clock p)) as [e0|] eqn:H0; cbn.
  { intros [= <- <-]. cbn. split; [done|]. split; [done|]. split; [done|].
    intros Hno. rewrite (Hno (p_clock p)) in H0 by lia. done. }
  destruct (w_csv_file (p_world p)) as [|s0|s0] eqn:Hcsv; cbn.
  { intros [= <- <-]. cbn. split; [done|]. split; [done|]. split; done. }
  all: destruct (faults (S (p_clock p))) as [e1|] eqn:H1; cbn;
    [intros [= <- <-]; cbn; (split; [by destruct s|]); (split; [done|]); (split; [done|]);
     intros Hno; rewrite (Hno (S (p_clock p))) in H1 by lia; done|];
    destruct (faults (S (S (p_clock p)))) as [e2|] eqn:H2; cbn;
    [intros [= <- <-]; cbn; (split; [by destruct s|]); (split; [done|]); (split; [done|]);
     intros Hno; rewrite (Hno (S (S (p_clock p)))) in H2 by lia; done|];
    intros [= <- <-]; cbn; (split; [by destruct s|]); (split; [done|]);
    (split; [intros _; exists s0; split; [auto | done] | done]).
Qed.

End export_statement_facts.

Lemma main_export_stmts_cases {V : Type} (py_round : float → Z → float)
    (faults : nat → option exn) (csv_file_path : string) (selected_channels : list Z)
    (vertical_scale_factor : list float) (roll_mode : bool) (raw_or_volt : string)
    (sampling_rate : Z) (measured_sampling_rate : option float) (now : float)
    (device : Device V) (p : Process V) :
  let body := export_body_stmts py_round faults csv_file_path selected_channels
                vertical_scale_factor roll_mode raw_or_volt sampling_rate
                measured_sampling_rate now device p in
  main_export_stmts py_round faults csv_file_path selected_channels vertical_scale_factor
    roll_mode raw_or_volt sampling_rate measured_sampling_rate now device p
  = match exit_path_of body.1 with
    | Completed => export_shutdown_stmts faults body.2
    | Interrupted =>
        (stmt faults (world_log InfoCanceledByUser);; export_shutdown_stmts faults) body.2
    | Fatal _ => body
    end.
Proof.
  intros body. unfold main_export_stmts, try_except_KeyboardInterrupt.
  unfold mbind at 1, M_bind at 1. fold body.
  destruct body as [[[]|e] pb]; [done|]. destruct e; done.
Qed.


(** X12.  The text of a session, whatever fails.  What a session appends
    to its sink is always a prefix of the full text of the session: the
    header, then for every batch handled the rows of the batch followed by
    one timestamp line (in normal mode, when the sink is standard output,
    the two lengths printed by line 178 come before the rows of their
    batch).  The lines come in this order and none is left out in the
    middle; the text is cut where a statement failed, and it is the full
    text when no statement fails. *)
Theorem export_text_prefix {V : Type} (py_round : float → Z → float)
    (faults : nat → option exn) (csv_file_path : string) (selected_channels : list Z)
    (vertical_scale_factor : list float) (roll_mode : bool) (raw_or_volt : string)
    (sampling_rate : Z) (measured_sampling_rate : option float) (now : float)
    (device : Device V) (p : Process V) :
  let sel := export_channels raw_or_volt selected_channels in
  let full := header_lines py_round sel sampling_rate measured_sampling_rate now
                vertical_scale_factor (get_calibration_data device)
              ++ export_text roll_mode (sink_of_path csv_file_path) sel device in
  let run := main_export_stmts py_round faults csv_file_path selected_channels
               vertical_scale_factor roll_mode raw_or_volt sampling_rate
               measured_sampling_rate now device p in
  ∃ text,
    sink_text csv_file_path (p_world run.2) = sink_text csv_file_path (p_world p) ++ text
    ∧ text `prefix_of` full
    ∧ (no_fault_from faults (p_clock p) → text = full).
Proof.
  intros sel full run. unfold sink_text. set (s := sink_of_path csv_file_path) in *.
  pose proof (main_export_stmts_cases py_round faults csv_file_path selected_channels
                vertical_scale_factor roll_mode raw_or_volt sampling_rate
                measured_sampling_rate now device p) as Hrun.
  fold run in Hrun. cbv zeta in Hrun.
  destruct (export_body_stmts py_round faults csv_file_path selected_channels
              vertical_scale_factor roll_mode raw_or_volt sampling_rate
              measured_sampling_rate now device p) as [rb pb] eqn:Hbody.
  apply export_body_stmts_spec in Hbody as (Hcb & _ & (t & Htb & Hpre & Hall) & _ & _).
  fold sel s full in Htb, Hpre, Hall. cbn [fst snd] in Hrun.
  exists t. split; [|split; [done|]].
  2:{ intros Hno. apply Hall. intros k Hk. apply Hno. lia. }
  assert (∀ p0, sink_content s (p_world p0) = sink_content s (p_world p) ++ t →
            sink_content s (p_world (export_shutdown_stmts faults p0).2)
            = sink_content s (p_world p) ++ t) as Hshutdown.
  { intros p0 Ht0. destruct (export_shutdown_stmts faults p0) as [r p'] eqn:Hsd.
    apply (export_shutdown_stmts_spec faults s) in Hsd as (Ht' & _). cbn [snd]. congruence. }
  destruct (exit_path_of rb).
  - rewrite Hrun. by apply Hshutdown.
  - rewrite Hrun. unfold mbind, M_bind, stmt.
    destruct (faults (p_clock pb)); cbn; [done|].
    apply Hshutdown. rewrite <- Htb. by destruct s.
  - by rewrite Hrun.
Qed.


(** [open] raises FileNotFoundError: the exception leaves the export at
    once; the opening is logged, nothing is written, [csv_file] is unbound
    and the device is not closed. *)
Example open_failure_scenario :
  let run := example_export_stmts (fault_at 1 FileNotFoundError) interrupted_device
               fresh_process in
  run.1 = Raise FileNotFoundError
  ∧ w_log (p_world run.2) = [InfoExportFile "out.csv"]
  ∧ w_files (p_world run.2) = ∅
  ∧ w_csv_file (p_world run.2) = NotOpened
  ∧ w_device_close_calls (p_world run.2) = 0.
Proof. vm_compute. repeat split; reflexivity. Qed.

(** The operator interrupts before the sink is opened: the cancellation
    is logged, [csv_file.close()] of line 189 raises UnboundLocalError, and
    the device is not closed. *)
Example early_interrupt_scenario :
  let run := example_export_stmts (fault_at 1 KeyboardInterrupt) interrupted_device
               fresh_process in
  run.1 = Raise UnboundLocalError
  ∧ w_log (p_world run.2) = [InfoExportFile "out.csv"; InfoCanceledByUser]
  ∧ w_csv_file (p_world run.2) = NotOpened
  ∧ w_device_close_calls (p_world run.2) = 0.
Proof. vm_compute. repeat split; reflexivity. Qed.

(** The operator interrupts between lines 172 and 173, when the two rows
    of the batch are written and its timestamp is not: the export shuts
    down normally, and the text of the sink ends with the rows. *)
Example torn_batch_scenario :
  let run := example_export_stmts (fault_at 11 KeyboardInterrupt) interrupted_device
               fresh_process in
  run.1 = Ok ()
  ∧ last (sink_text "out.csv" (p_world run.2)) = Some (Row [6; 2]%Z)
  ∧ text_rows (sink_text "out.csv" (p_world run.2)) = [[5; 1]; [6; 2]]%Z
  ∧ w_csv_file (p_world run.2) = Closed (PlainFile "out.csv")
  ∧ w_device_close_calls (p_world run.2) = 1.
Proof. vm_compute. repeat split; reflexivity. Qed.

(** ** When no statement fails *)

Section no_faults_facts.

Context {V : Type}.
Variable py_round : float → Z → float.

Lemma same_run_bind {A B} (pre mid post : World V → Prop)
    (m : M (Process V) A) (n : M (World V) A)
    (k : A → M (Process V) B) (k' : A → M (World V) B) :
  same_run pre mid m n → (∀ a, same_run mid post (k a) (k' a)) →
  same_run pre post (m ≫= k) (n ≫= k').
Proof.
  intros Hm Hk p Hpre. destruct (Hm p Hpre) as (Hr & Hw & Hmid).
  unfold mbind, M_bind.
  destruct (m p) as [r1 p1], (n (p_world p)) as [r2 w2]. cbn [fst snd] in *. subst r2 w2.
  destruct r1 as [a|e]; [|done].
  apply (Hk a p1). by apply Hmid.
Qed.

Lemma same_run_stmt {A} (pre post : World V → Prop) (m : M (World V) A) :
  (∀ w, pre w → is_Ok (m w).1 = true → post (m w).2) →
  same_run pre post (stmt no_faults m) m.
Proof. intros Hm p Hpre. unfold stmt, no_faults. cbn. split; [done|]. split; [done|]. auto. Qed.

Lemma same_run_lift {A} (pre : World V → Prop) (r : result A) :
  same_run pre pre (lift r) (lift r).
Proof. intros p Hpre. unfold lift. cbn. auto. Qed.

Lemma csv_file_write_ready (s : Sink) (ls : list (Line V)) (w : World V) :
  sink_ready s w →
  (csv_file_write ls w).1 = Ok () ∧ sink_ready s (csv_file_write ls w).2.
Proof.
  intros [Hs Hex]. unfold csv_file_write. rewrite Hs.
  destruct s; cbn; (split; [done|]); (split; [done|]); try done;
    simpl; rewrite lookup_insert_eq; eauto.
Qed.

Lemma csv_file_write_nil (s : Sink) (w : World V) :
  sink_ready s w → csv_file_write [] w = (Ok (), w).
Proof.
  intros [Hs Hex]. unfold csv_file_write. rewrite Hs. destruct w as [lg out files csv n].
  simpl in *. subst csv.
  destruct s; unfold stdout_write, file_append, modify; simpl; rewrite ?app_nil_r;
    [done|..]; destruct Hex as [x Hx]; rewrite Hx; simpl; rewrite insert_id; done.
Qed.

Lemma csv_file_write_cons (s : Sink) (l : Line V) (ls : list (Line V)) (w : World V) :
  sink_ready s w →
  csv_file_write (l :: ls) w = csv_file_write ls (csv_file_write [l] w).2.
Proof.
  intros [Hs Hex]. unfold csv_file_write. rewrite Hs.
  destruct s; unfold stdout_write, file_append, modify; simpl; rewrite ?Hs; simpl.
  - by rewrite <- app_assoc.
  - rewrite lookup_insert_eq, insert_insert_eq. simpl. by rewrite <- app_assoc.
  - rewrite lookup_insert_eq, insert_insert_eq. simpl. by rewrite <- app_assoc.
Qed.

Lemma same_run_write_lines (s : Sink) (ls : list (Line V)) :
  same_run (sink_ready s) (sink_ready s) (write_lines no_faults ls) (csv_file_write ls).
Proof.
  induction ls as [|l ls IH]; intros p Hready.
  - rewrite (csv_file_write_nil s) by done. cbn. auto.
  - rewrite (csv_file_write_cons s) by done.
    destruct (csv_file_write_ready s [l] (p_world p) Hready) as [Hok Hready1].
    cbn [write_lines]. unfold mbind, M_bind, stmt, no_faults. cbn match. rewrite Hok.
    apply (IH {| p_world := (csv_file_write [l] (p_world p)).2; p_clock := S (p_clock p) |}).
    done.
Qed.

Lemma same_run_post {A} (pre post post' : World V → Prop) (m : M (Process V) A)
    (n : M (World V) A) :
  same_run pre post m n → (∀ w, post w → post' w) → same_run pre post' m n.
Proof.
  intros H Himp p Hpre. destruct (H p Hpre) as (? & ? & ?). auto.
Qed.

Lemma same_run_roll_loop (s : Sink) (selected_channels : list Z)
    (batches : list (Batch V)) (ending : stream_end) :
  same_run (sink_ready s) (sink_ready s)
    (roll_loop_stmts no_faults selected_channels batches ending)
    (roll_loop selected_channels batches ending).
Proof.
  induction batches as [|b batches IH]; cbn [roll_loop_stmts roll_loop].
  - apply same_run_stmt. intros w Hw _. by destruct ending.
  - change (same_run (sink_ready s) (sink_ready s)
              (stmt no_faults (mret ()) ≫= λ _,
                 channel_data ← lift (mapM (py_getitem (data b)) selected_channels);
                 write_lines no_faults (Row <$> py_zip_star channel_data);;
                 stmt no_faults (csv_file_write [UnixTime (time b)]);;
                 roll_loop_stmts no_faults selected_channels batches ending)
              (mret () ≫= λ _,
                 channel_data ← lift (mapM (py_getitem (data b)) selected_channels);
                 csv_file_write (Row <$> py_zip_star channel_data);;
                 csv_file_write [UnixTime (time b)];;
                 roll_loop selected_channels batches ending)).
    eapply same_run_bind; [by apply same_run_stmt|]. intros _.
    eapply same_run_bind; [apply same_run_lift|]. intros channel_data.
    eapply same_run_bind; [apply same_run_write_lines|]. intros _.
    eapply same_run_bind; [|intros _; apply IH].
    apply same_run_stmt. intros w Hw _. by apply csv_file_write_ready.
Qed.

Lemma same_run_normal_loop (s : Sink) (batches : list (DoubleBatch V)) (ending : exn) :
  same_run (sink_ready s) (sink_ready s)
    (normal_loop_stmts no_faults batches ending) (normal_loop batches ending).
Proof.
  induction batches as [|b batches IH]; cbn [normal_loop_stmts normal_loop].
  - by apply same_run_stmt.
  - change (same_run (sink_ready s) (sink_ready s)
              (stmt no_faults (mret ()) ≫= λ _,
                 c2 ← lift (py_getitem (channel_data2 b) 0);
                 c3 ← lift (py_getitem (channel_data3 b) 0);
                 stmt no_faults (stdout_write [PrintedLengths (length c2) (length c3)]);;
                 write_lines no_faults (Row <$> py_zip_star (channel_data2 b));;
                 write_lines no_faults (Row <$> py_zip_star (channel_data3 b));;
                 stmt no_faults (csv_file_write [UnixTime (time2 b)]);;
                 normal_loop_stmts no_faults batches ending)
              (mret () ≫= λ _,
                 c2 ← lift (py_getitem (channel_data2 b) 0);
                 c3 ← lift (py_getitem (channel_data3 b) 0);
                 stdout_write [PrintedLengths (length c2) (length c3)];;
                 csv_file_write (Row <$> py_zip_star (channel_data2 b));;
                 csv_file_write (Row <$> py_zip_star (channel_data3 b));;
                 csv_file_write [UnixTime (time2 b)];;
                 normal_loop batches ending)).
    eapply same_run_bind; [by apply same_run_stmt|]. intros _.
    eapply same_run_bind; [apply same_run_lift|]. intros c2.
    eapply same_run_bind; [apply same_run_lift|]. intros c3.
    eapply same_run_bind;
      [apply (same_run_stmt (sink_ready s) (sink_ready s)); intros w [Hw Hex] _;
       split; [done | by destruct s]|]. intros _.
    eapply same_run_bind; [apply same_run_write_lines|]. intros _.
    eapply same_run_bind; [apply same_run_write_lines|]. intros _.
    eapply same_run_bind; [|intros _; apply IH].
    apply same_run_stmt. intros w Hw _. by apply csv_file_write_ready.
Qed.

Lemma same_run_open_csv_file (csv_file_path : string) :
  same_run (λ _ : World V, True) (sink_ready (sink_of_path csv_file_path))
    (open_csv_file_stmts no_faults csv_file_path) (open_csv_file csv_file_path).
Proof.
  intros p _. unfold open_csv_file_stmts, open_csv_file, sink_of_path, sink_ready.
  destruct (String.eqb csv_file_path "-"); [|destruct (py_endswith csv_file_path ".xz")];
    cbn; (split; [done|]); (split; [done|]); intros _; (split; [done|]); try done;
    simpl; rewrite lookup_insert_eq; eauto.
Qed.

Lemma same_run_export_body (csv_file_path : string) (selected_channels : list Z)
    (vertical_scale_factor : list float) (roll_mode : bool) (raw_or_volt : string)
    (sampling_rate : Z) (measured_sampling_rate : option float) (now : float)
    (device : Device V) :
  let sel := export_channels raw_or_volt selected_channels in
  same_run (λ _ : World V, True) (λ _, True)
    (export_body_stmts py_round no_faults csv_file_path selected_channels
       vertical_scale_factor roll_mode raw_or_volt sampling_rate measured_sampling_rate
       now device)
    (open_csv_file csv_file_path;;
     csv_file_write (header_lines py_round sel sampling_rate measured_sampling_rate now
                       vertical_scale_factor (get_calibration_data device));;
     if roll_mode
     then roll_loop sel (roll_samples device) (roll_end device)
     else normal_loop (normal_samples device) (normal_end device)).
Proof.
  intros sel. unfold export_body_stmts. fold sel. cbv zeta.
  eapply same_run_bind; [apply same_run_open_csv_file|]. intros _.
  eapply same_run_bind; [apply same_run_write_lines|]. intros _.
  eapply same_run_post; [|done].
  destruct roll_mode; [apply same_run_roll_loop | apply same_run_normal_loop].
Qed.

Lemma same_run_try (pre : World V → Prop) (body handler : M (Process V) unit)
    (body' handler' : M (World V) unit) :
  same_run pre (λ _, True) body body' →
  same_run (λ _, True) (λ _, True) handler handler' →
  same_run pre (λ _, True) (try_except_KeyboardInterrupt body handler)
    (try_except_KeyboardInterrupt body' handler').
Proof.
  intros Hb Hh p Hpre. destruct (Hb p Hpre) as (Hr & Hw & _).
  unfold try_except_KeyboardInterrupt.
  destruct (body p) as [rb pb], (body' (p_world p)) as [rb' wb]. cbn [fst snd] in *.
  subst rb' wb. destruct rb as [[]|e]; [done|]. destruct e; try done. by apply Hh.
Qed.

(** When no statement fails, the export is [main_export]: the same result
    in the same world. *)
Lemma main_export_stmts_no_faults (csv_file_path : string) (selected_channels : list Z)
    (vertical_scale_factor : list float) (roll_mode : bool) (raw_or_volt : string)
    (sampling_rate : Z) (measured_sampling_rate : option float) (now : float)
    (device : Device V) (p : Process V) :
  let run := main_export_stmts py_round no_faults csv_file_path selected_channels
               vertical_scale_factor roll_mode raw_or_volt sampling_rate
               measured_sampling_rate now device p in
  let plain := main_export py_round csv_file_path selected_channels vertical_scale_factor
                 roll_mode raw_or_volt sampling_rate measured_sampling_rate now device
                 (p_world p) in
  run.1 = plain.1 ∧ p_world run.2 = plain.2.
Proof.
  intros run plain.
  assert (same_run (λ _ : World V, True) (λ _, True)
            (main_export_stmts py_round no_faults csv_file_path selected_channels
               vertical_scale_factor roll_mode raw_or_volt sampling_rate
               measured_sampling_rate now device)
            (main_export py_round csv_file_path selected_channels vertical_scale_factor
               roll_mode raw_or_volt sampling_rate measured_sampling_rate now device))
    as Hsame.
  { unfold main_export_stmts, main_export, export_shutdown_stmts. cbv zeta.
    eapply same_run_bind.
    - apply same_run_try; [apply same_run_export_body|].
      by apply (same_run_stmt _ (λ _, True)).
    - intros _.
      eapply same_run_bind; [by apply (same_run_stmt _ (λ _, True))|]. intros _.
      eapply same_run_bind; [by apply (same_run_stmt _ (λ _, True))|]. intros _.
      by apply same_run_stmt. }
  destruct (Hsame p I) as (H1 & H2 & _). done.
Qed.

End no_faults_facts.
